(** * The configuration draft/commit session of [streamlit_app.py]

    A shallow embedding of the session core of the Streamlit application:
    the quarter codec ([generate_quarters]), the configuration store
    ([load_spec_file]), the diff engine ([get_changed_variables]), the batch
    mutator ([apply_settings_to_variables]) and the recovery cycle
    ([check_for_temp_file], [save_final_config], the start of [main]).

    Python values are embedded by value; the batch mutator, whose
    specification is about aliasing of list objects, is embedded over an
    explicit store of list objects (module [Batch]). *)

From Stdlib Require Import ZArith List Bool Lia Ascii String.
From Stdlib Require Import Floats.SpecFloat.
From stdpp Require Import base gmap strings list pretty.

Open Scope string_scope.
Open Scope Z_scope.

(** ** Exceptions and results *)

(** The exceptions the embedded code can raise.  [StopScript] and
    [RerunScript] are the control-flow exceptions behind [st.stop()] and
    [st.rerun()]. *)
Inductive exn :=
| KeyError | TypeError | ValueError | IndexError | OverflowError
| AttributeError | JSONDecodeError | UnicodeDecodeError | RecursionError
| FileNotFoundError | OSError
| StopScript | RerunScript.

Inductive result (A : Type) :=
| Ok (a : A)
| Raise (e : exn).
Arguments Ok {A} a.
Arguments Raise {A} e.

Definition rbind {A B} (r : result A) (k : A -> result B) : result B :=
  match r with
  | Ok a => k a
  | Raise e => Raise e
  end.

Declare Scope py_scope.
Delimit Scope py_scope with py.
Notation "x <-- r ;; k" := (rbind r (fun x => k))
  (at level 100, r at next level, right associativity) : py_scope.
Open Scope py_scope.

Definition is_ok {A} (r : result A) : bool :=
  match r with Ok _ => true | Raise _ => false end.

(** ** Python values *)

(** The values [json.load] produces below the level of the variable records:
    [None], booleans, integers of any size, binary64 floats (with the
    infinities and NaN that Python's decoder accepts), text and arrays. *)
#[warnings="-register-all"]
Inductive pyval :=
| PNone
| PBool (b : bool)
| PInt (z : Z)
| PFloat (f : spec_float)
| PStr (s : string)
| PList (l : list pyval).

(** A Python [dict] with text keys, in insertion order.  Subscripting finds
    the entry of a key; iteration yields the keys in order. *)
Definition pydict (V : Type) := list (string * V).

Fixpoint dict_get {V} (d : pydict V) (k : string) : option V :=
  match d with
  | [] => None
  | (k', v) :: d' => if String.eqb k' k then Some v else dict_get d' k
  end.

Definition dict_keys {V} (d : pydict V) : list string := map fst d.

(** [d[k]]: the value, or [KeyError]. *)
Definition getitem {V} (d : pydict V) (k : string) : result V :=
  match dict_get d k with
  | Some v => Ok v
  | None => Raise KeyError
  end.

(** One variable's record and a whole configuration. *)
Definition var_data := pydict pyval.
Definition config := pydict var_data.

(** ** Numbers *)

Definition prec64 : Z := 53.
Definition emax64 : Z := 1024.

(** [float(n)] for an integer [n]: the nearest binary64 value, ties to even;
    [OverflowError] when that is out of range. *)
Definition float_of_int (z : Z) : result spec_float :=
  match binary_normalize prec64 emax64 z 0 false with
  | S754_infinity _ => Raise OverflowError
  | f => Ok f
  end.

(** [x == y] on two floats. *)
Definition float_eq (x y : spec_float) : bool := SFeqb x y.

(** [n == x] for an integer and a float is exact in Python: no rounding of
    the integer takes place. *)
Definition int_eq_float (z : Z) (x : spec_float) : bool :=
  match x with
  | S754_zero _ => z =? 0
  | S754_finite s m e =>
      let sm := if s then Z.neg m else Z.pos m in
      if 0 <=? e then z =? sm * 2 ^ e else z * 2 ^ (- e) =? sm
  | S754_infinity _ | S754_nan => false
  end.

(** Python's [==] on the embedded values.  [bool] is a subtype of [int];
    numbers of different types compare by value; values of unrelated types
    are unequal.  Equality is by value: CPython's shortcut that takes an
    element identical (the same object) to its counterpart as equal is not
    part of the embedding.  The two agree on every pair of lists of which
    one holds no NaN ([nan_free]); they can differ only where both lists
    hold the same NaN object, as two decoded documents do. *)
Fixpoint py_eq (a b : pyval) {struct a} : bool :=
  match a, b with
  | PNone, PNone => true
  | PBool x, PBool y => Bool.eqb x y
  | PBool x, PInt y => Z.b2z x =? y
  | PBool x, PFloat y => int_eq_float (Z.b2z x) y
  | PInt x, PBool y => x =? Z.b2z y
  | PInt x, PInt y => x =? y
  | PInt x, PFloat y => int_eq_float x y
  | PFloat x, PBool y => int_eq_float (Z.b2z y) x
  | PFloat x, PInt y => int_eq_float y x
  | PFloat x, PFloat y => float_eq x y
  | PStr s, PStr t => String.eqb s t
  | PList la, PList lb =>
      (fix list_eq (la lb : list pyval) {struct la} : bool :=
         match la, lb with
         | [], [] => true
         | x :: la', y :: lb' => py_eq x y && list_eq la' lb'
         | _, _ => false
         end) la lb
  | _, _ => false
  end.

Definition py_ne (a b : pyval) : bool := negb (py_eq a b).

(** [isinstance(v, (list, tuple))]; the decoder never produces tuples. *)
Definition is_list_or_tuple (v : pyval) : bool :=
  match v with PList _ => true | _ => false end.

Section Runtime.

(** The runtime's conversion of text to a float ([float("1.5")]), [None]
    where it raises [ValueError]. *)
Variable float_of_str : string -> option spec_float.

(** [float(v)]. *)
Definition py_float (v : pyval) : result spec_float :=
  match v with
  | PNone => Raise TypeError
  | PBool b => float_of_int (Z.b2z b)
  | PInt z => float_of_int z
  | PFloat f => Ok f
  | PStr s => match float_of_str s with Some f => Ok f | None => Raise ValueError end
  | PList _ => Raise TypeError
  end.

(** ** Diff engine: [get_changed_variables] *)

(** The comparison of the two [input] fields, as it is written twice in the
    source (lines 158-161 and inside the condition of line 163). *)
Definition list_input_ne (curr orig : var_data) : result bool :=
  ci <-- getitem curr "input" ;;
  oi <-- getitem orig "input" ;;
  Ok (py_ne ci oi).

Definition scalar_input_ne (curr orig : var_data) : result bool :=
  ci <-- getitem curr "input" ;;
  cf <-- py_float ci ;;
  oi <-- getitem orig "input" ;;
  cg <-- py_float oi ;;
  Ok (negb (float_eq cf cg)).

(** The body of the loop for one variable: [true] when the variable is added
    to [changed_vars]. *)
Definition var_changed (curr orig : var_data) : result bool :=
  cm <-- getitem curr "method" ;;
  om <-- getitem orig "method" ;;
  let method_changed := py_ne cm om in
  cq <-- getitem curr "quarters" ;;
  oq <-- getitem orig "quarters" ;;
  let quarters_changed := py_ne cq oq in
  ci <-- getitem curr "input" ;;
  let is_list := is_list_or_tuple ci in
  input_changed <-- (if is_list then list_input_ne curr orig
                     else scalar_input_ne curr orig) ;;
  if method_changed then Ok true
  else if quarters_changed then Ok true
  else
    c1 <-- (if is_list then list_input_ne curr orig else Ok false) ;;
    if c1 then Ok true
    else if negb is_list then scalar_input_ne curr orig else Ok false.

(** [for var_name in current_data: ...], over the keys still to visit. *)
Fixpoint changed_loop (names : list string) (current_data original_data : config)
    (changed_vars : gset string) : result (gset string) :=
  match names with
  | [] => Ok changed_vars
  | var_name :: rest =>
      curr <-- getitem current_data var_name ;;
      orig <-- getitem original_data var_name ;;
      c <-- var_changed curr orig ;;
      changed_loop rest current_data original_data
        (if c then {[var_name]} ∪ changed_vars else changed_vars)
  end.

Definition get_changed_variables (current_data original_data : config)
    : result (gset string) :=
  changed_loop (dict_keys current_data) current_data original_data ∅.

End Runtime.

(** A runtime in which no text converts to a float.  The closed examples
    below hold no text in a numeric position, so they evaluate the same way
    under every runtime. *)
Definition no_text_floats : string -> option spec_float := fun _ => None.

(** *** Values equal to themselves *)

(** NaN is the only embedded value that differs from itself. *)
Fixpoint nan_free (v : pyval) : bool :=
  match v with
  | PFloat S754_nan => false
  | PList l =>
      (fix all_free (l : list pyval) : bool :=
         match l with
         | [] => true
         | x :: l' => nan_free x && all_free l'
         end) l
  | _ => true
  end.

Definition is_nan (f : spec_float) : bool :=
  match f with S754_nan => true | _ => false end.

(** A record the diff engine can compare with itself: the three fields are
    present, [method] and [quarters] hold no NaN, and [input] is an array
    without NaN or a scalar that [float] converts to a number. *)
Definition comparable_record (float_of_str : string -> option spec_float)
    (r : var_data) : bool :=
  match dict_get r "method", dict_get r "quarters", dict_get r "input" with
  | Some m, Some q, Some i =>
      nan_free m && nan_free q &&
      (if is_list_or_tuple i then nan_free i
       else match py_float float_of_str i with
            | Ok f => negb (is_nan f)
            | Raise _ => false
            end)
  | _, _, _ => false
  end.

Definition comparable_config (float_of_str : string -> option spec_float)
    (cfg : config) : bool :=
  forallb (fun kv => comparable_record float_of_str (snd kv)) cfg.

(** A record with the given [method], [input] and [quarters]; other fields
    and the order of the fields are free. *)
Definition has_fields (r : var_data) (m i q : pyval) : Prop :=
  dict_get r "method" = Some m /\ dict_get r "input" = Some i /\
  dict_get r "quarters" = Some q.

(** ** Example configurations *)

Definition single_value (category : string) (input : pyval) : var_data :=
  [("category", PStr category); ("method", PStr "single_value_fill");
   ("input", input); ("quarters", PNone)].

Definition quarterly_values (category : string) (input : list pyval)
    (quarters : string) : var_data :=
  [("category", PStr category); ("method", PStr "quarterly_values_fill");
   ("input", PList input); ("quarters", PStr quarters)].

Definition float_zero : spec_float := S754_zero false.

Definition drift_baseline : config :=
  [("GDP", single_value "macro" (PInt 0));
   ("CPI", quarterly_values "macro" [PInt 0; PInt 0] "2024Q1:2024Q2")].

Definition drift_committed : config :=
  [("GDP", single_value "macro" (PFloat float_zero));
   ("CPI", quarterly_values "macro" [PFloat float_zero; PInt 0] "2024Q1:2024Q2")].

(** A variable that only the committed configuration has. *)
Definition added_committed : config := [("NEW", single_value "macro" (PInt 1))].
Definition added_baseline : config := [].


(** A committed configuration that changed one variable and dropped
    another. *)
Definition dropped_baseline : config :=
  [("GDP", single_value "macro" (PInt 0)); ("OLD", single_value "macro" (PInt 5))].
Definition dropped_committed : config := [("GDP", single_value "macro" (PInt 1))].

(** Two integers that [float] rounds to the same value, as a scalar input
    and as the element of a sequence input. *)
Definition rounded_baseline : config :=
  [("GDP", single_value "macro" (PInt (2 ^ 53)));
   ("CPI", quarterly_values "macro" [PInt (2 ^ 53)] "2024Q1:2024Q1")].
Definition rounded_committed : config :=
  [("GDP", single_value "macro" (PInt (2 ^ 53 + 1)));
   ("CPI", quarterly_values "macro" [PInt (2 ^ 53 + 1)] "2024Q1:2024Q1")].

(** Whether the loop body of the diff engine runs through on a pair of
    records: the three fields are present on both sides and, when the
    committed input is not a list, [float] converts both inputs. *)
Definition diffable (float_of_str : string -> option spec_float)
    (curr orig : var_data) : bool :=
  match dict_get curr "method", dict_get orig "method",
        dict_get curr "quarters", dict_get orig "quarters",
        dict_get curr "input", dict_get orig "input" with
  | Some _, Some _, Some _, Some _, Some i, Some i' =>
      is_list_or_tuple i ||
      (is_ok (py_float float_of_str i) && is_ok (py_float float_of_str i'))
  | _, _, _, _, _, _ => false
  end.

(** A variable that went from a sequence to a single value. *)
Definition retyped_baseline : config :=
  [("GDP", single_value "macro" (PInt 0));
   ("CPI", quarterly_values "macro" [PInt 1; PInt 2] "2024Q1:2024Q2")].
Definition retyped_committed : config :=
  [("GDP", single_value "macro" (PInt 0));
   ("CPI", single_value "macro" (PFloat float_zero))].

(** ** Configuration store: [get_categories] *)

(** The dictionary [categories]: its keys are the [category] values, in
    insertion order. *)
Definition groups := list (pyval * list string).

(** [hash(v)] raises [TypeError] on a list. *)
Definition hashable (v : pyval) : bool := negb (is_list_or_tuple v).

Definition is_nan_value (v : pyval) : bool :=
  match v with PFloat S754_nan => true | _ => false end.

(** A dictionary finds a key that is identical or equal to the one looked
    up.  The decoder has one NaN object for every [NaN] it reads, so two NaN
    categories are the same key. *)
Definition key_eq (a b : pyval) : bool :=
  py_eq a b || (is_nan_value a && is_nan_value b).

Fixpoint group_find (cats : groups) (c : pyval) : option (list string) :=
  match cats with
  | [] => None
  | (k, names) :: cats' => if key_eq k c then Some names else group_find cats' c
  end.

(** [categories[c].append(v)], for a key that is present. *)
Fixpoint group_append (cats : groups) (c : pyval) (v : string) : groups :=
  match cats with
  | [] => []
  | (k, names) :: cats' =>
      if key_eq k c then (k, (names ++ [v])%list) :: cats'
      else (k, names) :: group_append cats' c v
  end.

(** The body of the loop for one item of [data.items()]. *)
Definition categorize (cats : groups) (var_name : string) (var_data : var_data)
    : result groups :=
  category <-- getitem var_data "category" ;;
  if negb (hashable category) then Raise TypeError
  else
    let cats1 :=
      if negb (bool_decide (is_Some (group_find cats category)))
      then (cats ++ [(category, [])])%list
      else cats in
    Ok (group_append cats1 category var_name).

Fixpoint categories_loop (items : config) (categories : groups) : result groups :=
  match items with
  | [] => Ok categories
  | (var_name, var_data) :: rest =>
      categories' <-- categorize categories var_name var_data ;;
      categories_loop rest categories'
  end.

Definition get_categories (data : config) : result groups :=
  categories_loop data [].

(** The text category of a record, if it has one. *)
Definition text_category (r : var_data) : option string :=
  match dict_get r "category" with
  | Some (PStr c) => Some c
  | _ => None
  end.

Definition text_categories (data : config) : bool :=
  forallb (fun kv => bool_decide (is_Some (text_category (snd kv)))) data.

(** The names of the variables of category [c], in the order of [data]. *)
Definition names_in_category (c : string) (data : config) : list string :=
  map fst (filter (fun kv => text_category (snd kv) = Some c) data).

(** The categories of the records, in the order of [data]. *)
Fixpoint category_sequence (data : config) : list string :=
  match data with
  | [] => []
  | (_, r) :: rest =>
      match text_category r with
      | Some c => c :: category_sequence rest
      | None => category_sequence rest
      end
  end.

(** The elements of [l] not in [seen], each at its first occurrence. *)
Fixpoint first_seen (seen l : list string) : list string :=
  match l with
  | [] => []
  | x :: l' =>
      if bool_decide (x ∈ seen) then first_seen seen l'
      else x :: first_seen (x :: seen) l'
  end.

(** The text keys of a dictionary of groups, in order. *)
Fixpoint group_keys (cats : groups) : list string :=
  match cats with
  | [] => []
  | (PStr c, _) :: cats' => c :: group_keys cats'
  | _ :: cats' => group_keys cats'
  end.

Definition text_keys (cats : groups) : Prop :=
  forall k names, (k, names) ∈ cats -> exists c, k = PStr c.

(** The dictionary after the loop body has run for a variable [v] of text
    category [c]. *)
Definition group_add (cats : groups) (c v : string) : groups :=
  group_append
    (if negb (bool_decide (is_Some (group_find cats (PStr c))))
     then (cats ++ [(PStr c, [])])%list else cats)
    (PStr c) v.

Definition sector_config : config :=
  [("GDP", single_value "macro" (PInt 0));
   ("RATE", single_value "rates" (PInt 1));
   ("CPI", single_value "macro" (PInt 2))].

(** ** Quarter codec: [generate_quarters]

    A character of a text is an [ascii], the character of that code (a
    code point below 256); a position is a character. *)

(** The white space [int()] skips around a number: tab to carriage return
    (codes 9 to 13) and the space (code 32); past ASCII, the next-line and
    the no-break space characters (codes 133 and 160).  The separators of
    codes 28 to 31 are not skipped. *)
Definition is_space (c : ascii) : bool :=
  let n := nat_of_ascii c in
  ((9 <=? n) && (n <=? 13) || (n =? 32) || (n =? 133) || (n =? 160))%nat.

Definition is_digit (c : ascii) : bool :=
  let n := nat_of_ascii c in ((48 <=? n) && (n <=? 57))%nat.

Definition digit_val (c : ascii) : Z := Z.of_nat (nat_of_ascii c) - 48.

Fixpoint lstrip (cs : list ascii) : list ascii :=
  match cs with
  | c :: cs' => if is_space c then lstrip cs' else cs
  | [] => []
  end.

Definition strip (cs : list ascii) : list ascii :=
  rev (lstrip (rev (lstrip cs))).

(** Decimal digits, where one underscore may separate two digits. *)
Fixpoint parse_digits (cs : list ascii) (acc : Z) (after_digit : bool) : option Z :=
  match cs with
  | [] => if after_digit then Some acc else None
  | c :: cs' =>
      if is_digit c then parse_digits cs' (10 * acc + digit_val c) true
      else if Ascii.eqb c "_" && after_digit then parse_digits cs' acc false
      else None
  end.

(** [int(s)] for text [s] in base ten: surrounding white space is dropped,
    one sign is allowed; anything else raises [ValueError].  (The source
    applies it to at most four characters.) *)
Definition py_int (s : string) : result Z :=
  let body :=
    match strip (list_ascii_of_string s) with
    | "+"%char :: cs => (1, cs)
    | "-"%char :: cs => (-1, cs)
    | cs => (1, cs)
    end in
  match parse_digits (snd body) 0 false with
  | Some n => Ok (fst body * n)
  | None => Raise ValueError
  end.

(** [s[i]] for a position [i] counted from the start. *)
Definition str_index (s : string) (i : nat) : result string :=
  match String.get i s with
  | Some c => Ok (String c EmptyString)
  | None => Raise IndexError
  end.

(** [datetime(year, month, 1)]: the day is always the first and the time
    midnight, so a date is its year and month. *)
Record datetime := { year : Z; month : Z }.

Definition MINYEAR : Z := 1.
Definition MAXYEAR : Z := 9999.

Definition first_of_month (y m : Z) : result datetime :=
  if negb ((MINYEAR <=? y) && (y <=? MAXYEAR)) then Raise ValueError
  else if negb ((1 <=? m) && (m <=? 12)) then Raise ValueError
  else Ok {| year := y; month := m |}.

Definition date_le (a b : datetime) : bool :=
  (year a <? year b) || ((year a =? year b) && (month a <=? month b)).

Definition quarter_to_date (quarter_str : string) : result datetime :=
  y <-- py_int (substring 0 4 quarter_str) ;;
  c <-- str_index quarter_str 5 ;;
  quarter <-- py_int c ;;
  let m := (quarter - 1) * 3 + 1 in
  first_of_month y m.

(** [f"{year}Q{quarter}"]. *)
Definition quarter_label (y quarter : Z) : string :=
  pretty y +:+ "Q" +:+ pretty quarter.

(** The [while] loop; every test of its condition takes one unit of fuel,
    and [None] is a run cut short by lack of fuel. *)
Fixpoint quarters_loop (fuel : nat) (current_date end_date : datetime)
    (quarters : list string) : option (result (list string)) :=
  match fuel with
  | O => None
  | S fuel' =>
      if date_le current_date end_date then
        let quarter := (month current_date - 1) / 3 + 1 in
        let quarters' := (quarters ++ [quarter_label (year current_date) quarter])%list in
        match (if 10 <=? month current_date
               then first_of_month (year current_date + 1) 1
               else first_of_month (year current_date) (month current_date + 3)) with
        | Ok next => quarters_loop fuel' next end_date quarters'
        | Raise e => Some (Raise e)
        end
      else Some (Ok quarters)
  end.

Definition generate_quarters (fuel : nat) (start end_ : string)
    : option (result (list string)) :=
  match quarter_to_date start with
  | Raise e => Some (Raise e)
  | Ok start_date =>
      match quarter_to_date end_ with
      | Raise e => Some (Raise e)
      | Ok end_date => quarters_loop fuel start_date end_date []
      end
  end.

(** The callers' check [re.match(r"^\d{4}Q[1-4]$", s)]: four digits, [Q], a
    digit from 1 to 4; [$] also matches before one final line feed. *)
Definition label_core (cs : list ascii) : bool :=
  match cs with
  | [a; b; c; d; q; n] =>
      is_digit a && is_digit b && is_digit c && is_digit d &&
      Ascii.eqb q "Q" && is_digit n && (1 <=? digit_val n) && (digit_val n <=? 4)
  | _ => false
  end.

Definition label_matches (s : string) : bool :=
  let cs := list_ascii_of_string s in
  label_core cs ||
  match cs with
  | [a; b; c; d; q; n; e] => label_core [a; b; c; d; q; n] && Ascii.eqb e "010"
  | _ => false
  end.

(** The year and quarter a matching label denotes, and its position on the
    line of quarters. *)
Definition label_year (s : string) : Z :=
  match list_ascii_of_string s with
  | a :: b :: c :: d :: _ =>
      1000 * digit_val a + 100 * digit_val b + 10 * digit_val c + digit_val d
  | _ => 0
  end.

Definition label_quarter (s : string) : Z :=
  match String.get 5 s with
  | Some n => digit_val n
  | None => 0
  end.

Definition quarter_index (s : string) : Z := 4 * label_year s + label_quarter s.

(** A date at the start of quarter [q] of year [y]. *)
Definition quarter_start (y q : Z) : datetime :=
  {| year := y; month := (q - 1) * 3 + 1 |}.

(** The label of the quarter at position [idx] of the line of quarters
    (position [4 * year + quarter]). *)
Definition label_at (idx : Z) : string :=
  quarter_label ((idx - 1) `div` 4) ((idx - 1) `mod` 4 + 1).

(** ** Scripts: state and exceptions

    A computation over a state [S] that returns or raises; the state it
    leaves behind is kept in both cases, as side effects are in Python. *)

Definition script (S A : Type) : Type := S -> result A * S.

Definition sret {S A} (a : A) : script S A := fun s => (Ok a, s).

Definition sraise {S A} (e : exn) : script S A := fun s => (Raise e, s).

Definition sbind {S A B} (c : script S A) (k : A -> script S B) : script S B :=
  fun s =>
    match c s with
    | (Ok a, s') => k a s'
    | (Raise e, s') => (Raise e, s')
    end.

Definition sget {S} : script S S := fun s => (Ok s, s).

Definition smodify {S} (f : S -> S) : script S unit := fun s => (Ok tt, f s).

(** [try: body except E: handler], for the exceptions [catches] accepts. *)
Definition try_except {S A} (body : script S A) (catches : exn -> bool)
    (handler : exn -> script S A) : script S A :=
  fun s =>
    match body s with
    | (Ok a, s') => (Ok a, s')
    | (Raise e, s') => if catches e then handler e s' else (Raise e, s')
    end.

Notation "x <- c ;; k" := (sbind c (fun x => k))
  (at level 100, c at next level, right associativity) : py_scope.
Notation "c ;;; k" := (sbind c (fun _ => k))
  (at level 100, right associativity) : py_scope.

Definition swhen {S} (b : bool) (c : script S unit) : script S unit :=
  if b then c else sret tt.

(** ** Files, session state and the page *)

(** What [json.load] makes of a file: a configuration; text that is not
    JSON ([JSONDecodeError]); bytes that are not text in the encoding of
    [open] ([UnicodeDecodeError]); JSON nested deeper than the decoder
    recurses ([RecursionError]). *)
Inductive file :=
| JsonText (doc : config)
| BadText
| BadBytes
| TooDeep.

(** How writing a file at a path goes: it succeeds, [open] raises, or
    [json.dump] raises after [open] has truncated the file. *)
Inductive write_outcome := Written | OpenFails | DumpFails.

(** What the script shows: the resume-or-discard card with its two buttons,
    and [st.error] messages (with the exception they report, if any). *)
Inductive ui_event :=
| UiPrompt
| UiError (msg : string) (cause : option exn).

(** The keys of [st.session_state] the session start uses; [None] is a key
    that is not set. *)
Record session := {
  show_prompt : option bool;
  temp_data : option (option config);
  data : option config;
  original_data : option config;
  initialized : bool
}.

Definition new_session : session :=
  {| show_prompt := None; temp_data := None; data := None;
     original_data := None; initialized := false |}.

Record state := {
  files : gmap string file;
  disk : string -> write_outcome;
  sess : session;
  ui : list ui_event
}.

Definition set_files (f : gmap string file -> gmap string file) (s : state) : state :=
  {| files := f (files s); disk := disk s; sess := sess s; ui := ui s |}.

Definition set_sess (f : session -> session) (s : state) : state :=
  {| files := files s; disk := disk s; sess := f (sess s); ui := ui s |}.

Definition render (e : ui_event) : script state unit :=
  smodify (fun s =>
    {| files := files s; disk := disk s; sess := sess s; ui := (ui s ++ [e])%list |}).

Definition set_show_prompt (b : bool) : script state unit :=
  smodify (set_sess (fun x =>
    {| show_prompt := Some b; temp_data := temp_data x; data := data x;
       original_data := original_data x; initialized := initialized x |})).

Definition set_temp_data (d : option config) : script state unit :=
  smodify (set_sess (fun x =>
    {| show_prompt := show_prompt x; temp_data := Some d; data := data x;
       original_data := original_data x; initialized := initialized x |})).

Definition set_data (d : config) : script state unit :=
  smodify (set_sess (fun x =>
    {| show_prompt := show_prompt x; temp_data := temp_data x; data := Some d;
       original_data := original_data x; initialized := initialized x |})).

Definition set_original_data (d : config) : script state unit :=
  smodify (set_sess (fun x =>
    {| show_prompt := show_prompt x; temp_data := temp_data x; data := data x;
       original_data := Some d; initialized := initialized x |})).

Definition set_initialized : script state unit :=
  smodify (set_sess (fun x =>
    {| show_prompt := show_prompt x; temp_data := temp_data x; data := data x;
       original_data := original_data x; initialized := true |})).

(** [os.path.exists(path)]. *)
Definition path_exists (path : string) : script state bool :=
  s <- sget ;; sret (bool_decide (is_Some (files s !! path))).

(** [os.remove(path)]. *)
Definition os_remove (path : string) : script state unit :=
  s <- sget ;;
  match files s !! path with
  | Some _ => smodify (set_files (delete path))
  | None => sraise FileNotFoundError
  end.

(** [with open(path, 'r') as f: json.load(f)]. *)
Definition json_load (path : string) : script state config :=
  s <- sget ;;
  match files s !! path with
  | None => sraise FileNotFoundError
  | Some BadText => sraise JSONDecodeError
  | Some BadBytes => sraise UnicodeDecodeError
  | Some TooDeep => sraise RecursionError
  | Some (JsonText doc) => sret doc
  end.

(** [with open(path, 'w') as f: json.dump(data, f, indent=2)]. *)
Definition json_dump (path : string) (doc : config) : script state unit :=
  s <- sget ;;
  match disk s path with
  | Written => smodify (set_files (insert path (JsonText doc)))
  | OpenFails => sraise OSError
  | DumpFails => smodify (set_files (insert path BadText)) ;;; sraise OSError
  end.

Definition TEMP_FILE : string := "temp_config.json".
Definition BASELINE_SPEC : string := "dummy_spec.json".

Definition catch_only (e0 : exn) (e : exn) : bool :=
  match e0, e with
  | JSONDecodeError, JSONDecodeError => true
  | FileNotFoundError, FileNotFoundError => true
  | _, _ => false
  end.

(** [except Exception]: everything but the script-control exceptions. *)
Definition catch_Exception (e : exn) : bool :=
  match e with
  | StopScript | RerunScript => false
  | _ => true
  end.

(** ** Recovery: [check_for_temp_file], [save_temp_state],
    [save_final_config] *)

(** One run of [check_for_temp_file]; [load_prev] and [start_fresh] say
    whether the two buttons report a click in this run. *)
Definition check_for_temp_file (load_prev start_fresh : bool)
    : script state (option config) :=
  found <- path_exists TEMP_FILE ;;
  if found then
    try_except
      (temp <- json_load TEMP_FILE ;;
       s <- sget ;;
       swhen (bool_decide (show_prompt (sess s) = None)) (set_show_prompt true) ;;;
       s <- sget ;;
       swhen (default false (show_prompt (sess s)))
         (render UiPrompt ;;;
          swhen load_prev
            (set_show_prompt false ;;;
             set_temp_data (Some temp) ;;;
             sraise RerunScript) ;;;
          swhen start_fresh
            (set_show_prompt false ;;;
             os_remove TEMP_FILE ;;;
             set_temp_data None ;;;
             sraise RerunScript)) ;;;
       s <- sget ;;
       if negb (default false (show_prompt (sess s)))
       then sret (default None (temp_data (sess s)))
       else sraise StopScript)
      (catch_only JSONDecodeError)
      (fun _ => os_remove TEMP_FILE ;;; sret None)
  else sret None.

Definition save_temp_state (d : config) : script state unit :=
  try_except
    (json_dump TEMP_FILE d)
    catch_Exception
    (fun e => render (UiError "Error saving temporary state: " (Some e))).

(** [timestamp] is [datetime.now().strftime("%Y%m%d_%H%M%S")]. *)
Definition save_final_config (timestamp : string) (d : config)
    : script state (option string) :=
  let filename := "config_" +:+ timestamp +:+ ".json" in
  try_except
    (json_dump filename d ;;;
     found <- path_exists TEMP_FILE ;;
     swhen found (os_remove TEMP_FILE) ;;;
     sret (Some filename))
    catch_Exception
    (fun e => render (UiError "Error saving configuration: " (Some e)) ;;; sret None).

(** ** Configuration store: [load_spec_file] *)

Definition load_spec_file : script state config :=
  try_except
    (json_load BASELINE_SPEC)
    (catch_only FileNotFoundError)
    (fun _ =>
       render (UiError "Baseline specification (dummy_spec.json) not found!" None) ;;;
       sret []).

(** ** Session start: the first block of [main] *)

(** [deepcopy]; values are embedded by value, so the copy is the value. *)
Definition deepcopy (d : config) : config := d.

Definition initialize_session (load_prev start_fresh : bool) : script state unit :=
  s <- sget ;;
  swhen (negb (initialized (sess s)))
    (temp <- check_for_temp_file load_prev start_fresh ;;
     match temp with
     | Some d =>
         set_data d ;;;
         original <- load_spec_file ;;
         set_original_data original
     | None =>
         loaded_data <- load_spec_file ;;
         set_data loaded_data ;;;
         set_original_data (deepcopy loaded_data)
     end ;;;
     set_initialized).

(** The session state of a fresh start: both documents are the loaded
    configuration. *)
Definition seeded (doc : config) (s : state) : state :=
  set_sess (fun x =>
    {| show_prompt := show_prompt x; temp_data := temp_data x; data := Some doc;
       original_data := Some (deepcopy doc); initialized := true |}) s.

Definition add_ui (e : ui_event) (s : state) : state :=
  {| files := files s; disk := disk s; sess := sess s; ui := (ui s ++ [e])%list |}.


Definition on_disk (fs : gmap string file) (d : string -> write_outcome) : state :=
  {| files := fs; disk := d; sess := new_session; ui := [] |}.

Definition corrupt_snapshot_state : state :=
  on_disk {[ TEMP_FILE := BadText; BASELINE_SPEC := JsonText drift_baseline ]}
          (fun _ => Written).




Definition snapshot_state (d : string -> write_outcome) : state :=
  on_disk {[ TEMP_FILE := JsonText drift_committed;
             BASELINE_SPEC := JsonText drift_baseline ]} d.

(** ** [main], up to the tabs

    The first lines of [main] (355-370): the session is initialized, then
    the changed set and the groups are computed from the two documents of
    the session. *)

Definition of_result {S A} (r : result A) : script S A := fun s => (r, s).

(** [st.session_state.<key>], [AttributeError] for a key that is not
    set. *)
Definition session_get {A} (key : session -> option A) : script state A :=
  s <- sget ;;
  match key (sess s) with
  | Some x => sret x
  | None => sraise AttributeError
  end.

Definition main_until_tabs (float_of_str : string -> option spec_float)
    (load_prev start_fresh : bool) : script state (gset string * groups) :=
  initialize_session load_prev start_fresh ;;;
  current <- session_get data ;;
  original <- session_get original_data ;;
  changed_vars <- of_result (get_changed_variables float_of_str current original) ;;
  current' <- session_get data ;;
  categories <- of_result (get_categories current') ;;
  sret (changed_vars, categories).

(** The session state of a resumed start: the committed document is the
    snapshot, the baseline is the specification. *)
Definition resumed (doc base : config) (s : state) : state :=
  set_sess (fun x =>
    {| show_prompt := show_prompt x; temp_data := temp_data x; data := Some doc;
       original_data := Some base; initialized := true |}) s.

(** A new session on the same files: the session state and the page are
    empty. *)
Definition restart (s : state) : state :=
  {| files := files s; disk := disk s; sess := new_session; ui := [] |}.

(** The state once the resume-or-discard card is on the page. *)
Definition prompt_shown (s : state) : state :=
  add_ui UiPrompt
    (set_sess (fun x =>
       {| show_prompt := Some true; temp_data := temp_data x; data := data x;
          original_data := original_data x; initialized := initialized x |}) s).

(** The state after a click on one of the two buttons of the card. *)
Definition chose_resume (doc : config) (s : state) : state :=
  set_sess (fun x =>
    {| show_prompt := Some false; temp_data := Some (Some doc); data := data x;
       original_data := original_data x; initialized := initialized x |})
    (prompt_shown s).

Definition chose_discard (s : state) : state :=
  set_sess (fun x =>
    {| show_prompt := Some false; temp_data := Some None; data := data x;
       original_data := original_data x; initialized := initialized x |})
    (set_files (delete TEMP_FILE) (prompt_shown s)).

(** States for the closed instances. *)
Definition always_written : string -> write_outcome := fun _ => Written.

Definition empty_disk_state : state := on_disk ∅ always_written.

Definition baseline_only_state : state :=
  on_disk {[ BASELINE_SPEC := JsonText drift_baseline ]} always_written.

Definition uncategorized_record : var_data :=
  [("method", PStr "single_value_fill"); ("input", PInt 1); ("quarters", PNone)].

Definition uncategorized_spec : config :=
  ([("GDP", single_value "macro" (PInt 0))] ++ ("CPI", uncategorized_record) :: [])%list.

Definition uncategorized_state : state :=
  on_disk {[ BASELINE_SPEC := JsonText uncategorized_spec ]} always_written.

Definition edited_snapshot_state : state :=
  on_disk {[ TEMP_FILE := JsonText dropped_committed;
             BASELINE_SPEC := JsonText dropped_baseline ]} always_written.

(** ** Batch mutator: [apply_settings_to_variables]

    Lists are objects: a field holds a reference, and the store maps a
    reference to the elements of its list.  Two fields share a list exactly
    when they hold the same reference. *)

Module Batch.

Definition loc := positive.

Inductive value :=
| VNone
| VBool (b : bool)
| VInt (z : Z)
| VFloat (f : spec_float)
| VStr (s : string)
| VRef (l : loc).

Definition record := pydict value.

(** The list objects, and the dictionary [data] with its variable records
    (each record is owned by its name: no two names share one). *)
Record store := {
  objs : gmap loc (list value);
  vars : pydict record
}.

(** [d[k] = v]: replaces the value of an existing key in place, appends a
    new key. *)
Fixpoint dict_set {V} (d : pydict V) (k : string) (v : V) : pydict V :=
  match d with
  | [] => [(k, v)]
  | (k', v') :: d' =>
      if String.eqb k' k then (k, v) :: d' else (k', v') :: dict_set d' k v
  end.

Definition lift {S A} (r : result A) : script S A := fun s => (r, s).

(** [data[var_name][field] = x], the right-hand side [x] already
    evaluated. *)
Definition set_field (var_name field : string) (x : value) : script store unit :=
  s <- sget ;;
  match dict_get (vars s) var_name with
  | None => sraise KeyError
  | Some r =>
      smodify (fun s =>
        {| objs := objs s;
           vars := dict_set (vars s) var_name (dict_set r field x) |})
  end.

(** [x.copy()]: a new list object with the same elements; only lists have
    the method.  (A reference always points to a list object; a store
    missing it reads as the empty list.) *)
Definition list_copy (x : value) : script store value :=
  match x with
  | VRef l =>
      s <- sget ;;
      let l' := fresh (dom (objs s)) in
      smodify (fun s =>
        {| objs := <[l' := default [] (objs s !! l)]> (objs s); vars := vars s |}) ;;;
      sret (VRef l')
  | _ => sraise AttributeError
  end.

(** [x == "single_value_fill"]. *)
Definition is_single_value_fill (x : value) : bool :=
  match x with
  | VStr s => String.eqb s "single_value_fill"
  | _ => false
  end.

(** The body of the [for] loop, for one [var_name].  The right-hand side of
    an assignment is evaluated before [data[var_name]] is looked up. *)
Definition apply_to_variable (var_name : string) (settings : pydict value)
    : script store unit :=
  m <- lift (getitem settings "method") ;;
  set_field var_name "method" m ;;;
  m' <- lift (getitem settings "method") ;;
  if is_single_value_fill m' then
    i <- lift (getitem settings "input") ;;
    set_field var_name "input" i ;;;
    set_field var_name "quarters" VNone
  else
    q <- lift (getitem settings "quarters") ;;
    set_field var_name "quarters" q ;;;
    i <- lift (getitem settings "input") ;;
    c <- list_copy i ;;
    set_field var_name "input" c.

(** The [for] loop over [selected_vars]. *)
Fixpoint apply_loop (selected_vars : list string) (settings : pydict value)
    : script store unit :=
  match selected_vars with
  | [] => sret tt
  | var_name :: rest =>
      apply_to_variable var_name settings ;;;
      apply_loop rest settings
  end.

(** Returns [data], the dictionary it has mutated: the [vars] of the final
    store. *)
Definition apply_settings_to_variables (selected_vars : list string)
    (settings : pydict value) : script store (pydict record) :=
  apply_loop selected_vars settings ;;;
  s <- sget ;;
  sret (vars s).

(** The record [r] of a variable after the loop body has run on it with a
    method [m] other than the single-value one, quarters [q] and the new
    list object [l']. *)
Definition quarterly_record (m q : value) (r : record) (l' : loc) : record :=
  dict_set (dict_set (dict_set r "method" m) "quarters" q) "input" (VRef l').

(** The list a variable's [input] refers to. *)
Definition input_ref (s : store) (var_name : string) : option loc :=
  match dict_get (vars s) var_name with
  | Some r => match dict_get r "input" with Some (VRef l) => Some l | _ => None end
  | None => None
  end.

Definition input_list (s : store) (var_name : string) : option (list value) :=
  match input_ref s var_name with
  | Some l => objs s !! l
  | None => None
  end.

(** An in-place change of the list object at [l] ([xs[i] = v],
    [xs.append(v)], ...): [f] maps the old elements to the new. *)
Definition mutate_list (l : loc) (f : list value -> list value) (s : store) : store :=
  {| objs := alter f l (objs s); vars := vars s |}.

(** Every reference held by a record points to a list object. *)
Definition no_dangling (s : store) : Prop :=
  forall name r field l,
    dict_get (vars s) name = Some r ->
    dict_get r field = Some (VRef l) ->
    is_Some (objs s !! l).

(** Every reference held by the settings points to a list object. *)
Definition settings_allocated (settings : pydict value) (s : store) : Prop :=
  forall field l,
    dict_get settings field = Some (VRef l) -> is_Some (objs s !! l).

(** A record [r'] that differs from [r] by the fields a batch writes:
    [method] is [m], [quarters] is [q], and [input] is [i] when the batch
    says which; every other field is as in [r]. *)
Definition overwritten (m q : value) (i : option value) (r r' : record) : Prop :=
  forall field,
    dict_get r' field =
      if String.eqb field "input"
      then match i with Some x => Some x | None => dict_get r' "input" end
      else if String.eqb field "quarters" then Some q
      else if String.eqb field "method" then Some m
      else dict_get r field.

Definition batch_single_settings : pydict value :=
  [("method", VStr "single_value_fill"); ("input", VFloat float_zero);
   ("quarters", VNone)].

(** Quarterly settings whose [input] is a number. *)
Definition batch_scalar_settings : pydict value :=
  [("method", VStr "quarterly_values_fill"); ("quarters", VStr "2024Q1:2024Q4");
   ("input", VInt 0)].

(** A script that keeps the names of [data]. *)
Definition keeps_keys {A} (c : script store A) : Prop :=
  forall s, dict_keys (vars (snd (c s))) = dict_keys (vars s).

(** The list objects of [h] are in [h'], with the same elements. *)
Definition extends (h h' : gmap loc (list value)) : Prop :=
  forall l xs, h !! l = Some xs -> h' !! l = Some xs.

Definition batch_store : store :=
  {| objs := {[ 1%positive := [VInt 7];
                2%positive := [VInt 1; VInt 2; VInt 3; VInt 4] ]};
     vars := [("A", [("category", VStr "macro"); ("method", VStr "single_value_fill");
                     ("input", VInt 0); ("quarters", VNone)]);
              ("B", [("category", VStr "macro"); ("method", VStr "quarterly_values_fill");
                     ("input", VRef 1%positive); ("quarters", VStr "2024Q1:2024Q1")]);
              ("C", [("category", VStr "rates"); ("method", VStr "single_value_fill");
                     ("input", VFloat float_zero); ("quarters", VNone)])] |}.


Definition batch_settings : pydict value :=
  [("method", VStr "quarterly_values_fill"); ("quarters", VStr "2024Q1:2024Q4");
   ("input", VRef 2%positive)].

End Batch.

(** * Properties *)

(** ** Diff engine *)

Section DiffEngine.

Variable float_of_str : string -> option spec_float.

Lemma getitem_Ok {V} (d : pydict V) k v :
  getitem d k = Ok v <-> dict_get d k = Some v.
Proof.
  unfold getitem. destruct (dict_get d k); split; intros H; congruence.
Qed.

Lemma getitem_None {V} (d : pydict V) k :
  dict_get d k = None -> getitem d k = Raise KeyError.
Proof. unfold getitem. intros ->. reflexivity. Qed.

Lemma dict_get_keys {V} (d : pydict V) k :
  k ∈ dict_keys d <-> is_Some (dict_get d k).
Proof.
  induction d as [|[k' v] d IH]; simpl.
  - split; [intros H; inversion H | intros [x Hx]; discriminate].
  - destruct (String.eqb_spec k' k) as [->|Hne].
    + split; [eauto | intros _; left].
    + rewrite <- IH. split.
      * intros H. inversion H; subst; [congruence | assumption].
      * intros H. right. assumption.
Qed.

(** What the loop returns: the names it started with, and the visited names
    whose records compare as changed. *)
Lemma changed_loop_elem names cur orig acc S :
  changed_loop float_of_str names cur orig acc = Ok S ->
  forall v, v ∈ S <->
    v ∈ acc \/
    (v ∈ names /\ exists c o, dict_get cur v = Some c /\ dict_get orig v = Some o /\
                              var_changed float_of_str c o = Ok true).
Proof.
  revert acc. induction names as [|n names IH]; intros acc H v; simpl in H.
  - inversion H; subst. split; [auto | intros [?|[Hin _]]; [done | inversion Hin]].
  - destruct (getitem cur n) as [c|] eqn:Hc; simpl in H; [|discriminate].
    destruct (getitem orig n) as [o|] eqn:Ho; simpl in H; [|discriminate].
    destruct (var_changed float_of_str c o) as [b|] eqn:Hb; simpl in H; [|discriminate].
    apply getitem_Ok in Hc, Ho.
    rewrite (IH _ H v). destruct b.
    + rewrite elem_of_union, elem_of_singleton, elem_of_cons. split.
      * intros [[->|?]|[? ?]]; eauto 10.
      * intros [?|[[->|?] ?]]; eauto 10.
    + rewrite elem_of_cons. split.
      * intros [?|[? ?]]; eauto 10.
      * intros [?|[[->|?] (c' & o' & Hc' & Ho' & Hv)]]; eauto 10.
        congruence.
Qed.

(** The loop raises as soon as a visited name has no baseline record. *)
Lemma changed_loop_missing pre v post cur orig acc :
  is_ok (changed_loop float_of_str pre cur orig acc) = true ->
  is_Some (dict_get cur v) ->
  dict_get orig v = None ->
  changed_loop float_of_str (pre ++ v :: post) cur orig acc = Raise KeyError.
Proof.
  revert acc. induction pre as [|n pre IH]; intros acc Hok [c Hc] Ho; simpl.
  - apply getitem_Ok in Hc. rewrite Hc. simpl.
    rewrite (getitem_None _ _ Ho). reflexivity.
  - simpl in Hok.
    destruct (getitem cur n) as [c'|]; simpl in *; [|discriminate].
    destruct (getitem orig n) as [o'|]; simpl in *; [|discriminate].
    destruct (var_changed float_of_str c' o') as [b|]; simpl in *; [|discriminate].
    apply IH; eauto.
Qed.

Lemma changed_loop_missing_raises names v cur orig acc :
  v ∈ names ->
  is_Some (dict_get cur v) ->
  dict_get orig v = None ->
  exists e, changed_loop float_of_str names cur orig acc = Raise e.
Proof.
  revert acc. induction names as [|n names IH]; intros acc Hin Hc Ho.
  - inversion Hin.
  - simpl.
    destruct (getitem cur n) as [c'|e] eqn:Hc'; simpl; [|eauto].
    destruct (getitem orig n) as [o'|e] eqn:Ho'; simpl; [|eauto].
    destruct (var_changed float_of_str c' o') as [b|e]; simpl; [|eauto].
    apply elem_of_cons in Hin as [->|Hin]; [|eauto].
    apply getitem_Ok in Ho'. congruence.
Qed.

(** *** Reflexivity of the comparisons *)

Lemma float_eq_refl f : is_nan f = false -> float_eq f f = true.
Proof.
  unfold float_eq, SFeqb. destruct f as [s|s| |s m e]; simpl; try done.
  - destruct s; reflexivity.
  - intros _. rewrite Z.compare_refl.
    assert (Hm : Pos.compare_cont Eq m m = Eq) by apply Pos.compare_cont_refl.
    rewrite Hm. destruct s; reflexivity.
Qed.

Lemma py_eq_refl v : nan_free v = true -> py_eq v v = true.
Proof.
  revert v. fix IH 1. intros [ |b|z|f|s|l]; simpl; intros H; try done.
  - destruct b; reflexivity.
  - apply Z.eqb_refl.
  - apply float_eq_refl. destruct f; done.
  - apply String.eqb_refl.
  - induction l as [|x l IHl]; [reflexivity|].
    apply andb_true_iff in H as [Hx Hl].
    rewrite (IH x Hx). simpl. apply IHl, Hl.
Qed.

Lemma var_changed_refl r :
  comparable_record float_of_str r = true -> var_changed float_of_str r r = Ok false.
Proof.
  unfold comparable_record, var_changed, list_input_ne, scalar_input_ne, getitem.
  destruct (dict_get r "method") as [m|]; [|done].
  destruct (dict_get r "quarters") as [q|]; [|done].
  destruct (dict_get r "input") as [i|]; [|done].
  intros H. apply andb_true_iff in H as [H Hi].
  apply andb_true_iff in H as [Hm Hq].
  simpl. unfold py_ne. rewrite (py_eq_refl _ Hm), (py_eq_refl _ Hq). simpl.
  destruct (is_list_or_tuple i); simpl.
  - rewrite (py_eq_refl _ Hi). reflexivity.
  - destruct (py_float float_of_str i) as [f|]; [|done]. simpl.
    apply negb_true_iff in Hi. rewrite (float_eq_refl _ Hi). reflexivity.
Qed.

Lemma changed_loop_refl names cfg acc :
  comparable_config float_of_str cfg = true ->
  names ⊆ dict_keys cfg ->
  changed_loop float_of_str names cfg cfg acc = Ok acc.
Proof.
  intros Hcfg. induction names as [|n names IH]; intros Hsub; [reflexivity|].
  simpl.
  assert (Hn : n ∈ dict_keys cfg) by (apply Hsub; left).
  apply dict_get_keys in Hn as [r Hr].
  assert (Hcmp : comparable_record float_of_str r = true).
  { clear -Hcfg Hr. induction cfg as [|[k v] cfg IHc]; [discriminate|].
    simpl in *. apply andb_true_iff in Hcfg as [Hv Hrest].
    destruct (String.eqb k n); [congruence | auto]. }
  unfold getitem. rewrite Hr. simpl. rewrite (var_changed_refl _ Hcmp). simpl.
  apply IH. intros x Hx. apply Hsub. right. assumption.
Qed.


Lemma var_changed_fields cr br m i q m' i' q' :
  has_fields cr m i q -> has_fields br m' i' q' ->
  var_changed float_of_str cr br =
    (input_changed <-- (if is_list_or_tuple i then Ok (py_ne i i')
                        else cf <-- py_float float_of_str i ;;
                             cg <-- py_float float_of_str i' ;;
                             Ok (negb (float_eq cf cg))) ;;
     Ok (py_ne m m' || py_ne q q' || input_changed)).
Proof.
  intros (Hm & Hi & Hq) (Hm' & Hi' & Hq').
  unfold var_changed, list_input_ne, scalar_input_ne, getitem.
  rewrite Hm, Hi, Hq, Hm', Hi', Hq'. simpl.
  destruct (is_list_or_tuple i); simpl.
  - destruct (py_ne m m'), (py_ne q q'), (py_ne i i'); reflexivity.
  - destruct (py_float float_of_str i) as [cf|]; [|reflexivity]. simpl.
    destruct (py_float float_of_str i') as [cg|]; [|reflexivity]. simpl.
    destruct (py_ne m m'), (py_ne q q'), (float_eq cf cg); reflexivity.
Qed.

(** C1 (as the code has it).  The scalar comparison goes through [float],
    the sequence comparison through Python's element-wise [==]; both take
    the integer 0 and the float 0.0 as equal.  In every pair of
    configurations on which the diff engine returns, a variable whose
    single-value input went from [0] to [0.0] is absent from the changed set,
    and so is a variable whose quarterly input went from [[0,0]] to
    [[0.0,0]]. *)
Theorem zero_drift_not_flagged committed baseline S v cr br q :
  get_changed_variables float_of_str committed baseline = Ok S ->
  dict_get committed v = Some cr ->
  dict_get baseline v = Some br ->
  (has_fields br (PStr "single_value_fill") (PInt 0) PNone /\
   has_fields cr (PStr "single_value_fill") (PFloat float_zero) PNone) \/
  (has_fields br (PStr "quarterly_values_fill") (PList [PInt 0; PInt 0]) (PStr q) /\
   has_fields cr (PStr "quarterly_values_fill") (PList [PFloat float_zero; PInt 0]) (PStr q)) ->
  v ∉ S.
Proof.
  intros HS Hc Hb Hcase Hin.
  apply (changed_loop_elem _ _ _ _ _ HS) in Hin as [Hin|(_ & c & o & Hc' & Ho' & Hv)].
  - set_solver.
  - rewrite Hc in Hc'. rewrite Hb in Ho'. inversion Hc'; inversion Ho'; subst c o.
    destruct Hcase as [[Hbr Hcr]|[Hbr Hcr]];
      rewrite (var_changed_fields _ _ _ _ _ _ _ _ Hcr Hbr) in Hv; simpl in Hv.
    + discriminate.
    + unfold py_ne in Hv. simpl in Hv. rewrite String.eqb_refl in Hv. discriminate.
Qed.

(** C2 (as the code has it).  A variable of [committed] without a baseline
    record is not reported as changed: the diff engine raises.  The
    exception is the [KeyError] of the baseline lookup when the variables
    before it compare without an exception. *)
Theorem missing_baseline_raises committed baseline v :
  v ∈ dict_keys committed ->
  dict_get baseline v = None ->
  (exists e, get_changed_variables float_of_str committed baseline = Raise e) /\
  (forall pre post,
     dict_keys committed = (pre ++ v :: post)%list ->
     is_ok (changed_loop float_of_str pre committed baseline ∅) = true ->
     get_changed_variables float_of_str committed baseline = Raise KeyError).
Proof.
  intros Hin Hb. pose proof Hin as Hc. apply dict_get_keys in Hc.
  split.
  - apply changed_loop_missing_raises with (v := v); assumption.
  - intros pre post Hk Hok. unfold get_changed_variables. rewrite Hk.
    apply changed_loop_missing; assumption.
Qed.


(** C10.  Every name of the changed set is a key of [committed]; a variable
    that [committed] lacks is never in it, whatever the baseline holds. *)
Theorem changed_set_within_committed committed baseline S :
  get_changed_variables float_of_str committed baseline = Ok S ->
  (forall v, v ∈ S -> v ∈ dict_keys committed) /\
  (forall v, dict_get committed v = None -> v ∉ S).
Proof.
  intros HS.
  assert (H : forall v, v ∈ S -> v ∈ dict_keys committed).
  { intros v Hin.
    apply (changed_loop_elem _ _ _ _ _ HS) in Hin as [Hin|[Hin _]];
      [set_solver | assumption]. }
  split; [assumption|].
  intros v Hnone Hin. apply H, dict_get_keys in Hin as [r Hr]. congruence.
Qed.

End DiffEngine.

(** *** Closed instances *)

Lemma zero_drift_not_flagged_witness :
  get_changed_variables no_text_floats drift_committed drift_baseline = Ok ∅ /\
  dict_get drift_committed "CPI" =
    Some (quarterly_values "macro" [PFloat float_zero; PInt 0] "2024Q1:2024Q2") /\
  dict_get drift_baseline "CPI" =
    Some (quarterly_values "macro" [PInt 0; PInt 0] "2024Q1:2024Q2") /\
  "CPI" ∉ (∅ : gset string).
Proof.
  split; [reflexivity|]. split; [reflexivity|]. split; [reflexivity|].
  apply (zero_drift_not_flagged no_text_floats drift_committed drift_baseline ∅ "CPI"
           (quarterly_values "macro" [PFloat float_zero; PInt 0] "2024Q1:2024Q2")
           (quarterly_values "macro" [PInt 0; PInt 0] "2024Q1:2024Q2")
           "2024Q1:2024Q2"); try reflexivity.
  right. repeat split; reflexivity.
Defined.

(** The quarterly variable of C1 is not in the changed set: the set is
    empty. *)
Lemma sequence_zero_drift_unflagged :
  get_changed_variables no_text_floats
    [("CPI", quarterly_values "macro" [PFloat float_zero; PInt 0] "2024Q1:2024Q2")]
    [("CPI", quarterly_values "macro" [PInt 0; PInt 0] "2024Q1:2024Q2")] = Ok ∅.
Proof. reflexivity. Qed.

Lemma missing_baseline_raises_witness :
  "NEW" ∈ dict_keys added_committed /\
  dict_get added_baseline "NEW" = None /\
  (exists e, get_changed_variables no_text_floats added_committed added_baseline = Raise e) /\
  (forall pre post,
     dict_keys added_committed = (pre ++ "NEW" :: post)%list ->
     is_ok (changed_loop no_text_floats pre added_committed added_baseline ∅) = true ->
     get_changed_variables no_text_floats added_committed added_baseline = Raise KeyError).
Proof.
  assert (Hin : "NEW" ∈ dict_keys added_committed) by (simpl; left).
  split; [exact Hin|]. split; [reflexivity|].
  apply (missing_baseline_raises no_text_floats added_committed added_baseline "NEW");
    [exact Hin | reflexivity].
Defined.

(** A variable that exists only in [committed] makes the diff engine fail
    with a lookup error. *)
Lemma added_variable_lookup_error :
  get_changed_variables no_text_floats added_committed added_baseline = Raise KeyError.
Proof. reflexivity. Qed.



Lemma changed_set_within_committed_witness :
  get_changed_variables no_text_floats dropped_committed dropped_baseline = Ok {["GDP"]} /\
  (forall v, v ∈ ({["GDP"]} : gset string) -> v ∈ dict_keys dropped_committed) /\
  (forall v, dict_get dropped_committed v = None -> v ∉ ({["GDP"]} : gset string)).
Proof.
  assert (H : get_changed_variables no_text_floats dropped_committed dropped_baseline
              = Ok {["GDP"]}) by (vm_compute; reflexivity).
  split; [exact H|].
  apply (changed_set_within_committed no_text_floats dropped_committed dropped_baseline
           {["GDP"]} H).
Defined.

(** Where the two comparisons do differ: integers that [float] rounds to
    the same value are equal as scalar inputs and unequal as elements. *)
Example rounding_asymmetry :
  get_changed_variables no_text_floats rounded_committed rounded_baseline = Ok {["CPI"]}.
Proof. vm_compute. reflexivity. Qed.

(** ** Quarter codec *)

(** Settles the integer comparisons of the goal that linear arithmetic
    decides from the context. *)
Ltac decide_leb :=
  repeat match goal with
  | |- context [?a <=? ?b] =>
      first [ replace (a <=? b) with true by (symmetry; apply Z.leb_le; lia)
            | replace (a <=? b) with false by (symmetry; apply Z.leb_gt; lia) ]
  end.

Lemma is_digit_range c : is_digit c = true -> 0 <= digit_val c <= 9.
Proof.
  unfold is_digit, digit_val. intros H.
  apply andb_true_iff in H as [H1 H2].
  apply Nat.leb_le in H1, H2. lia.
Qed.

Lemma digit_not_space c : is_digit c = true -> is_space c = false.
Proof.
  unfold is_digit, is_space. intros H.
  apply andb_true_iff in H as [H1 H2]. apply Nat.leb_le in H1, H2.
  cbv zeta. rewrite !orb_false_iff. repeat split.
  - apply andb_false_iff. right. apply Nat.leb_gt. lia.
  - apply Nat.eqb_neq. lia.
  - apply Nat.eqb_neq. lia.
  - apply Nat.eqb_neq. lia.
Qed.

(** A digit is not a sign: [int] reads the text from its first character. *)
Lemma digit_no_sign c cs :
  is_digit c = true ->
  match (c :: cs) with
  | "+"%char :: cs' => (1, cs')
  | "-"%char :: cs' => (-1, cs')
  | cs' => (1, cs')
  end = (1, c :: cs).
Proof.
  destruct c as [[] [] [] [] [] [] [] []]; intros H;
    solve [reflexivity | vm_compute in H; discriminate].
Qed.

Lemma py_int_digit n :
  is_digit n = true -> py_int (String n EmptyString) = Ok (digit_val n).
Proof.
  intros H. unfold py_int, strip. simpl.
  rewrite (digit_not_space n H). simpl. rewrite (digit_not_space n H).
  simpl. rewrite (digit_no_sign n [] H). simpl. rewrite H.
  f_equal. destruct (digit_val n); reflexivity.
Qed.

Lemma py_int_four_digits a b c d :
  is_digit a = true -> is_digit b = true -> is_digit c = true -> is_digit d = true ->
  py_int (String a (String b (String c (String d EmptyString)))) =
    Ok (1000 * digit_val a + 100 * digit_val b + 10 * digit_val c + digit_val d).
Proof.
  intros Ha Hb Hc Hd. unfold py_int, strip. simpl.
  rewrite (digit_not_space a Ha). simpl. rewrite (digit_not_space d Hd).
  simpl. rewrite (digit_no_sign a [b; c; d] Ha). simpl.
  rewrite Ha, Hb, Hc, Hd. f_equal. lia.
Qed.

(** The shape of a text that matches the pattern. *)
Lemma label_matches_shape s :
  label_matches s = true ->
  exists a b c d n rest,
    s = String a (String b (String c (String d (String "Q" (String n rest))))) /\
    is_digit a = true /\ is_digit b = true /\ is_digit c = true /\ is_digit d = true /\
    is_digit n = true /\ 1 <= digit_val n <= 4.
Proof.
  destruct s as [|a [|b [|c [|d [|q [|n rest]]]]]]; try discriminate.
  unfold label_matches. simpl.
  assert (Hcore : forall x,
    is_digit a && is_digit b && is_digit c && is_digit d && Ascii.eqb q "Q" &&
    is_digit n && (1 <=? digit_val n) && (digit_val n <=? 4) && x = true ->
    exists a' b' c' d' n' rest',
      String a (String b (String c (String d (String q (String n rest))))) =
      String a' (String b' (String c' (String d' (String "Q" (String n' rest'))))) /\
      is_digit a' = true /\ is_digit b' = true /\ is_digit c' = true /\
      is_digit d' = true /\ is_digit n' = true /\ 1 <= digit_val n' <= 4).
  { intros x H. do 8 (apply andb_true_iff in H as [H ?]).
    exists a, b, c, d, n, rest.
    match goal with Hq : Ascii.eqb q _ = true |- _ => apply Ascii.eqb_eq in Hq; subst q end.
    repeat match goal with Hle : (_ <=? _) = true |- _ => apply Z.leb_le in Hle end.
    repeat split; try assumption; lia. }
  destruct rest as [|e [|? ?]]; simpl.
  - rewrite orb_false_r. intros H. apply (Hcore true). rewrite andb_true_r. exact H.
  - intros H. apply (Hcore (Ascii.eqb e "010")). exact H.
  - intros H. discriminate.
Qed.

Lemma label_year_range s :
  label_matches s = true -> 0 <= label_year s <= 9999 /\ 1 <= label_quarter s <= 4.
Proof.
  intros H. apply label_matches_shape in H
    as (a & b & c & d & n & rest & -> & Ha & Hb & Hc & Hd & Hn & Hq).
  unfold label_year, label_quarter. simpl.
  apply is_digit_range in Ha, Hb, Hc, Hd. lia.
Qed.

Lemma quarter_to_date_label s :
  label_matches s = true ->
  quarter_to_date s = first_of_month (label_year s) ((label_quarter s - 1) * 3 + 1).
Proof.
  intros H. apply label_matches_shape in H
    as (a & b & c & d & n & rest & -> & Ha & Hb & Hc & Hd & Hn & Hq).
  unfold quarter_to_date, str_index, label_year, label_quarter. simpl.
  rewrite (py_int_four_digits a b c d Ha Hb Hc Hd). simpl.
  rewrite (py_int_digit n Hn). reflexivity.
Qed.

Lemma quarter_to_date_valid s :
  label_matches s = true -> 1 <= label_year s ->
  quarter_to_date s = Ok (quarter_start (label_year s) (label_quarter s)).
Proof.
  intros H Hy. rewrite (quarter_to_date_label s H).
  apply label_year_range in H as [[_ Hy'] Hq].
  unfold first_of_month, MINYEAR, MAXYEAR.
  decide_leb.
  reflexivity.
Qed.

Lemma date_le_quarter_start y q y' q' :
  1 <= q <= 4 -> 1 <= q' <= 4 ->
  date_le (quarter_start y q) (quarter_start y' q') = (4 * y + q <=? 4 * y' + q').
Proof.
  intros Hq Hq'. unfold date_le, quarter_start. simpl.
  destruct (Z.ltb_spec y y'), (Z.eqb_spec y y'),
    (Z.leb_spec ((q - 1) * 3 + 1) ((q' - 1) * 3 + 1)),
    (Z.leb_spec (4 * y + q) (4 * y' + q')); simpl; try reflexivity; lia.
Qed.

(** The loop, from the start of a quarter: [n] more quarters up to the end
    date make [n] labels, given fuel for [n + 1] tests of the condition. *)
Lemma quarters_loop_length n :
  forall y q ye qe acc,
    1 <= q <= 4 -> 1 <= qe <= 4 -> 1 <= y ->
    4 * ye + qe < 4 * MAXYEAR + 4 ->
    Z.of_nat n = Z.max 0 (4 * ye + qe - (4 * y + q) + 1) ->
    exists l, length l = n /\
      forall fuel, (n < fuel)%nat ->
        quarters_loop fuel (quarter_start y q) (quarter_start ye qe) acc =
          Some (Ok (acc ++ l)%list).
Proof.
  unfold MAXYEAR.
  induction n as [|n IH]; intros y q ye qe acc Hq Hqe Hy Hend Hn.
  - exists []. split; [reflexivity|]. intros fuel Hfuel.
    destruct fuel as [|fuel]; [lia|]. simpl quarters_loop.
    rewrite (date_le_quarter_start y q ye qe Hq Hqe).
    decide_leb.
    rewrite app_nil_r. reflexivity.
  - set (x := quarter_label y (((q - 1) * 3 + 1 - 1) `div` 3 + 1)).
    assert (Hnext : exists y' q', 1 <= q' <= 4 /\ 1 <= y' /\ 4 * y' + q' = 4 * y + q + 1 /\
              (if 10 <=? (q - 1) * 3 + 1
               then first_of_month (y + 1) 1
               else first_of_month y ((q - 1) * 3 + 1 + 3)) = Ok (quarter_start y' q')).
    { unfold first_of_month, MINYEAR, MAXYEAR.
      destruct (Z.leb_spec 10 ((q - 1) * 3 + 1)) as [Hm|Hm].
      - exists (y + 1), 1.
        decide_leb.
        repeat split; try lia.
      - exists y, (q + 1).
        decide_leb.
        repeat split; try lia. simpl. unfold quarter_start. do 2 f_equal. lia. }
    destruct Hnext as (y' & q' & Hq' & Hy' & Hidx & Hstep).
    destruct (IH y' q' ye qe (acc ++ [x])%list) as (l & Hl & Hrun); try lia.
    exists (x :: l). split; [simpl; lia|]. intros fuel Hfuel.
    destruct fuel as [|fuel]; [lia|]. simpl quarters_loop.
    rewrite (date_le_quarter_start y q ye qe Hq Hqe).
    decide_leb.
    rewrite Hstep. fold x. rewrite Hrun by lia. rewrite <- app_assoc. reflexivity.
Qed.

(** C3 (as the code has it).  For labels that match the pattern and name a
    year from 0001 on: when [start] is not after [end] and [end] is before
    the last quarter of year 9999, [generate_quarters] returns, given enough
    fuel, a sequence of as many labels as the distance in quarters plus one;
    when [end] precedes [start] it returns the empty sequence. *)
Theorem generate_quarters_length start end_ :
  label_matches start = true -> label_matches end_ = true ->
  1 <= label_year start -> 1 <= label_year end_ ->
  (quarter_index start <= quarter_index end_ ->
   quarter_index end_ < 4 * MAXYEAR + 4 ->
   exists l,
     Z.of_nat (length l) = quarter_index end_ - quarter_index start + 1 /\
     forall fuel, (length l < fuel)%nat ->
       generate_quarters fuel start end_ = Some (Ok l)) /\
  (quarter_index end_ < quarter_index start ->
   forall fuel, (0 < fuel)%nat -> generate_quarters fuel start end_ = Some (Ok [])).
Proof.
  intros Hs He Hys Hye.
  pose proof (label_year_range start Hs) as [[_ Hys'] Hqs].
  pose proof (label_year_range end_ He) as [[_ Hye'] Hqe].
  unfold generate_quarters.
  rewrite (quarter_to_date_valid start Hs Hys), (quarter_to_date_valid end_ He Hye).
  unfold quarter_index, MAXYEAR in *. split.
  - intros Hle Hlast.
    destruct (quarters_loop_length
                (Z.to_nat (4 * label_year end_ + label_quarter end_
                           - (4 * label_year start + label_quarter start) + 1))
                (label_year start) (label_quarter start)
                (label_year end_) (label_quarter end_) [])
      as (l & Hl & Hrun); unfold MAXYEAR; try lia.
    exists l. split; [lia|]. intros fuel Hfuel. apply Hrun. lia.
  - intros Hlt fuel Hfuel.
    destruct (quarters_loop_length 0
                (label_year start) (label_quarter start)
                (label_year end_) (label_quarter end_) [])
      as (l & Hl & Hrun); unfold MAXYEAR; try lia.
    destruct l; [|discriminate]. apply Hrun. exact Hfuel.
Qed.

Lemma first_of_month_Ok y m d :
  first_of_month y m = Ok d ->
  1 <= y <= 9999 /\ 1 <= m <= 12 /\ d = {| year := y; month := m |}.
Proof.
  unfold first_of_month, MINYEAR, MAXYEAR.
  destruct (Z.leb_spec 1 y), (Z.leb_spec y 9999); simpl; try discriminate.
  destruct (Z.leb_spec 1 m), (Z.leb_spec m 12); simpl; try discriminate.
  intros Hd. inversion Hd. repeat split; lia.
Qed.

(** C8 (as the code has it).  [quarter_to_date] raises on the four texts
    (an [IndexError] or a [ValueError]); it does not test the pattern: it
    returns exactly when [int] reads a year from 1 to 9999 in the first four
    characters and a quarter from 1 to 4 in the sixth. *)
Theorem quarter_to_date_failures :
  quarter_to_date "2024" = Raise IndexError /\
  quarter_to_date "Q12024" = Raise ValueError /\
  quarter_to_date "2024Q5" = Raise ValueError /\
  quarter_to_date "abcdQ1" = Raise ValueError /\
  (forall s d,
     quarter_to_date s = Ok d <->
     exists y c q,
       py_int (substring 0 4 s) = Ok y /\ str_index s 5 = Ok c /\ py_int c = Ok q /\
       1 <= y <= 9999 /\ 1 <= q <= 4 /\ d = quarter_start y q).
Proof.
  do 4 (split; [reflexivity|]).
  intros s d. unfold quarter_to_date. split.
  - destruct (py_int (substring 0 4 s)) as [y|] eqn:Ey; simpl; [|discriminate].
    destruct (str_index s 5) as [c|] eqn:Ec; simpl; [|discriminate].
    destruct (py_int c) as [q|] eqn:Eq; simpl; [|discriminate].
    intros H. apply first_of_month_Ok in H as (Hy & Hm & ->).
    exists y, c, q. repeat split; try reflexivity; try assumption; lia.
  - intros (y & c & q & Ey & Ec & Eq & Hy & Hq & ->).
    rewrite Ey. simpl. rewrite Ec. simpl. rewrite Eq. simpl.
    unfold first_of_month, MINYEAR, MAXYEAR, quarter_start.
    decide_leb.
    reflexivity.
Qed.


(** *** Closed instances *)

Lemma generate_quarters_length_witness :
  label_matches "2024Q3" = true /\ label_matches "2025Q2" = true /\
  1 <= label_year "2024Q3" /\ 1 <= label_year "2025Q2" /\
  (quarter_index "2024Q3" <= quarter_index "2025Q2" ->
   quarter_index "2025Q2" < 4 * MAXYEAR + 4 ->
   exists l,
     Z.of_nat (length l) = quarter_index "2025Q2" - quarter_index "2024Q3" + 1 /\
     forall fuel, (length l < fuel)%nat ->
       generate_quarters fuel "2024Q3" "2025Q2" = Some (Ok l)) /\
  (quarter_index "2025Q2" < quarter_index "2024Q3" ->
   forall fuel, (0 < fuel)%nat -> generate_quarters fuel "2024Q3" "2025Q2" = Some (Ok [])).
Proof.
  split; [reflexivity|]. split; [reflexivity|].
  split; [vm_compute; discriminate|]. split; [vm_compute; discriminate|].
  apply (generate_quarters_length "2024Q3" "2025Q2");
    solve [reflexivity | vm_compute; discriminate].
Defined.

(** Two ranges of matching labels on which [generate_quarters] raises
    instead of returning a sequence: year 0000, and a range that ends in the
    last quarter of year 9999. *)
Lemma generate_quarters_year_bounds :
  label_matches "0000Q1" = true /\ label_matches "0000Q2" = true /\
  generate_quarters 8 "0000Q1" "0000Q2" = Some (Raise ValueError) /\
  label_matches "9999Q3" = true /\ label_matches "9999Q4" = true /\
  generate_quarters 8 "9999Q3" "9999Q4" = Some (Raise ValueError).
Proof. repeat split; reflexivity. Qed.

(** A text that does not match the pattern and that [quarter_to_date]
    accepts. *)
Lemma quarter_to_date_accepts_unmatched :
  label_matches "2024X1" = false /\
  quarter_to_date "2024X1" = Ok {| year := 2024; month := 1 |}.
Proof. split; reflexivity. Qed.

(** ** Configuration store and recovery *)

Lemma path_exists_run p s :
  path_exists p s = (Ok (bool_decide (is_Some (files s !! p))), s).
Proof. reflexivity. Qed.


Lemma artifact_not_snapshot timestamp :
  "config_" +:+ timestamp +:+ ".json" <> TEMP_FILE.
Proof. discriminate. Qed.

(** C5.  [save_final_config] names the artifact after the timestamp.  When
    the write succeeds the artifact holds the committed configuration, the
    snapshot is gone and the name is returned.  When the write fails the
    snapshot is what it was, the error is shown on the page, and [None] is
    returned. *)
Theorem save_final_config_outcome timestamp d s :
  let filename := "config_" +:+ timestamp +:+ ".json" in
  let r := fst (save_final_config timestamp d s) in
  let s' := snd (save_final_config timestamp d s) in
  match disk s filename with
  | Written =>
      r = Ok (Some filename) /\
      files s' !! filename = Some (JsonText d) /\
      files s' !! TEMP_FILE = None /\
      ui s' = ui s
  | OpenFails | DumpFails =>
      r = Ok None /\
      files s' !! TEMP_FILE = files s !! TEMP_FILE /\
      ui s' = (ui s ++ [UiError "Error saving configuration: " (Some OSError)])%list
  end.
Proof.
  intros filename r s'. subst r s'.
  pose proof (artifact_not_snapshot timestamp) as Hne. fold filename in Hne.
  unfold save_final_config. fold filename.
  unfold try_except, json_dump, sbind, sget, smodify, sraise, swhen, sret. simpl.
  destruct (disk s filename) eqn:Hd; simpl.
  - destruct (bool_decide (is_Some (<[filename:=JsonText d]> (files s) !! TEMP_FILE)))
      eqn:Hex; simpl.
    + apply bool_decide_eq_true_1 in Hex as [f Hf].
      unfold os_remove, sbind, sget, smodify. simpl. rewrite Hf. simpl.
      repeat split.
      * rewrite lookup_delete_ne by congruence. apply lookup_insert_eq.
      * apply lookup_delete_eq.
    + apply bool_decide_eq_false_1 in Hex.
      repeat split.
      * apply lookup_insert_eq.
      * destruct (<[filename:=JsonText d]> (files s) !! TEMP_FILE) eqn:E; [|reflexivity].
        exfalso. apply Hex. eauto.
  - repeat split.
  - repeat split. apply lookup_insert_ne. exact Hne.
Qed.





(** *** Closed instances *)




Example save_final_config_written :
  let '(r, s') := save_final_config "20240101_120000" drift_committed
                    (snapshot_state (fun _ => Written)) in
  r = Ok (Some "config_20240101_120000.json") /\
  files s' !! "config_20240101_120000.json" = Some (JsonText drift_committed) /\
  files s' !! TEMP_FILE = None /\ ui s' = [].
Proof. vm_compute. repeat split. Qed.

Example save_final_config_failed :
  let '(r, s') := save_final_config "20240101_120000" drift_committed
                    (snapshot_state (fun _ => DumpFails)) in
  r = Ok None /\
  files s' !! TEMP_FILE = Some (JsonText drift_committed) /\
  ui s' = [UiError "Error saving configuration: " (Some OSError)].
Proof. vm_compute. repeat split. Qed.

Example corrupt_snapshot_session :
  let '(r, s') := initialize_session false false corrupt_snapshot_state in
  r = Ok tt /\ files s' !! TEMP_FILE = None /\ ui s' = [] /\
  data (sess s') = Some drift_baseline /\ original_data (sess s') = Some drift_baseline.
Proof. vm_compute. repeat split. Qed.

(** ** Batch mutator *)

Module BatchFacts.
Import Batch.

Lemma dict_get_set {V} (d : pydict V) k v k' :
  dict_get (dict_set d k v) k' = if String.eqb k k' then Some v else dict_get d k'.
Proof.
  induction d as [|[k0 v0] d IH]; simpl.
  - destruct (String.eqb k k'); reflexivity.
  - destruct (String.eqb_spec k0 k) as [->|Hne]; simpl.
    + destruct (String.eqb k k'); reflexivity.
    + rewrite IH. destruct (String.eqb_spec k0 k') as [->|Hne'].
      * destruct (String.eqb_spec k k'); [congruence | reflexivity].
      * reflexivity.
Qed.

Lemma dict_get_set_eq {V} (d : pydict V) k v : dict_get (dict_set d k v) k = Some v.
Proof. rewrite dict_get_set, String.eqb_refl. reflexivity. Qed.

Lemma dict_get_set_ne {V} (d : pydict V) k v k' :
  k <> k' -> dict_get (dict_set d k v) k' = dict_get d k'.
Proof.
  intros H. rewrite dict_get_set. destruct (String.eqb_spec k k'); [done | reflexivity].
Qed.

Lemma fresh_unallocated (h : gmap loc (list value)) : h !! fresh (dom h) = None.
Proof. apply not_elem_of_dom, is_fresh. Qed.

Section OneVariable.

Variables (settings : pydict value) (m q : value) (l : loc).
Hypothesis Hmethod : getitem settings "method" = Ok m.
Hypothesis Hnot_single : is_single_value_fill m = false.
Hypothesis Hquarters : getitem settings "quarters" = Ok q.
Hypothesis Hinput : getitem settings "input" = Ok (VRef l).

(** One run of the loop body: a new list object with the elements of the
    settings' list, and the variable's record pointing to it. *)
Lemma apply_to_variable_quarterly v r s :
  dict_get (vars s) v = Some r ->
  exists s1,
    apply_to_variable v settings s = (Ok tt, s1) /\
    objs s1 = <[fresh (dom (objs s)) := default [] (objs s !! l)]> (objs s) /\
    dict_get (vars s1) v = Some (quarterly_record m q r (fresh (dom (objs s)))) /\
    (forall b, b <> v -> dict_get (vars s1) b = dict_get (vars s) b).
Proof.
  intros Hr. unfold apply_to_variable, sbind, lift.
  rewrite Hmethod. unfold set_field at 1, sbind, sget, smodify. rewrite Hr. simpl.
  rewrite Hnot_single, Hquarters.
  unfold set_field at 1, sbind, sget, smodify. simpl.
  rewrite dict_get_set_eq. simpl. rewrite Hinput.
  unfold list_copy, sbind, sget, smodify, sret. simpl.
  unfold set_field, sbind, sget, smodify. simpl.
  rewrite dict_get_set_eq.
  eexists. split; [reflexivity|]. simpl. split; [reflexivity|]. split.
  - rewrite dict_get_set_eq. reflexivity.
  - intros b Hb. rewrite !dict_get_set_ne by congruence. reflexivity.
Qed.

Lemma quarterly_record_ref r l' field x :
  dict_get (quarterly_record m q r l') field = Some (VRef x) ->
  x = l' \/ (exists f, dict_get settings f = Some (VRef x)) \/
  dict_get r field = Some (VRef x).
Proof.
  unfold quarterly_record. rewrite !dict_get_set.
  destruct (String.eqb "input" field); [intros H; inversion H; auto|].
  destruct (String.eqb "quarters" field).
  { intros H. inversion H; subst. right. left. exists "quarters".
    apply getitem_Ok. exact Hquarters. }
  destruct (String.eqb "method" field).
  { intros H. inversion H; subst. right. left. exists "method".
    apply getitem_Ok. exact Hmethod. }
  auto.
Qed.

Lemma quarterly_record_input r l' :
  dict_get (quarterly_record m q r l') "input" = Some (VRef l').
Proof. unfold quarterly_record. apply dict_get_set_eq. Qed.

(** The whole loop.  Every selected variable ends with a list object of its
    own: new, holding the elements of the settings' list, and referred to by
    no other variable. *)
Lemma apply_loop_quarterly xs selected :
  forall s,
    no_dangling s ->
    settings_allocated settings s ->
    objs s !! l = Some xs ->
    (forall v, v ∈ selected -> is_Some (dict_get (vars s) v)) ->
    exists s',
      apply_loop selected settings s = (Ok tt, s') /\
      no_dangling s' /\
      (forall l0 ys, objs s !! l0 = Some ys -> objs s' !! l0 = Some ys) /\
      (forall b, is_Some (dict_get (vars s) b) -> is_Some (dict_get (vars s') b)) /\
      (forall b, b ∉ selected -> dict_get (vars s') b = dict_get (vars s) b) /\
      (forall a, a ∈ selected ->
         exists la, input_ref s' a = Some la /\ objs s !! la = None /\
                    objs s' !! la = Some xs /\
                    forall b, b <> a -> input_ref s' b <> Some la).
Proof.
  induction selected as [|v rest IH]; intros s Hwf Hset Hl Hkeys.
  - exists s. simpl. repeat split; auto. intros a Ha. inversion Ha.
  - destruct (Hkeys v) as [r Hr]; [left|].
    destruct (apply_to_variable_quarterly v r s Hr) as (s1 & Hrun1 & Hobjs1 & Hv1 & Hother1).
    set (l' := fresh (dom (objs s))) in *.
    assert (Hfresh : objs s !! l' = None) by apply fresh_unallocated.
    rewrite Hl in Hobjs1. simpl in Hobjs1.
    assert (Hgrow : forall l0 ys, objs s !! l0 = Some ys -> objs s1 !! l0 = Some ys).
    { intros l0 ys H0. rewrite Hobjs1, lookup_insert_ne; [assumption | congruence]. }
    assert (Hwf1 : no_dangling s1).
    { intros name r0 field x Hname Hfield.
      destruct (decide (name = v)) as [->|Hne].
      - rewrite Hv1 in Hname. inversion Hname; subst r0.
        apply quarterly_record_ref in Hfield as [->|[[f Hf]|Hf]].
        + rewrite Hobjs1, lookup_insert_eq. eauto.
        + destruct (Hset f x Hf) as [ys Hys]. rewrite (Hgrow _ _ Hys). eauto.
        + destruct (Hwf v r field x Hr Hf) as [ys Hys]. rewrite (Hgrow _ _ Hys). eauto.
      - rewrite (Hother1 name Hne) in Hname.
        destruct (Hwf name r0 field x Hname Hfield) as [ys Hys].
        rewrite (Hgrow _ _ Hys). eauto. }
    assert (Hset1 : settings_allocated settings s1).
    { intros f x Hf. destruct (Hset f x Hf) as [ys Hys]. rewrite (Hgrow _ _ Hys). eauto. }
    assert (Hkeys1 : forall b, is_Some (dict_get (vars s) b) -> is_Some (dict_get (vars s1) b)).
    { intros b Hb. destruct (decide (b = v)) as [->|Hne].
      - rewrite Hv1. eauto.
      - rewrite (Hother1 b Hne). exact Hb. }
    destruct (IH s1 Hwf1 Hset1 (Hgrow _ _ Hl)) as (s' & Hrun & Hwf' & Hgrow' & Hkeys' & Hother' & Hsel').
    { intros x Hx. apply Hkeys1, Hkeys. right. exact Hx. }
    exists s'. split.
    { simpl. unfold sbind at 1. rewrite Hrun1. exact Hrun. }
    split; [exact Hwf'|]. split; [auto|]. split; [auto|]. split.
    { intros b Hb. rewrite Hother' by (intros Hin; apply Hb; right; exact Hin).
      apply Hother1. intros ->. apply Hb. left. }
    intros a Ha. destruct (decide (a ∈ rest)) as [Hin|Hnotin].
    + destruct (Hsel' a Hin) as (la & Hla & Hnew & Hxs & Hsep).
      exists la. repeat split; try assumption.
      destruct (objs s !! la) as [ys|] eqn:Hold; [|reflexivity].
      rewrite (Hgrow _ _ Hold) in Hnew. discriminate.
    + assert (a = v) by (apply elem_of_cons in Ha as [?|?]; [assumption | contradiction]).
      subst a. exists l'.
      assert (Hrec : dict_get (vars s') v = Some (quarterly_record m q r l')).
      { rewrite (Hother' v Hnotin). exact Hv1. }
      split. { unfold input_ref. rewrite Hrec, quarterly_record_input. reflexivity. }
      split; [exact Hfresh|].
      split. { apply Hgrow'. rewrite Hobjs1. apply lookup_insert_eq. }
      intros b Hb Hbl. destruct (decide (b ∈ rest)) as [Hbin|Hbnot].
      * destruct (Hsel' b Hbin) as (lb & Hlb & Hnew & _).
        rewrite Hlb in Hbl. inversion Hbl; subst lb.
        rewrite Hobjs1, lookup_insert_eq in Hnew. discriminate.
      * unfold input_ref in Hbl. rewrite (Hother' b Hbnot), (Hother1 b Hb) in Hbl.
        destruct (dict_get (vars s) b) as [rb|] eqn:Hrb; [|discriminate].
        destruct (dict_get rb "input") as [[ | | | | |x]|] eqn:Hx; try discriminate.
        inversion Hbl; subst x.
        destruct (Hwf b rb "input" l' Hrb Hx) as [ys Hys]. congruence.
Qed.

End OneVariable.

(** C7.  With settings whose method is not the single-value one (the
    quarterly method in particular) and whose input is a list,
    [apply_settings_to_variables] succeeds on selected names that are keys of
    [data], and gives each selected variable a list object of its own with
    the elements of the settings' list: a later change of that object in
    place changes the input of no other variable, nor the settings' list. *)
Theorem batch_inputs_independent selected settings s m q l xs :
  no_dangling s ->
  settings_allocated settings s ->
  getitem settings "method" = Ok m ->
  is_single_value_fill m = false ->
  getitem settings "quarters" = Ok q ->
  getitem settings "input" = Ok (VRef l) ->
  objs s !! l = Some xs ->
  (forall v, v ∈ selected -> v ∈ dict_keys (vars s)) ->
  exists s',
    apply_settings_to_variables selected settings s = (Ok (vars s'), s') /\
    forall a, a ∈ selected ->
      exists la,
        input_ref s' a = Some la /\
        input_list s' a = Some xs /\
        forall f,
          objs (mutate_list la f s') !! l = Some xs /\
          forall b, b <> a -> input_list (mutate_list la f s') b = input_list s' b.
Proof.
  intros Hwf Hset Hm Hns Hq Hi Hl Hkeys.
  destruct (apply_loop_quarterly settings m q l Hm Hns Hq Hi xs selected s Hwf Hset Hl)
    as (s' & Hrun & Hwf' & Hgrow & _ & _ & Hsel).
  { intros v Hv. apply dict_get_keys, Hkeys, Hv. }
  exists s'. split.
  { unfold apply_settings_to_variables, sbind. rewrite Hrun. reflexivity. }
  intros a Ha. destruct (Hsel a Ha) as (la & Hla & Hnew & Hxs & Hsep).
  exists la. split; [exact Hla|].
  split. { unfold input_list. rewrite Hla. exact Hxs. }
  intros f. split.
  - simpl. rewrite lookup_alter_ne by congruence. apply Hgrow, Hl.
  - intros b Hb. unfold input_list.
    change (input_ref (mutate_list la f s') b) with (input_ref s' b).
    destruct (input_ref s' b) as [lb|] eqn:Hlb; [|reflexivity].
    simpl. apply lookup_alter_ne. intros ->. exact (Hsep b Hb Hlb).
Qed.

(** *** A closed instance *)

Lemma batch_store_no_dangling : no_dangling batch_store.
Proof.
  intros name r field x Hname Hfield.
  assert (Hx : x = 1%positive).
  { revert Hname. simpl.
    repeat lazymatch goal with
    | |- (if ?c then _ else _) = _ -> _ => destruct c
    end; intros Hname; inversion Hname; subst r; clear Hname;
    revert Hfield; simpl;
    repeat lazymatch goal with
    | |- (if ?c then _ else _) = _ -> _ => destruct c
    end; intros Hfield; inversion Hfield; reflexivity. }
  subst x. exists [VInt 7]. reflexivity.
Qed.

Lemma batch_settings_allocated : settings_allocated batch_settings batch_store.
Proof.
  intros field x. simpl.
  repeat lazymatch goal with
  | |- (if ?c then _ else _) = _ -> _ => destruct c
  end; intros H; inversion H.
  exists [VInt 1; VInt 2; VInt 3; VInt 4]. reflexivity.
Qed.

Lemma batch_selected_keys :
  forall v, v ∈ ["A"; "B"] -> v ∈ dict_keys (vars batch_store).
Proof.
  intros v Hv. simpl.
  apply elem_of_cons in Hv as [->|Hv]; [left|].
  apply elem_of_cons in Hv as [->|Hv]; [right; left|].
  inversion Hv.
Qed.

Lemma batch_inputs_independent_witness :
  no_dangling batch_store /\
  settings_allocated batch_settings batch_store /\
  getitem batch_settings "method" = Ok (VStr "quarterly_values_fill") /\
  is_single_value_fill (VStr "quarterly_values_fill") = false /\
  getitem batch_settings "quarters" = Ok (VStr "2024Q1:2024Q4") /\
  getitem batch_settings "input" = Ok (VRef 2%positive) /\
  objs batch_store !! 2%positive = Some [VInt 1; VInt 2; VInt 3; VInt 4] /\
  (forall v, v ∈ ["A"; "B"] -> v ∈ dict_keys (vars batch_store)) /\
  exists s',
    apply_settings_to_variables ["A"; "B"] batch_settings batch_store = (Ok (vars s'), s') /\
    forall a, a ∈ ["A"; "B"] ->
      exists la,
        input_ref s' a = Some la /\
        input_list s' a = Some [VInt 1; VInt 2; VInt 3; VInt 4] /\
        forall f,
          objs (mutate_list la f s') !! 2%positive = Some [VInt 1; VInt 2; VInt 3; VInt 4] /\
          forall b, b <> a -> input_list (mutate_list la f s') b = input_list s' b.
Proof.
  split; [exact batch_store_no_dangling|].
  split; [exact batch_settings_allocated|].
  do 5 (split; [reflexivity|]).
  split; [exact batch_selected_keys|].
  apply (batch_inputs_independent ["A"; "B"] batch_settings batch_store
           (VStr "quarterly_values_fill") (VStr "2024Q1:2024Q4") 2%positive
           [VInt 1; VInt 2; VInt 3; VInt 4]);
    solve [ exact batch_store_no_dangling | exact batch_settings_allocated
          | exact batch_selected_keys | reflexivity ].
Defined.

End BatchFacts.

(** * Further properties *)

(** ** Quarter codec: the sequence, its bounds and its labels *)

Lemma label_at_index y q :
  1 <= q <= 4 -> label_at (4 * y + q) = quarter_label y q.
Proof.
  intros Hq. unfold label_at.
  replace ((4 * y + q - 1) `div` 4) with y by (apply Z.div_unique with (q - 1); lia).
  replace ((4 * y + q - 1) `mod` 4) with (q - 1)
    by (apply Z.mod_unique with y; lia).
  f_equal. lia.
Qed.

Lemma loop_label y q :
  1 <= q <= 4 ->
  quarter_label y (((q - 1) * 3 + 1 - 1) `div` 3 + 1) = quarter_label y q.
Proof.
  intros Hq. f_equal.
  replace ((q - 1) * 3 + 1 - 1) with ((q - 1) * 3) by lia.
  rewrite Z.div_mul by lia. lia.
Qed.

(** One turn of the loop from the start of a quarter that is not after the
    end date. *)
Lemma quarters_loop_turn fuel y q ye qe acc :
  1 <= q <= 4 -> 1 <= qe <= 4 -> 4 * y + q <= 4 * ye + qe ->
  quarters_loop (S fuel) (quarter_start y q) (quarter_start ye qe) acc =
    match (if q =? 4 then first_of_month (y + 1) 1
           else first_of_month y ((q - 1) * 3 + 1 + 3)) with
    | Ok next => quarters_loop fuel next (quarter_start ye qe)
                   (acc ++ [quarter_label y q])%list
    | Raise e => Some (Raise e)
    end.
Proof.
  intros Hq Hqe Hle. simpl quarters_loop.
  rewrite (date_le_quarter_start y q ye qe Hq Hqe).
  replace (4 * y + q <=? 4 * ye + qe) with true by (symmetry; apply Z.leb_le; lia).
  simpl year. simpl month. rewrite (loop_label y q Hq).
  destruct (Z.eqb_spec q 4) as [->|Hne].
  - reflexivity.
  - replace (10 <=? (q - 1) * 3 + 1) with false by (symmetry; apply Z.leb_gt; lia).
    reflexivity.
Qed.

Lemma quarters_loop_labels n :
  forall y q ye qe acc,
    1 <= q <= 4 -> 1 <= qe <= 4 -> 1 <= y ->
    4 * ye + qe < 4 * MAXYEAR + 4 ->
    Z.of_nat n = Z.max 0 (4 * ye + qe - (4 * y + q) + 1) ->
    forall fuel, (n < fuel)%nat ->
      quarters_loop fuel (quarter_start y q) (quarter_start ye qe) acc =
        Some (Ok (acc ++ map label_at (seqZ (4 * y + q) (Z.of_nat n)))%list).
Proof.
  unfold MAXYEAR.
  induction n as [|n IH]; intros y q ye qe acc Hq Hqe Hy Hend Hn fuel Hfuel;
    (destruct fuel as [|fuel]; [lia|]).
  - simpl quarters_loop. rewrite (date_le_quarter_start y q ye qe Hq Hqe).
    replace (4 * y + q <=? 4 * ye + qe) with false by (symmetry; apply Z.leb_gt; lia).
    simpl. rewrite app_nil_r. reflexivity.
  - rewrite quarters_loop_turn by lia.
    rewrite seqZ_cons by lia. simpl map. rewrite (label_at_index y q Hq).
    replace (Z.pred (Z.of_nat (S n))) with (Z.of_nat n) by lia.
    destruct (Z.eqb_spec q 4) as [->|Hne]; unfold first_of_month, MINYEAR, MAXYEAR.
    + decide_leb. simpl.
      change {| year := y + 1; month := 1 |} with (quarter_start (y + 1) 1).
      rewrite (IH (y + 1) 1 ye qe) by lia.
      rewrite <- app_assoc. simpl. repeat f_equal; lia.
    + decide_leb. simpl.
      replace {| year := y; month := (q - 1) * 3 + 1 + 3 |} with (quarter_start y (q + 1))
        by (unfold quarter_start; f_equal; lia).
      rewrite (IH y (q + 1) ye qe) by lia.
      rewrite <- app_assoc. simpl. repeat f_equal; lia.
Qed.

(** X1.  For labels that match the pattern, from year 0001 on, with [start]
    not after [end] and [end] before the last quarter of 9999, the result is
    exactly the labels of the consecutive quarters from [start] to [end], in
    order, with unpadded years. *)
Theorem generate_quarters_labels start end_ :
  label_matches start = true -> label_matches end_ = true ->
  1 <= label_year start ->
  quarter_index start <= quarter_index end_ ->
  quarter_index end_ < 4 * MAXYEAR + 4 ->
  forall fuel,
    (Z.to_nat (quarter_index end_ - quarter_index start + 1) < fuel)%nat ->
    generate_quarters fuel start end_ =
      Some (Ok (map label_at (seqZ (quarter_index start)
                                   (quarter_index end_ - quarter_index start + 1)))).
Proof.
  intros Hs He Hys Hle Hlast fuel Hfuel.
  pose proof (label_year_range start Hs) as [[_ Hys'] Hqs].
  pose proof (label_year_range end_ He) as [[_ Hye'] Hqe].
  unfold quarter_index, MAXYEAR in *.
  assert (Hye : 1 <= label_year end_) by lia.
  unfold generate_quarters.
  rewrite (quarter_to_date_valid start Hs Hys), (quarter_to_date_valid end_ He Hye).
  rewrite (quarters_loop_labels
             (Z.to_nat (4 * label_year end_ + label_quarter end_
                        - (4 * label_year start + label_quarter start) + 1)))
    by (unfold MAXYEAR; lia).
  simpl. rewrite Z2Nat.id by lia. reflexivity.
Qed.

(** X2.  A label of year 0000 matches the pattern and is refused by
    [datetime]: [generate_quarters] raises [ValueError] with it as start,
    and with it as end after a start that parses. *)
Theorem generate_quarters_year_zero s :
  label_matches s = true -> label_year s = 0 ->
  (forall fuel other, generate_quarters fuel s other = Some (Raise ValueError)) /\
  (forall fuel other,
     label_matches other = true -> 1 <= label_year other ->
     generate_quarters fuel other s = Some (Raise ValueError)).
Proof.
  intros Hs Hy.
  assert (Hdate : quarter_to_date s = Raise ValueError).
  { rewrite (quarter_to_date_label s Hs), Hy. reflexivity. }
  split.
  - intros fuel other. unfold generate_quarters. rewrite Hdate. reflexivity.
  - intros fuel other Ho Hyo. unfold generate_quarters.
    rewrite (quarter_to_date_valid other Ho Hyo), Hdate. reflexivity.
Qed.

Lemma quarters_loop_last_quarter n :
  forall y q acc,
    1 <= q <= 4 -> 1 <= y ->
    Z.of_nat n = 4 * MAXYEAR + 4 - (4 * y + q) ->
    forall fuel, (n < fuel)%nat ->
      quarters_loop fuel (quarter_start y q) (quarter_start MAXYEAR 4) acc =
        Some (Raise ValueError).
Proof.
  unfold MAXYEAR.
  induction n as [|n IH]; intros y q acc Hq Hy Hn fuel Hfuel;
    (destruct fuel as [|fuel]; [lia|]);
    rewrite quarters_loop_turn by lia.
  - assert (q = 4 /\ y = 9999) as [-> ->] by lia. reflexivity.
  - destruct (Z.eqb_spec q 4) as [->|Hne]; unfold first_of_month, MINYEAR, MAXYEAR.
    + decide_leb. simpl.
      change {| year := y + 1; month := 1 |} with (quarter_start (y + 1) 1).
      apply IH; lia.
    + decide_leb. simpl.
      replace {| year := y; month := (q - 1) * 3 + 1 + 3 |} with (quarter_start y (q + 1))
        by (unfold quarter_start; f_equal; lia).
      apply IH; lia.
Qed.

(** X3.  A range that ends in the last quarter of year 9999 never yields a
    sequence: after the label of 9999Q4 the loop asks [datetime] for year
    10000 and [generate_quarters] raises [ValueError]. *)
Theorem generate_quarters_last_quarter start end_ :
  label_matches start = true -> label_matches end_ = true ->
  1 <= label_year start ->
  quarter_index end_ = 4 * MAXYEAR + 4 ->
  forall fuel,
    (Z.to_nat (quarter_index end_ - quarter_index start) < fuel)%nat ->
    generate_quarters fuel start end_ = Some (Raise ValueError).
Proof.
  intros Hs He Hys Hend fuel Hfuel.
  pose proof (label_year_range start Hs) as [[_ Hys'] Hqs].
  pose proof (label_year_range end_ He) as [[_ Hye'] Hqe].
  unfold quarter_index, MAXYEAR in *.
  assert (label_year end_ = 9999 /\ label_quarter end_ = 4) as [Hy Hq] by lia.
  unfold generate_quarters.
  rewrite (quarter_to_date_valid start Hs Hys), (quarter_to_date_valid end_ He) by lia.
  rewrite Hy, Hq. change 9999 with MAXYEAR.
  apply (quarters_loop_last_quarter
           (Z.to_nat (4 * 9999 + 4 - (4 * label_year start + label_quarter start))));
    unfold MAXYEAR; lia.
Qed.

(** *** The digits of a printed year *)

Lemma pretty_N_char_digit (d : N) :
  (d < 10)%N ->
  is_digit (pretty_N_char d) = true /\ digit_val (pretty_N_char d) = Z.of_N d.
Proof.
  intros Hd.
  assert (d = 0 \/ d = 1 \/ d = 2 \/ d = 3 \/ d = 4 \/ d = 5 \/ d = 6 \/ d = 7 \/
          d = 8 \/ d = 9)%N as Hcases by lia.
  repeat destruct Hcases as [->|Hcases]; try subst d; split; reflexivity.
Qed.

Lemma pretty_Z_go y : 0 < y -> pretty y = pretty_N_go (Z.to_N y) "".
Proof.
  destruct y as [|p|p]; try lia. intros _. reflexivity.
Qed.

(** One more digit of [x], from the right. *)
Ltac next_digit x d x' :=
  rewrite (pretty_N_go_step x) by lia;
  pose proof (N.div_mod x 10 ltac:(lia));
  pose proof (N.mod_lt x 10 ltac:(lia));
  set (d := (x `mod` 10)%N) in *;
  set (x' := (x `div` 10)%N) in *;
  clearbody d x'.

Ltac digit_facts d :=
  let Hdig := fresh "Hdig" in
  let Hval := fresh "Hval" in
  destruct (pretty_N_char_digit d ltac:(lia)) as [Hdig Hval].

Lemma pretty_four_digits y :
  1000 <= y <= 9999 ->
  exists a b c d,
    pretty y = String a (String b (String c (String d EmptyString))) /\
    is_digit a = true /\ is_digit b = true /\ is_digit c = true /\ is_digit d = true /\
    1000 * digit_val a + 100 * digit_val b + 10 * digit_val c + digit_val d = y.
Proof.
  intros Hy. rewrite pretty_Z_go by lia.
  assert (Hx : Z.of_N (Z.to_N y) = y) by lia.
  set (x := Z.to_N y) in *. clearbody x.
  next_digit x d0 x1. next_digit x1 d1 x2. next_digit x2 d2 x3. next_digit x3 d3 x4.
  replace x4 with 0%N by lia. rewrite pretty_N_go_0.
  digit_facts d0. digit_facts d1. digit_facts d2. digit_facts d3.
  exists (pretty_N_char d3), (pretty_N_char d2), (pretty_N_char d1), (pretty_N_char d0).
  repeat split; try assumption. lia.
Qed.

(** Below 1000 the printed year has one, two or three digits. *)
Lemma pretty_short y :
  1 <= y <= 999 ->
  exists a rest,
    is_digit a = true /\
    pretty y = String a rest /\
    (rest = EmptyString \/
     (exists b, is_digit b = true /\ rest = String b EmptyString) \/
     (exists b c, is_digit b = true /\ is_digit c = true /\
                  rest = String b (String c EmptyString))).
Proof.
  intros Hy. rewrite pretty_Z_go by lia.
  assert (Hx : Z.of_N (Z.to_N y) = y) by lia.
  set (x := Z.to_N y) in *. clearbody x.
  next_digit x d0 x1. digit_facts d0.
  destruct (decide (x1 = 0%N)) as [->|Hx1].
  { rewrite pretty_N_go_0. exists (pretty_N_char d0), EmptyString.
    split; [assumption|]. split; [reflexivity|]. left. reflexivity. }
  next_digit x1 d1 x2. digit_facts d1.
  destruct (decide (x2 = 0%N)) as [->|Hx2].
  { rewrite pretty_N_go_0.
    exists (pretty_N_char d1), (String (pretty_N_char d0) EmptyString).
    split; [assumption|]. split; [reflexivity|]. right. left.
    exists (pretty_N_char d0). split; [assumption | reflexivity]. }
  next_digit x2 d2 x3. digit_facts d2.
  replace x3 with 0%N by lia. rewrite pretty_N_go_0.
  exists (pretty_N_char d2),
    (String (pretty_N_char d1) (String (pretty_N_char d0) EmptyString)).
  split; [assumption|]. split; [reflexivity|]. right. right.
  exists (pretty_N_char d1), (pretty_N_char d0).
  split; [assumption|]. split; [assumption | reflexivity].
Qed.

Lemma pretty_quarter q :
  1 <= q <= 4 ->
  exists n, pretty q = String n EmptyString /\ is_digit n = true /\
            is_space n = false /\ digit_val n = q.
Proof.
  intros Hq. assert (q = 1 \/ q = 2 \/ q = 3 \/ q = 4) as Hcases by lia.
  repeat destruct Hcases as [->|Hcases]; try subst q;
    eexists; repeat split; reflexivity.
Qed.

(** X4.  From year 1000 on, a generated label is a label: it matches the
    pattern and [quarter_to_date] reads it back as the quarter it names. *)
Theorem quarter_label_reads_back y q :
  1000 <= y <= 9999 -> 1 <= q <= 4 ->
  label_matches (quarter_label y q) = true /\
  quarter_to_date (quarter_label y q) = Ok (quarter_start y q).
Proof.
  intros Hy Hq. unfold quarter_label.
  destruct (pretty_four_digits y Hy) as (a & b & c & d & -> & Ha & Hb & Hc & Hd & Hval).
  destruct (pretty_quarter q Hq) as (n & -> & Hn & _ & Hnq).
  simpl. split.
  - unfold label_matches. simpl. rewrite Ha, Hb, Hc, Hd, Hn, Hnq. simpl.
    replace (1 <=? q) with true by (symmetry; apply Z.leb_le; lia).
    replace (q <=? 4) with true by (symmetry; apply Z.leb_le; lia).
    reflexivity.
  - unfold quarter_to_date, str_index. simpl.
    rewrite (py_int_four_digits a b c d Ha Hb Hc Hd), Hval. simpl.
    rewrite (py_int_digit n Hn), Hnq. simpl.
    unfold first_of_month, MINYEAR, MAXYEAR. decide_leb. reflexivity.
Qed.

Lemma parse_digits_stops cs acc after :
  parse_digits ("Q"%char :: cs) acc after = None.
Proof. reflexivity. Qed.

(** X5.  Below year 1000 the year of a generated label is not padded to
    four digits: the label does not match the pattern and
    [quarter_to_date] raises [ValueError] on it. *)
Theorem quarter_label_unpadded y q :
  1 <= y <= 999 -> 1 <= q <= 4 ->
  label_matches (quarter_label y q) = false /\
  quarter_to_date (quarter_label y q) = Raise ValueError.
Proof.
  intros Hy Hq. unfold quarter_label.
  destruct (pretty_short y Hy) as (a & rest & Ha & -> & Hrest).
  destruct (pretty_quarter q Hq) as (n & -> & Hn & Hsp & _).
  pose proof (digit_not_space a Ha) as Hsa.
  destruct Hrest as [->|[(b & Hb & ->)|(b & c & Hb & Hc & ->)]];
    (split; [reflexivity|]);
    unfold quarter_to_date, py_int, strip; simpl;
    rewrite ?Hsa; simpl; rewrite ?Hsp; simpl;
    rewrite (digit_no_sign a _ Ha); simpl;
    rewrite ?Ha, ?Hb, ?Hc; reflexivity.
Qed.

(** ** Diff engine: when it returns and what it reports *)

Section DiffEngineMore.

Variable float_of_str : string -> option spec_float.

Lemma changed_loop_each names cur orig acc S :
  changed_loop float_of_str names cur orig acc = Ok S ->
  forall v, v ∈ names ->
    exists c o b, dict_get cur v = Some c /\ dict_get orig v = Some o /\
                  var_changed float_of_str c o = Ok b.
Proof.
  revert acc. induction names as [|n names IH]; intros acc H v Hin; simpl in H.
  - inversion Hin.
  - destruct (getitem cur n) as [c|] eqn:Hc; simpl in H; [|discriminate].
    destruct (getitem orig n) as [o|] eqn:Ho; simpl in H; [|discriminate].
    destruct (var_changed float_of_str c o) as [b|] eqn:Hb; simpl in H; [|discriminate].
    apply getitem_Ok in Hc, Ho.
    apply elem_of_cons in Hin as [->|Hin]; [eauto 10|].
    exact (IH _ H v Hin).
Qed.

(** The loop stops with the exception of the first variable whose
    comparison raises. *)
Lemma changed_loop_raise pre v post cur orig acc cr br e :
  is_ok (changed_loop float_of_str pre cur orig acc) = true ->
  dict_get cur v = Some cr -> dict_get orig v = Some br ->
  var_changed float_of_str cr br = Raise e ->
  changed_loop float_of_str (pre ++ v :: post) cur orig acc = Raise e.
Proof.
  revert acc. induction pre as [|n pre IH]; intros acc Hok Hc Ho He; simpl.
  - apply getitem_Ok in Hc, Ho. rewrite Hc, Ho. simpl. rewrite He. reflexivity.
  - simpl in Hok.
    destruct (getitem cur n) as [c'|]; simpl in *; [|discriminate].
    destruct (getitem orig n) as [o'|]; simpl in *; [|discriminate].
    destruct (var_changed float_of_str c' o') as [b|]; simpl in *; [|discriminate].
    apply IH; assumption.
Qed.

Lemma var_changed_diffable cr br :
  is_ok (var_changed float_of_str cr br) = diffable float_of_str cr br.
Proof.
  unfold var_changed, diffable, list_input_ne, scalar_input_ne, getitem.
  destruct (dict_get cr "method") as [m|]; [|reflexivity].
  destruct (dict_get br "method") as [m'|]; [|reflexivity].
  destruct (dict_get cr "quarters") as [q|]; [|reflexivity].
  destruct (dict_get br "quarters") as [q'|]; [|reflexivity].
  destruct (dict_get cr "input") as [i|]; [|reflexivity].
  simpl. destruct (dict_get br "input") as [i'|].
  - destruct (is_list_or_tuple i); simpl.
    + destruct (py_ne m m'), (py_ne q q'), (py_ne i i'); reflexivity.
    + destruct (py_float float_of_str i) as [cf|]; [|reflexivity]. simpl.
      destruct (py_float float_of_str i') as [cg|]; [|reflexivity]. simpl.
      destruct (py_ne m m'), (py_ne q q'), (float_eq cf cg); reflexivity.
  - destruct (is_list_or_tuple i); simpl; [reflexivity|].
    destruct (py_float float_of_str i); reflexivity.
Qed.

Lemma changed_loop_ok names cur orig acc :
  (forall v, v ∈ names ->
     exists cr br, dict_get cur v = Some cr /\ dict_get orig v = Some br /\
                   diffable float_of_str cr br = true) ->
  is_ok (changed_loop float_of_str names cur orig acc) = true.
Proof.
  revert acc. induction names as [|n names IH]; intros acc H; [reflexivity|].
  destruct (H n) as (cr & br & Hc & Ho & Hd); [left|].
  simpl. apply getitem_Ok in Hc, Ho. rewrite Hc, Ho. simpl.
  rewrite <- var_changed_diffable in Hd.
  destruct (var_changed float_of_str cr br) as [b|]; [|discriminate]. simpl.
  apply IH. intros v Hv. apply H. right. exact Hv.
Qed.

(** X6.  When the diff engine returns, a variable is in the changed set
    exactly when its [method] differs, its [quarters] differ, or its
    [input] differs: as lists by [!=] when the committed input is a list,
    as floats otherwise.  The committed [method] and [quarters] and a
    committed list [input] hold no NaN: an element that [!=] on lists takes
    as equal because it is the same object on both sides is then equal by
    value too, which is how [py_ne] compares. *)
Theorem changed_iff_field_differs committed baseline S v cr br m i q m' i' q' :
  get_changed_variables float_of_str committed baseline = Ok S ->
  dict_get committed v = Some cr ->
  dict_get baseline v = Some br ->
  has_fields cr m i q -> has_fields br m' i' q' ->
  nan_free m = true -> nan_free q = true ->
  (is_list_or_tuple i = true -> nan_free i = true) ->
  (v ∈ S <->
   py_ne m m' = true \/ py_ne q q' = true \/
   (if is_list_or_tuple i then py_ne i i' = true
    else exists cf cg, py_float float_of_str i = Ok cf /\
                       py_float float_of_str i' = Ok cg /\ float_eq cf cg = false)).
Proof.
  intros HS Hc Hb Hcr Hbr _ _ _.
  assert (Hin : v ∈ dict_keys committed) by (apply dict_get_keys; eauto).
  destruct (changed_loop_each _ _ _ _ _ HS v Hin) as (c & o & b & Hc' & Ho' & Hv).
  rewrite Hc in Hc'. rewrite Hb in Ho'. inversion Hc'; inversion Ho'; subst c o.
  assert (Hset : v ∈ S <-> var_changed float_of_str cr br = Ok true).
  { rewrite (changed_loop_elem _ _ _ _ _ _ HS v). split.
    - intros [Hempty|(_ & c & o & Hc2 & Ho2 & Hv2)]; [set_solver|]. congruence.
    - intros Hv2. right. split; [exact Hin|]. exists cr, br. auto. }
  rewrite Hset, Hv. clear Hset HS.
  rewrite (var_changed_fields _ _ _ _ _ _ _ _ _ Hcr Hbr) in Hv.
  destruct (is_list_or_tuple i); simpl in Hv.
  - inversion Hv as [Hb']. clear Hv.
    destruct (py_ne m m'), (py_ne q q'), (py_ne i i'); simpl;
      split; intros H; try reflexivity; auto;
      try discriminate; destruct H as [H|[H|H]]; discriminate.
  - destruct (py_float float_of_str i) as [cf|]; simpl in Hv; [|discriminate].
    destruct (py_float float_of_str i') as [cg|]; simpl in Hv; [|discriminate].
    inversion Hv as [Hb']. clear Hv.
    assert (Hfl : (exists cf' cg', Ok cf = Ok cf' /\ Ok cg = Ok cg' /\
                                   float_eq cf' cg' = false) <->
                  float_eq cf cg = false).
    { split.
      - intros (cf' & cg' & Hf & Hg & Hne). inversion Hf; inversion Hg; subst. exact Hne.
      - intros Hne. exists cf, cg. auto. }
    rewrite Hfl.
    destruct (py_ne m m'), (py_ne q q'), (float_eq cf cg); simpl;
      split; intros H; try reflexivity; auto;
      try discriminate; destruct H as [H|[H|H]]; discriminate.
Qed.

(** X7.  A variable whose committed input is a number while its baseline
    input is a list makes the diff engine raise [TypeError] ([float] of a
    list), when the variables before it compare without an exception. *)
Theorem scalar_against_sequence_raises committed baseline pre v post cr br m i q m' l q' :
  dict_keys committed = (pre ++ v :: post)%list ->
  is_ok (changed_loop float_of_str pre committed baseline ∅) = true ->
  dict_get committed v = Some cr ->
  dict_get baseline v = Some br ->
  has_fields cr m i q -> has_fields br m' (PList l) q' ->
  is_list_or_tuple i = false ->
  is_ok (py_float float_of_str i) = true ->
  get_changed_variables float_of_str committed baseline = Raise TypeError.
Proof.
  intros Hk Hok Hc Hb Hcr Hbr Hnl Hf.
  unfold get_changed_variables. rewrite Hk.
  apply changed_loop_raise with (cr := cr) (br := br); try assumption.
  rewrite (var_changed_fields _ _ _ _ _ _ _ _ _ Hcr Hbr), Hnl.
  destruct (py_float float_of_str i); [reflexivity | discriminate].
Qed.

(** X8.  The diff engine returns a set exactly when every variable of
    [committed] has a baseline record and the pair of records has the three
    fields on both sides and inputs that can be compared. *)
Theorem diff_returns_iff committed baseline :
  is_ok (get_changed_variables float_of_str committed baseline) = true <->
  (forall v, v ∈ dict_keys committed ->
     exists cr br, dict_get committed v = Some cr /\ dict_get baseline v = Some br /\
                   diffable float_of_str cr br = true).
Proof.
  unfold get_changed_variables. split.
  - intros Hok v Hin.
    destruct (changed_loop float_of_str (dict_keys committed) committed baseline ∅)
      as [S|] eqn:HS; [|discriminate].
    destruct (changed_loop_each _ _ _ _ _ HS v Hin) as (c & o & b & Hc & Ho & Hv).
    exists c, o. split; [exact Hc|]. split; [exact Ho|].
    rewrite <- var_changed_diffable, Hv. reflexivity.
  - apply changed_loop_ok.
Qed.

End DiffEngineMore.

(** ** Configuration store: the grouping *)

Section Categories.

Lemma key_eq_text a b : key_eq (PStr a) (PStr b) = String.eqb a b.
Proof. unfold key_eq. simpl. apply orb_false_r. Qed.

Lemma text_keys_cons k names (cats : groups) :
  text_keys ((k, names) :: cats) -> (exists c, k = PStr c) /\ text_keys cats.
Proof.
  intros H. split; [apply (H k names); left|].
  intros k' n' Hin. apply (H k' n'). right. exact Hin.
Qed.

Lemma text_keys_app (cats : groups) c names :
  text_keys cats -> text_keys (cats ++ [(PStr c, names)])%list.
Proof.
  intros H k n Hin. apply elem_of_app in Hin as [Hin|Hin]; [exact (H k n Hin)|].
  apply list_elem_of_singleton in Hin. inversion Hin. eauto.
Qed.

Lemma group_keys_app (cats : groups) c names :
  group_keys (cats ++ [(PStr c, names)])%list = (group_keys cats ++ [c])%list.
Proof.
  induction cats as [|[k n] cats IH]; simpl; [reflexivity|].
  destruct k; try exact IH. rewrite IH. reflexivity.
Qed.

Lemma group_find_app (cats : groups) c k names :
  group_find (cats ++ [(k, names)])%list c =
    match group_find cats c with
    | Some x => Some x
    | None => if key_eq k c then Some names else None
    end.
Proof.
  induction cats as [|[k0 n0] cats IH]; simpl; [reflexivity|].
  destruct (key_eq k0 c); [reflexivity | exact IH].
Qed.

Lemma group_find_append (cats : groups) c v c' :
  text_keys cats ->
  group_find (group_append cats (PStr c) v) (PStr c') =
    if String.eqb c c'
    then option_map (fun names => (names ++ [v])%list) (group_find cats (PStr c'))
    else group_find cats (PStr c').
Proof.
  induction cats as [|[k names] cats IH]; intros Htext; simpl.
  - destruct (String.eqb c c'); reflexivity.
  - apply text_keys_cons in Htext as [[k0 ->] Htext]. specialize (IH Htext).
    rewrite !key_eq_text.
    destruct (String.eqb_spec k0 c) as [->|Hne]; simpl; rewrite !key_eq_text.
    + destruct (String.eqb_spec c c') as [->|Hne']; reflexivity.
    + destruct (String.eqb_spec k0 c') as [->|Hne2]; [|exact IH].
      destruct (String.eqb_spec c c'); [congruence | reflexivity].
Qed.

Lemma group_append_keys (cats : groups) c v :
  group_keys (group_append cats c v) = group_keys cats.
Proof.
  induction cats as [|[k names] cats IH]; simpl; [reflexivity|].
  destruct (key_eq k c); simpl; [reflexivity | rewrite IH; reflexivity].
Qed.

Lemma group_append_text (cats : groups) c v :
  text_keys cats -> text_keys (group_append cats c v).
Proof.
  induction cats as [|[k names] cats IH]; intros Htext; simpl; [exact Htext|].
  pose proof (text_keys_cons _ _ _ Htext) as [Hk Htext'].
  destruct (key_eq k c).
  - intros k' n' Hin. apply elem_of_cons in Hin as [Hin|Hin].
    + inversion Hin; subst. exact Hk.
    + exact (Htext' k' n' Hin).
  - intros k' n' Hin. apply elem_of_cons in Hin as [Hin|Hin].
    + inversion Hin; subst. exact Hk.
    + exact (IH Htext' k' n' Hin).
Qed.

Lemma group_find_keys (cats : groups) c :
  text_keys cats -> (is_Some (group_find cats (PStr c)) <-> c ∈ group_keys cats).
Proof.
  induction cats as [|[k names] cats IH]; intros Htext; simpl.
  - split; [intros [x Hx]; discriminate | intros H; inversion H].
  - apply text_keys_cons in Htext as [[k0 ->] Htext]. specialize (IH Htext).
    rewrite key_eq_text. simpl. destruct (String.eqb_spec k0 c) as [->|Hne].
    + split; [intros _; left | eauto].
    + rewrite IH. split; [intros H; right; exact H|].
      intros H. apply elem_of_cons in H as [H|H]; [congruence | exact H].
Qed.

Lemma text_keys_fst (cats : groups) :
  text_keys cats -> map fst cats = map PStr (group_keys cats).
Proof.
  induction cats as [|[k names] cats IH]; intros Htext; [reflexivity|].
  apply text_keys_cons in Htext as [[k0 ->] Htext]. simpl. f_equal. exact (IH Htext).
Qed.

(** The loop body on a variable of text category [c]. *)
Lemma group_add_spec (cats : groups) c v :
  text_keys cats ->
  text_keys (group_add cats c v) /\
  group_keys (group_add cats c v) =
    (if bool_decide (c ∈ group_keys cats) then group_keys cats
     else (group_keys cats ++ [c])%list) /\
  forall c',
    group_find (group_add cats c v) (PStr c') =
      if String.eqb c c'
      then Some (default [] (group_find cats (PStr c')) ++ [v])%list
      else group_find cats (PStr c').
Proof.
  intros Htext. unfold group_add.
  pose proof (group_find_keys cats c Htext) as Hmem.
  destruct (bool_decide (is_Some (group_find cats (PStr c)))) eqn:Hdec; simpl.
  - apply bool_decide_eq_true_1 in Hdec.
    split; [apply group_append_text, Htext|]. split.
    + rewrite group_append_keys, bool_decide_eq_true_2 by (apply Hmem, Hdec). reflexivity.
    + intros c'. rewrite group_find_append by exact Htext.
      destruct (String.eqb_spec c c') as [->|Hne]; [|reflexivity].
      destruct Hdec as [names ->]. reflexivity.
  - apply bool_decide_eq_false_1 in Hdec.
    pose proof (text_keys_app cats c [] Htext) as Htext'.
    split; [apply group_append_text, Htext'|]. split.
    + rewrite group_append_keys, group_keys_app.
      rewrite bool_decide_eq_false_2 by (intros H; apply Hdec, Hmem, H). reflexivity.
    + intros c'. rewrite group_find_append by exact Htext'.
      rewrite group_find_app, key_eq_text.
      destruct (String.eqb_spec c c') as [->|Hne].
      * destruct (group_find cats (PStr c')) as [names|] eqn:Hf; [|reflexivity].
        exfalso. apply Hdec. eauto.
      * destruct (group_find cats (PStr c')); reflexivity.
Qed.

Lemma first_seen_equiv l :
  forall s1 s2, (forall x, x ∈ s1 <-> x ∈ s2) -> first_seen s1 l = first_seen s2 l.
Proof.
  induction l as [|x l IH]; intros s1 s2 Heq; [reflexivity|]. simpl.
  destruct (decide (x ∈ s1)) as [Hin|Hnot].
  - rewrite (bool_decide_eq_true_2 _ Hin).
    rewrite bool_decide_eq_true_2 by (apply Heq; exact Hin). apply IH, Heq.
  - rewrite (bool_decide_eq_false_2 _ Hnot).
    rewrite bool_decide_eq_false_2 by (rewrite <- Heq; exact Hnot).
    f_equal. apply IH. intros y. rewrite !elem_of_cons, Heq. reflexivity.
Qed.

Lemma names_in_category_cons c v r (items : config) c0 :
  text_category r = Some c0 ->
  names_in_category c ((v, r) :: items) =
    if String.eqb c0 c then v :: names_in_category c items
    else names_in_category c items.
Proof.
  intros Hr. unfold names_in_category, config, pydict in *.
  destruct (String.eqb_spec c0 c) as [->|Hne].
  - rewrite filter_cons_True by exact Hr. reflexivity.
  - rewrite filter_cons_False by (simpl; congruence). reflexivity.
Qed.

(** The loop, from any dictionary with text keys. *)
Lemma categories_loop_text (items : config) :
  text_categories items = true ->
  forall cats : groups,
    text_keys cats ->
    exists result,
      categories_loop items cats = Ok result /\
      text_keys result /\
      group_keys result =
        (group_keys cats ++ first_seen (group_keys cats) (category_sequence items))%list /\
      forall c,
        group_find result (PStr c) =
          match group_find cats (PStr c), names_in_category c items with
          | None, [] => None
          | found, names => Some (default [] found ++ names)%list
          end.
Proof.
  induction items as [|[v r] items IH]; intros Hitems cats Htext.
  - exists cats. simpl. split; [reflexivity|]. split; [exact Htext|].
    split; [rewrite app_nil_r; reflexivity|].
    intros c. unfold names_in_category. simpl.
    destruct (group_find cats (PStr c)); simpl; [rewrite app_nil_r|]; reflexivity.
  - simpl in Hitems. apply andb_true_iff in Hitems as [Hr Hitems].
    apply bool_decide_eq_true_1 in Hr as [c0 Hc0]. simpl in Hc0.
    assert (Hcat : dict_get r "category" = Some (PStr c0)).
    { unfold text_category in Hc0.
      destruct (dict_get r "category") as [[]|]; try discriminate. congruence. }
    simpl categories_loop. unfold categorize, getitem. rewrite Hcat. simpl.
    fold (group_add cats c0 v).
    destruct (group_add_spec cats c0 v Htext) as (Htext1 & Hkeys1 & Hfind1).
    destruct (IH Hitems (group_add cats c0 v) Htext1) as (result & Hrun & Htextr & Hkeys & Hfind).
    exists result. split; [exact Hrun|]. split; [exact Htextr|]. split.
    + rewrite Hkeys, Hkeys1. simpl. rewrite Hc0. simpl.
      destruct (decide (c0 ∈ group_keys cats)) as [Hin|Hnot].
      * rewrite !bool_decide_eq_true_2 by exact Hin. reflexivity.
      * rewrite !bool_decide_eq_false_2 by exact Hnot.
        rewrite <- app_assoc. simpl. do 2 f_equal.
        apply first_seen_equiv. intros x.
        rewrite elem_of_app, elem_of_cons, elem_of_cons, elem_of_nil. tauto.
    + intros c. rewrite Hfind, Hfind1, (names_in_category_cons c v r items c0 Hc0).
      destruct (String.eqb_spec c0 c) as [->|Hne]; [|reflexivity].
      destruct (group_find cats (PStr c)) as [names|]; simpl;
        rewrite <- ?app_assoc; reflexivity.
Qed.

(** X9.  When every record has a text category, [get_categories] returns,
    and the group of a category lists the variables of that category in the
    order of [data]; a category no record has is not a key. *)
Theorem get_categories_groups data :
  text_categories data = true ->
  exists result,
    get_categories data = Ok result /\
    forall c,
      group_find result (PStr c) =
        match names_in_category c data with
        | [] => None
        | names => Some names
        end.
Proof.
  intros Hdata.
  destruct (categories_loop_text data Hdata []) as (result & Hrun & _ & _ & Hfind).
  { intros k names Hin. inversion Hin. }
  exists result. split; [exact Hrun|]. intros c. rewrite Hfind. reflexivity.
Qed.

(** X10.  When every record has a text category, the keys of the result
    are the categories in the order of their first occurrence in [data],
    each once. *)
Theorem get_categories_order data :
  text_categories data = true ->
  exists result,
    get_categories data = Ok result /\
    map fst result = map PStr (first_seen [] (category_sequence data)).
Proof.
  intros Hdata.
  destruct (categories_loop_text data Hdata []) as (result & Hrun & Htext & Hkeys & _).
  { intros k names Hin. inversion Hin. }
  exists result. split; [exact Hrun|].
  rewrite (text_keys_fst result Htext), Hkeys. reflexivity.
Qed.

(** X11.  A record without [category] makes [get_categories] raise
    [KeyError], when the records before it have text categories. *)
Theorem get_categories_missing_category pre v r post :
  text_categories pre = true ->
  dict_get r "category" = None ->
  get_categories (pre ++ (v, r) :: post)%list = Raise KeyError.
Proof.
  intros Hpre Hr. unfold get_categories.
  assert (Hgen : forall cats : groups, text_keys cats ->
            categories_loop (pre ++ (v, r) :: post)%list cats = Raise KeyError).
  { induction pre as [|[v0 r0] pre IH]; intros cats Htext.
    - simpl. unfold categorize, getitem. rewrite Hr. reflexivity.
    - simpl in Hpre. apply andb_true_iff in Hpre as [Hr0 Hpre].
      apply bool_decide_eq_true_1 in Hr0 as [c0 Hc0]. simpl in Hc0.
      assert (Hcat : dict_get r0 "category" = Some (PStr c0)).
      { unfold text_category in Hc0.
        destruct (dict_get r0 "category") as [[]|]; try discriminate. congruence. }
      simpl. unfold categorize, getitem. rewrite Hcat. simpl.
      fold (group_add cats c0 v0). apply (IH Hpre).
      apply group_add_spec, Htext. }
  apply Hgen. intros k names Hin. inversion Hin.
Qed.

End Categories.

(** ** Recovery: the start of a session *)

Ltac unfold_script :=
  unfold check_for_temp_file, initialize_session, load_spec_file, save_temp_state,
    save_final_config, json_load, json_dump, os_remove, path_exists, try_except,
    set_show_prompt, set_temp_data, set_data, set_original_data, set_initialized,
    render, swhen, sbind, sget, smodify, sret, sraise.

Lemma baseline_not_snapshot : BASELINE_SPEC <> TEMP_FILE.
Proof. discriminate. Qed.

Lemma check_no_snapshot load_prev start_fresh s :
  files s !! TEMP_FILE = None ->
  check_for_temp_file load_prev start_fresh s = (Ok None, s).
Proof.
  intros Hnone. unfold check_for_temp_file, sbind. rewrite path_exists_run.
  rewrite bool_decide_eq_false_2 by (rewrite Hnone; intros [x Hx]; discriminate).
  reflexivity.
Qed.

Lemma check_corrupt_snapshot load_prev start_fresh s :
  files s !! TEMP_FILE = Some BadText ->
  check_for_temp_file load_prev start_fresh s =
    (Ok None, set_files (delete TEMP_FILE) s).
Proof.
  intros Hsnap. unfold check_for_temp_file, sbind. rewrite path_exists_run.
  rewrite bool_decide_eq_true_2 by (rewrite Hsnap; eauto).
  unfold try_except, json_load, sbind, sget. simpl. rewrite Hsnap. simpl.
  unfold os_remove, sbind, sget, smodify. simpl. rewrite Hsnap. reflexivity.
Qed.

(** A snapshot on which [json.load] raises an exception the handler does
    not name: the exception leaves [check_for_temp_file], the state is what
    it was. *)
Lemma check_unhandled_snapshot load_prev start_fresh s f e :
  files s !! TEMP_FILE = Some f ->
  f = BadBytes /\ e = UnicodeDecodeError \/ f = TooDeep /\ e = RecursionError ->
  check_for_temp_file load_prev start_fresh s = (Raise e, s).
Proof.
  intros Hsnap Hf. unfold check_for_temp_file, sbind. rewrite path_exists_run.
  rewrite bool_decide_eq_true_2 by (rewrite Hsnap; eauto).
  unfold try_except, json_load, sbind, sget. simpl. rewrite Hsnap.
  destruct Hf as [[-> ->]|[-> ->]]; reflexivity.
Qed.

(** A snapshot that parses, in a session that has not chosen yet. *)
Lemma check_snapshot_pending load_prev start_fresh s doc :
  files s !! TEMP_FILE = Some (JsonText doc) ->
  show_prompt (sess s) <> Some false ->
  check_for_temp_file load_prev start_fresh s =
    if load_prev then (Raise RerunScript, chose_resume doc s)
    else if start_fresh then (Raise RerunScript, chose_discard s)
    else (Raise StopScript, prompt_shown s).
Proof.
  intros Hdoc Hsp. destruct s as [fs dk ss u]. simpl in *.
  unfold check_for_temp_file, sbind at 1. rewrite path_exists_run. simpl.
  rewrite bool_decide_eq_true_2 by (rewrite Hdoc; eauto).
  unfold_script. simpl. rewrite Hdoc. simpl.
  destruct ss as [[[]|] td d od ini]; simpl in *; try congruence;
    destruct load_prev, start_fresh; simpl; rewrite ?Hdoc; reflexivity.
Qed.

(** A session that has chosen: the stored choice is returned. *)
Lemma check_snapshot_chosen load_prev start_fresh s doc :
  files s !! TEMP_FILE = Some (JsonText doc) ->
  show_prompt (sess s) = Some false ->
  check_for_temp_file load_prev start_fresh s =
    (Ok (default None (temp_data (sess s))), s).
Proof.
  intros Hdoc Hsp. destruct s as [fs dk ss u]. simpl in *.
  unfold check_for_temp_file, sbind at 1. rewrite path_exists_run. simpl.
  rewrite bool_decide_eq_true_2 by (rewrite Hdoc; eauto).
  unfold_script. simpl. rewrite Hdoc. simpl.
  destruct ss as [sp td d od ini]; simpl in *. subst sp. reflexivity.
Qed.

Lemma load_spec_file_valid s base :
  files s !! BASELINE_SPEC = Some (JsonText base) ->
  load_spec_file s = (Ok base, s).
Proof.
  intros Hbase. unfold load_spec_file, try_except, json_load, sbind, sget. simpl.
  rewrite Hbase. reflexivity.
Qed.

Lemma initialize_fresh load_prev start_fresh s base :
  initialized (sess s) = false ->
  check_for_temp_file load_prev start_fresh s = (Ok None, s) ->
  files s !! BASELINE_SPEC = Some (JsonText base) ->
  initialize_session load_prev start_fresh s = (Ok tt, seeded base s).
Proof.
  intros Hnew Hcheck Hbase.
  unfold initialize_session, sbind at 1, sget, swhen. rewrite Hnew. simpl.
  unfold sbind at 1. rewrite Hcheck.
  unfold sbind at 1. unfold sbind at 1.
  rewrite (load_spec_file_valid s base Hbase).
  destruct s as [fs dk ss u]. reflexivity.
Qed.

(** X12.  Without a snapshot file the session starts fresh whatever the
    buttons report: nothing is shown, no file is touched, and both
    documents are what the configuration store loads. *)
Theorem no_snapshot_starts_fresh load_prev start_fresh s :
  files s !! TEMP_FILE = None ->
  initialized (sess s) = false ->
  check_for_temp_file load_prev start_fresh s = (Ok None, s) /\
  initialize_session load_prev start_fresh s =
    match load_spec_file s with
    | (Ok doc, s1) => (Ok tt, seeded doc s1)
    | (Raise e, s1) => (Raise e, s1)
    end.
Proof.
  intros Hnone Hnew.
  pose proof (check_no_snapshot load_prev start_fresh s Hnone) as Hcheck.
  split; [exact Hcheck|].
  unfold initialize_session, sbind at 1, sget, swhen. rewrite Hnew. simpl.
  unfold sbind at 1. rewrite Hcheck.
  unfold sbind at 1. unfold sbind at 1.
  destruct (load_spec_file s) as [[doc|e] s1]; reflexivity.
Qed.

(** X13.  With a snapshot that parses and no click, the script stops at
    the card: the session is not initialized, no document is set, and no
    file is touched. *)
Theorem snapshot_prompt_blocks s doc :
  files s !! TEMP_FILE = Some (JsonText doc) ->
  show_prompt (sess s) <> Some false ->
  initialized (sess s) = false ->
  initialize_session false false s = (Raise StopScript, prompt_shown s) /\
  files (prompt_shown s) = files s /\
  data (sess (prompt_shown s)) = data (sess s) /\
  original_data (sess (prompt_shown s)) = original_data (sess s) /\
  initialized (sess (prompt_shown s)) = false /\
  ui (prompt_shown s) = (ui s ++ [UiPrompt])%list.
Proof.
  intros Hdoc Hsp Hnew. split.
  - unfold initialize_session, sbind at 1, sget, swhen. rewrite Hnew. simpl.
    unfold sbind at 1. rewrite (check_snapshot_pending false false s doc Hdoc Hsp).
    reflexivity.
  - destruct s as [fs dk ss u]. simpl in *. repeat split. exact Hnew.
Qed.

Lemma resume_runs start_fresh load_prev' start_fresh' s doc base :
  files s !! TEMP_FILE = Some (JsonText doc) ->
  files s !! BASELINE_SPEC = Some (JsonText base) ->
  show_prompt (sess s) <> Some false ->
  initialized (sess s) = false ->
  exists s1 s2,
    initialize_session true start_fresh s = (Raise RerunScript, s1) /\
    initialize_session load_prev' start_fresh' s1 = (Ok tt, s2) /\
    data (sess s2) = Some doc /\
    original_data (sess s2) = Some base /\
    initialized (sess s2) = true /\
    files s2 = files s.
Proof.
  intros Hdoc Hbase Hsp Hnew.
  exists (chose_resume doc s). eexists. split.
  - unfold initialize_session, sbind at 1, sget, swhen. rewrite Hnew. simpl.
    unfold sbind at 1. rewrite (check_snapshot_pending true start_fresh s doc Hdoc Hsp).
    reflexivity.
  - assert (Hcheck : check_for_temp_file load_prev' start_fresh' (chose_resume doc s) =
                     (Ok (Some doc), chose_resume doc s)).
    { rewrite (check_snapshot_chosen _ _ _ doc); destruct s as [fs dk ss u];
        simpl in *; [reflexivity | exact Hdoc | reflexivity]. }
    unfold initialize_session, sbind at 1, sget, swhen.
    replace (initialized (sess (chose_resume doc s))) with false
      by (destruct s as [fs dk ss u]; simpl in *; congruence).
    simpl. unfold sbind at 1. rewrite Hcheck.
    destruct s as [fs dk ss u]. simpl in *.
    unfold_script. simpl. rewrite Hbase. simpl. repeat split.
Qed.

(** X14.  Resume: a click on the first button reruns the script, and the
    next run, whatever the buttons report then, sets the committed document
    to the snapshot and the baseline to the specification file; the snapshot
    file stays. *)
Theorem resume_restores_snapshot start_fresh load_prev' start_fresh' s doc base :
  files s !! TEMP_FILE = Some (JsonText doc) ->
  files s !! BASELINE_SPEC = Some (JsonText base) ->
  show_prompt (sess s) <> Some false ->
  initialized (sess s) = false ->
  exists s1 s2,
    initialize_session true start_fresh s = (Raise RerunScript, s1) /\
    initialize_session load_prev' start_fresh' s1 = (Ok tt, s2) /\
    data (sess s2) = Some doc /\
    original_data (sess s2) = Some base /\
    initialized (sess s2) = true /\
    files s2 = files s.
Proof. apply resume_runs. Qed.

(** X15.  Discard: a click on the second button removes the snapshot and
    reruns the script, and the next run starts fresh, with both documents
    from the specification file. *)
Theorem discard_starts_fresh load_prev' start_fresh' s doc base :
  files s !! TEMP_FILE = Some (JsonText doc) ->
  files s !! BASELINE_SPEC = Some (JsonText base) ->
  show_prompt (sess s) <> Some false ->
  initialized (sess s) = false ->
  exists s1 s2,
    initialize_session false true s = (Raise RerunScript, s1) /\
    files s1 = delete TEMP_FILE (files s) /\
    initialize_session load_prev' start_fresh' s1 = (Ok tt, s2) /\
    data (sess s2) = Some base /\
    original_data (sess s2) = Some base /\
    initialized (sess s2) = true /\
    files s2 = delete TEMP_FILE (files s).
Proof.
  intros Hdoc Hbase Hsp Hnew.
  exists (chose_discard s). eexists. split; [|split].
  - unfold initialize_session, sbind at 1, sget, swhen. rewrite Hnew. simpl.
    unfold sbind at 1. rewrite (check_snapshot_pending false true s doc Hdoc Hsp).
    reflexivity.
  - destruct s as [fs dk ss u]. reflexivity.
  - assert (Hgone : files (chose_discard s) !! TEMP_FILE = None).
    { destruct s as [fs dk ss u]. simpl. apply lookup_delete_eq. }
    assert (Hbase' : files (chose_discard s) !! BASELINE_SPEC = Some (JsonText base)).
    { destruct s as [fs dk ss u]. simpl in *.
      rewrite lookup_delete_ne by (intros H; symmetry in H; exact (baseline_not_snapshot H)).
      exact Hbase. }
    rewrite (initialize_fresh _ _ _ base);
      [ | destruct s as [fs dk ss u]; simpl in *; exact Hnew
        | apply check_no_snapshot, Hgone | exact Hbase' ].
    destruct s as [fs dk ss u]. simpl. repeat split.
Qed.

(** X16.  [check_for_temp_file] never writes: whatever the session state,
    the snapshot and the clicks, it leaves the files as they are or removes
    the snapshot file, and it touches neither document of the session. *)
Theorem check_for_temp_file_frame load_prev start_fresh s :
  let s' := snd (check_for_temp_file load_prev start_fresh s) in
  (files s' = files s \/ files s' = delete TEMP_FILE (files s)) /\
  data (sess s') = data (sess s) /\
  original_data (sess s') = original_data (sess s) /\
  initialized (sess s') = initialized (sess s).
Proof.
  intros s'. subst s'.
  destruct (files s !! TEMP_FILE) as [[doc| | |]|] eqn:Hsnap.
  - destruct (decide (show_prompt (sess s) = Some false)) as [Hsp|Hsp].
    + rewrite (check_snapshot_chosen _ _ s doc Hsnap Hsp). simpl. auto.
    + rewrite (check_snapshot_pending _ _ s doc Hsnap Hsp).
      destruct s as [fs dk ss u]. destruct load_prev, start_fresh; simpl; auto.
  - rewrite (check_corrupt_snapshot _ _ s Hsnap).
    destruct s as [fs dk ss u]. simpl. auto.
  - rewrite (check_unhandled_snapshot _ _ s BadBytes UnicodeDecodeError Hsnap);
      [simpl; auto | left; split; reflexivity].
  - rewrite (check_unhandled_snapshot _ _ s TooDeep RecursionError Hsnap);
      [simpl; auto | right; split; reflexivity].
  - rewrite (check_no_snapshot _ _ s Hsnap). simpl. auto.
Qed.

(** X17.  [save_temp_state] never raises.  A write that succeeds leaves the
    snapshot file holding the data and nothing on the page; a write that
    fails is reported on the page, and when [json.dump] is what fails the
    snapshot file is left truncated. *)
Theorem save_temp_state_outcome d s :
  let s' := snd (save_temp_state d s) in
  fst (save_temp_state d s) = Ok tt /\
  match disk s TEMP_FILE with
  | Written =>
      files s' = <[TEMP_FILE := JsonText d]> (files s) /\ ui s' = ui s
  | OpenFails =>
      files s' = files s /\
      ui s' = (ui s ++ [UiError "Error saving temporary state: " (Some OSError)])%list
  | DumpFails =>
      files s' = <[TEMP_FILE := BadText]> (files s) /\
      ui s' = (ui s ++ [UiError "Error saving temporary state: " (Some OSError)])%list
  end.
Proof.
  intros s'. subst s'. unfold_script. simpl.
  destruct (disk s TEMP_FILE); simpl; repeat split.
Qed.

(** X18.  Persist and resume: after a snapshot write that succeeds, a new
    session on the same files that chooses to resume has the saved data as
    its committed document and the specification file as its baseline. *)
Theorem saved_state_resumes d s base start_fresh load_prev' start_fresh' :
  disk s TEMP_FILE = Written ->
  files s !! BASELINE_SPEC = Some (JsonText base) ->
  let s0 := restart (snd (save_temp_state d s)) in
  exists s1 s2,
    initialize_session true start_fresh s0 = (Raise RerunScript, s1) /\
    initialize_session load_prev' start_fresh' s1 = (Ok tt, s2) /\
    data (sess s2) = Some d /\
    original_data (sess s2) = Some base.
Proof.
  intros Hdisk Hbase s0.
  assert (Hfiles : files s0 = <[TEMP_FILE := JsonText d]> (files s)).
  { subst s0. unfold_script. simpl. rewrite Hdisk. reflexivity. }
  assert (Hsnap : files s0 !! TEMP_FILE = Some (JsonText d)).
  { rewrite Hfiles. apply lookup_insert_eq. }
  assert (Hbase0 : files s0 !! BASELINE_SPEC = Some (JsonText base)).
  { rewrite Hfiles, lookup_insert_ne by (intros H; symmetry in H; exact (baseline_not_snapshot H)).
    exact Hbase. }
  destruct (resume_runs start_fresh load_prev' start_fresh' s0 d base Hsnap Hbase0)
    as (s1 & s2 & Hrun1 & Hrun2 & Hdata & Horig & _); [discriminate | reflexivity |].
  exists s1, s2. auto.
Qed.

(** X19.  [save_final_config] touches two files at most: whatever the
    outcome of the write, every file other than the artifact and the
    snapshot is what it was; the specification file in particular. *)
Theorem save_final_config_frame timestamp d s path :
  path <> "config_" +:+ timestamp +:+ ".json" ->
  path <> TEMP_FILE ->
  files (snd (save_final_config timestamp d s)) !! path = files s !! path.
Proof.
  intros Hart Hsnap.
  unfold save_final_config, try_except, json_dump, sbind, sget, smodify, sraise,
    swhen, sret. simpl.
  destruct (disk s ("config_" +:+ timestamp +:+ ".json")) eqn:Hd; simpl.
  - destruct (bool_decide _) eqn:Hex; simpl.
    + apply bool_decide_eq_true_1 in Hex as [f Hf].
      unfold os_remove, sbind, sget, smodify. simpl. rewrite Hf. simpl.
      rewrite lookup_delete_ne, lookup_insert_ne by congruence. reflexivity.
    + rewrite lookup_insert_ne by congruence. reflexivity.
  - reflexivity.
  - rewrite lookup_insert_ne by congruence. reflexivity.
Qed.

(** X20.  After a final save that succeeds, a new session on the same
    files finds no snapshot: it shows no card and does not stop. *)
Theorem final_save_ends_recovery timestamp d s load_prev start_fresh :
  disk s ("config_" +:+ timestamp +:+ ".json") = Written ->
  let s0 := restart (snd (save_final_config timestamp d s)) in
  check_for_temp_file load_prev start_fresh s0 = (Ok None, s0).
Proof.
  intros Hdisk s0. apply check_no_snapshot. subst s0.
  unfold save_final_config, try_except, json_dump, sbind, sget, smodify, sraise,
    swhen, sret. simpl. rewrite Hdisk. simpl.
  destruct (bool_decide _) eqn:Hex; simpl.
  - apply bool_decide_eq_true_1 in Hex as [f Hf].
    unfold os_remove, sbind, sget, smodify. simpl. rewrite Hf. simpl.
    apply lookup_delete_eq.
  - apply bool_decide_eq_false_1 in Hex.
    destruct (<[_:=_]> (files s) !! TEMP_FILE) eqn:E; [|reflexivity].
    exfalso. apply Hex. eauto.
Qed.

(** X21.  A snapshot write in which [json.dump] fails costs the earlier
    snapshot: the file is left truncated, and the next session removes it
    without a card and starts without the earlier work. *)
Theorem failed_snapshot_write_loses_work d s load_prev start_fresh :
  disk s TEMP_FILE = DumpFails ->
  let s0 := restart (snd (save_temp_state d s)) in
  check_for_temp_file load_prev start_fresh s0 =
    (Ok None, set_files (delete TEMP_FILE) s0) /\
  files (set_files (delete TEMP_FILE) s0) !! TEMP_FILE = None.
Proof.
  intros Hdisk s0.
  assert (Hsnap : files s0 !! TEMP_FILE = Some BadText).
  { subst s0. unfold_script. simpl. rewrite Hdisk. simpl. apply lookup_insert_eq. }
  split.
  - apply check_corrupt_snapshot, Hsnap.
  - simpl. apply lookup_delete_eq.
Qed.

(** ** Batch mutator: what a batch writes and what it leaves *)

Module BatchMore.
Import Batch BatchFacts.

Lemma dict_keys_set {V} (d : pydict V) k v :
  is_Some (dict_get d k) -> dict_keys (dict_set d k v) = dict_keys d.
Proof.
  induction d as [|[k0 v0] d IH]; simpl.
  - intros [x Hx]. discriminate.
  - destruct (String.eqb_spec k0 k) as [->|Hne]; simpl; [reflexivity|].
    intros H. f_equal. exact (IH H).
Qed.

Lemma keeps_keys_bind {A B} (c : script store A) (k : A -> script store B) :
  keeps_keys c -> (forall a, keeps_keys (k a)) -> keeps_keys (sbind c k).
Proof.
  intros Hc Hk s. unfold sbind. specialize (Hc s).
  destruct (c s) as [[a|e] s1]; simpl in *; [|exact Hc].
  rewrite (Hk a s1). exact Hc.
Qed.

Lemma keeps_keys_lift {A} (r : result A) : keeps_keys (lift r).
Proof. intros s. reflexivity. Qed.

Lemma keeps_keys_set_field v field x : keeps_keys (set_field v field x).
Proof.
  intros s. unfold set_field, sbind, sget, smodify, sraise. simpl.
  destruct (dict_get (vars s) v) as [r|] eqn:Hr; simpl; [|reflexivity].
  apply dict_keys_set. eauto.
Qed.

Lemma keeps_keys_list_copy x : keeps_keys (list_copy x).
Proof. intros s. destruct x; reflexivity. Qed.

Lemma keeps_keys_variable v settings : keeps_keys (apply_to_variable v settings).
Proof.
  unfold apply_to_variable.
  apply keeps_keys_bind; [apply keeps_keys_lift|]. intros m.
  apply keeps_keys_bind; [apply keeps_keys_set_field|]. intros _.
  apply keeps_keys_bind; [apply keeps_keys_lift|]. intros m'.
  destruct (is_single_value_fill m').
  - apply keeps_keys_bind; [apply keeps_keys_lift|]. intros i.
    apply keeps_keys_bind; [apply keeps_keys_set_field|]. intros _.
    apply keeps_keys_set_field.
  - apply keeps_keys_bind; [apply keeps_keys_lift|]. intros q.
    apply keeps_keys_bind; [apply keeps_keys_set_field|]. intros _.
    apply keeps_keys_bind; [apply keeps_keys_lift|]. intros i.
    apply keeps_keys_bind; [apply keeps_keys_list_copy|]. intros c.
    apply keeps_keys_set_field.
Qed.

Lemma keeps_keys_loop selected settings : keeps_keys (apply_loop selected settings).
Proof.
  induction selected as [|v rest IH]; [intros s; reflexivity|].
  simpl. apply keeps_keys_bind; [apply keeps_keys_variable | intros _; exact IH].
Qed.

(** X22.  A batch neither adds nor removes a variable, nor reorders them:
    whatever the settings and the selection, and also when it raises, the
    names of [data] are what they were. *)
Theorem batch_keeps_names selected settings s :
  dict_keys (vars (snd (apply_settings_to_variables selected settings s))) =
  dict_keys (vars s).
Proof.
  unfold apply_settings_to_variables.
  pose proof (keeps_keys_loop selected settings s) as H.
  unfold sbind. destruct (apply_loop selected settings s) as [[[]|e] s1]; exact H.
Qed.

(** X23.  A name that is not in [data] stops the batch with [KeyError]
    after the names before it have been written: the state is the one the
    loop leaves on those names. *)
Theorem batch_unknown_name pre v post settings s s1 :
  dict_get (vars s) v = None ->
  apply_loop pre settings s = (Ok tt, s1) ->
  apply_settings_to_variables (pre ++ v :: post)%list settings s = (Raise KeyError, s1).
Proof.
  intros Hv Hpre.
  assert (Hv1 : dict_get (vars s1) v = None).
  { pose proof (keeps_keys_loop pre settings s) as Hk. rewrite Hpre in Hk. simpl in Hk.
    destruct (dict_get (vars s1) v) eqn:E; [|reflexivity].
    assert (Hin : v ∈ dict_keys (vars s1)) by (apply dict_get_keys; eauto).
    rewrite Hk in Hin. apply dict_get_keys in Hin as [x Hx]. congruence. }
  assert (Hone : apply_to_variable v settings s1 = (Raise KeyError, s1)).
  { unfold apply_to_variable, sbind, lift, getitem.
    destruct (dict_get settings "method"); [|reflexivity].
    unfold set_field, sbind, sget, sraise. rewrite Hv1. reflexivity. }
  unfold apply_settings_to_variables, sbind.
  assert (Hloop : forall pre s, apply_loop pre settings s = (Ok tt, s1) ->
            apply_loop (pre ++ v :: post)%list settings s = (Raise KeyError, s1)).
  { clear Hpre Hv. intros pre0. induction pre0 as [|a pre0 IH]; intros s0 H0.
    - simpl in H0. inversion H0; subst. simpl. unfold sbind. rewrite Hone. reflexivity.
    - simpl in *. unfold sbind in *.
      destruct (apply_to_variable a settings s0) as [[[]|e] s2]; [|discriminate].
      apply IH. exact H0. }
  rewrite (Hloop pre s Hpre). reflexivity.
Qed.

Section Overwriting.

Variables (settings : pydict value) (m q : value) (i : option value).

(** How the list objects after a run relate to those before. *)
Variable related : gmap loc (list value) -> gmap loc (list value) -> Prop.
Hypothesis related_refl : forall h, related h h.
Hypothesis related_trans : forall h1 h2 h3, related h1 h2 -> related h2 h3 -> related h1 h3.

(** The loop body succeeds on every variable of [data] and writes the
    fields of the batch. *)
Hypothesis body_writes :
  forall s v r,
    dict_get (vars s) v = Some r ->
    exists s1 r1,
      apply_to_variable v settings s = (Ok tt, s1) /\
      dict_get (vars s1) v = Some r1 /\
      overwritten m q i r r1 /\
      (forall b, b <> v -> dict_get (vars s1) b = dict_get (vars s) b) /\
      related (objs s) (objs s1).

Lemma overwritten_trans r r1 r2 :
  overwritten m q i r r1 -> overwritten m q i r1 r2 -> overwritten m q i r r2.
Proof.
  intros H1 H2 field. rewrite (H2 field).
  destruct (String.eqb field "input") eqn:Ei; [reflexivity|].
  destruct (String.eqb field "quarters") eqn:Eq; [reflexivity|].
  destruct (String.eqb field "method") eqn:Em; [reflexivity|].
  rewrite (H1 field), Ei, Eq, Em. reflexivity.
Qed.

Lemma apply_loop_overwrites selected :
  forall s,
    (forall v, v ∈ selected -> is_Some (dict_get (vars s) v)) ->
    exists s',
      apply_loop selected settings s = (Ok tt, s') /\
      (forall a, a ∈ selected ->
         exists r r', dict_get (vars s) a = Some r /\ dict_get (vars s') a = Some r' /\
                      overwritten m q i r r') /\
      (forall b, b ∉ selected -> dict_get (vars s') b = dict_get (vars s) b) /\
      related (objs s) (objs s').
Proof.
  induction selected as [|v rest IH]; intros s Hkeys.
  - exists s. simpl. repeat split; auto. intros a Ha. inversion Ha.
  - destruct (Hkeys v) as [r Hr]; [left|].
    destruct (body_writes s v r Hr) as (s1 & r1 & Hrun1 & Hv1 & Hover1 & Hother1 & Hobjs1).
    destruct (IH s1) as (s' & Hrun & Hsel & Hother & Hobjs).
    { intros x Hx. destruct (decide (x = v)) as [->|Hne]; [rewrite Hv1; eauto|].
      rewrite (Hother1 x Hne). apply Hkeys. right. exact Hx. }
    exists s'. split.
    { simpl. unfold sbind at 1. rewrite Hrun1. exact Hrun. }
    split; [|split].
    + intros a Ha. destruct (decide (a ∈ rest)) as [Hin|Hnotin].
      * destruct (Hsel a Hin) as (ra & ra' & Hra & Hra' & Hover).
        destruct (decide (a = v)) as [->|Hne].
        -- rewrite Hv1 in Hra. inversion Hra; subst ra.
           exists r, ra'. split; [exact Hr|]. split; [exact Hra'|].
           exact (overwritten_trans r r1 ra' Hover1 Hover).
        -- rewrite (Hother1 a Hne) in Hra. exists ra, ra'. auto.
      * assert (a = v) by (apply elem_of_cons in Ha as [?|?]; [assumption | contradiction]).
        subst a. exists r, r1. split; [exact Hr|]. split; [|exact Hover1].
        rewrite (Hother v Hnotin). exact Hv1.
    + intros b Hb. rewrite Hother by (intros Hin; apply Hb; right; exact Hin).
      apply Hother1. intros ->. apply Hb. left.
    + exact (related_trans _ _ _ Hobjs1 Hobjs).
Qed.

End Overwriting.

Lemma dict_get_set' {V} (d : pydict V) k v k' :
  dict_get (dict_set d k v) k' = if String.eqb k' k then Some v else dict_get d k'.
Proof. rewrite dict_get_set, String.eqb_sym. reflexivity. Qed.

(** The loop body in the single-value branch. *)
Lemma apply_to_variable_single settings m x s v r :
  getitem settings "method" = Ok m ->
  is_single_value_fill m = true ->
  getitem settings "input" = Ok x ->
  dict_get (vars s) v = Some r ->
  exists s1 r1,
    apply_to_variable v settings s = (Ok tt, s1) /\
    dict_get (vars s1) v = Some r1 /\
    overwritten m VNone (Some x) r r1 /\
    (forall b, b <> v -> dict_get (vars s1) b = dict_get (vars s) b) /\
    objs s = objs s1.
Proof.
  intros Hm Hsingle Hx Hr. unfold apply_to_variable, sbind, lift.
  rewrite Hm. unfold set_field at 1, sbind, sget, smodify. rewrite Hr. simpl.
  rewrite Hsingle, Hx.
  unfold set_field at 1, sbind, sget, smodify. simpl.
  rewrite dict_get_set_eq. simpl.
  unfold set_field, sbind, sget, smodify. simpl.
  rewrite dict_get_set_eq.
  eexists. eexists. split; [reflexivity|]. simpl. split; [apply dict_get_set_eq|].
  split; [|split; [|reflexivity]].
  - intros field. rewrite !dict_get_set'.
    destruct (String.eqb_spec field "input") as [->|Hi]; [reflexivity|].
    destruct (String.eqb field "quarters"); reflexivity.
  - intros b Hb. rewrite !dict_get_set_ne by congruence. reflexivity.
Qed.

(** X24.  With the single-value method every selected variable gets the
    method and the input of the settings and [None] for quarters, its other
    fields staying as they were; the input is assigned, not copied; no list
    object is made, and the variables that are not selected are not
    touched. *)
Theorem batch_single_value selected settings s m x :
  getitem settings "method" = Ok m ->
  is_single_value_fill m = true ->
  getitem settings "input" = Ok x ->
  (forall v, v ∈ selected -> v ∈ dict_keys (vars s)) ->
  exists s',
    apply_settings_to_variables selected settings s = (Ok (vars s'), s') /\
    objs s' = objs s /\
    (forall a, a ∈ selected ->
       exists r r', dict_get (vars s) a = Some r /\ dict_get (vars s') a = Some r' /\
                    overwritten m VNone (Some x) r r') /\
    (forall b, b ∉ selected -> dict_get (vars s') b = dict_get (vars s) b).
Proof.
  intros Hm Hsingle Hx Hkeys.
  destruct (apply_loop_overwrites settings m VNone (Some x) eq
              (fun h => eq_refl) (fun h1 h2 h3 H1 H2 => eq_trans H1 H2)
              (fun s v r => apply_to_variable_single settings m x s v r Hm Hsingle Hx)
              selected s)
    as (s' & Hrun & Hsel & Hother & Hobjs).
  { intros v Hv. apply dict_get_keys, Hkeys, Hv. }
  exists s'. split.
  { unfold apply_settings_to_variables, sbind. rewrite Hrun. reflexivity. }
  split; [symmetry; exact Hobjs|]. split; assumption.
Qed.

Lemma apply_to_variable_written settings m q l s v r :
  getitem settings "method" = Ok m ->
  is_single_value_fill m = false ->
  getitem settings "quarters" = Ok q ->
  getitem settings "input" = Ok (VRef l) ->
  dict_get (vars s) v = Some r ->
  exists s1 r1,
    apply_to_variable v settings s = (Ok tt, s1) /\
    dict_get (vars s1) v = Some r1 /\
    overwritten m q None r r1 /\
    (forall b, b <> v -> dict_get (vars s1) b = dict_get (vars s) b) /\
    extends (objs s) (objs s1).
Proof.
  intros Hm Hns Hq Hi Hr.
  destruct (apply_to_variable_quarterly settings m q l Hm Hns Hq Hi v r s Hr)
    as (s1 & Hrun & Hobjs & Hv & Hother).
  exists s1, (quarterly_record m q r (fresh (dom (objs s)))).
  split; [exact Hrun|]. split; [exact Hv|]. split; [|split; [exact Hother|]].
  - intros field. unfold quarterly_record. rewrite !dict_get_set'.
    destruct (String.eqb_spec field "input") as [->|Hne]; reflexivity.
  - intros l0 xs Hl0. rewrite Hobjs, lookup_insert_ne; [exact Hl0|].
    intros <-. rewrite fresh_unallocated in Hl0. discriminate.
Qed.

(** X25.  With another method and a list as input, every selected variable
    gets the method and the quarters of the settings, its other fields but
    [input] staying as they were; the variables that are not selected are
    not touched, and every list object that existed is kept with its
    elements. *)
Theorem batch_quarterly_frame selected settings s m q l :
  getitem settings "method" = Ok m ->
  is_single_value_fill m = false ->
  getitem settings "quarters" = Ok q ->
  getitem settings "input" = Ok (VRef l) ->
  (forall v, v ∈ selected -> v ∈ dict_keys (vars s)) ->
  exists s',
    apply_settings_to_variables selected settings s = (Ok (vars s'), s') /\
    (forall a, a ∈ selected ->
       exists r r', dict_get (vars s) a = Some r /\ dict_get (vars s') a = Some r' /\
                    overwritten m q None r r') /\
    (forall b, b ∉ selected -> dict_get (vars s') b = dict_get (vars s) b) /\
    (forall l0 xs, objs s !! l0 = Some xs -> objs s' !! l0 = Some xs).
Proof.
  intros Hm Hns Hq Hi Hkeys.
  destruct (apply_loop_overwrites settings m q None extends
              (fun h l0 xs H => H) (fun h1 h2 h3 H1 H2 l0 xs H => H2 l0 xs (H1 l0 xs H))
              (fun s v r => apply_to_variable_written settings m q l s v r Hm Hns Hq Hi)
              selected s)
    as (s' & Hrun & Hsel & Hother & Hobjs).
  { intros v Hv. apply dict_get_keys, Hkeys, Hv. }
  exists s'. split.
  { unfold apply_settings_to_variables, sbind. rewrite Hrun. reflexivity. }
  split; [exact Hsel|]. split; [exact Hother | exact Hobjs].
Qed.

(** X26.  With another method and an input that is not a list, the batch
    raises [AttributeError] at its first variable and leaves it written by
    half: the method and the quarters are those of the settings, the input
    is the old one. *)
Theorem batch_scalar_input_half_written v rest settings s r m q x :
  getitem settings "method" = Ok m ->
  is_single_value_fill m = false ->
  getitem settings "quarters" = Ok q ->
  getitem settings "input" = Ok x ->
  (forall l, x <> VRef l) ->
  dict_get (vars s) v = Some r ->
  exists s' r',
    apply_settings_to_variables (v :: rest) settings s = (Raise AttributeError, s') /\
    dict_get (vars s') v = Some r' /\
    dict_get r' "method" = Some m /\
    dict_get r' "quarters" = Some q /\
    dict_get r' "input" = dict_get r "input" /\
    objs s' = objs s.
Proof.
  intros Hm Hns Hq Hx Hnot Hr.
  unfold apply_settings_to_variables. simpl apply_loop.
  unfold apply_to_variable, sbind, lift.
  rewrite Hm. unfold set_field at 1, sbind, sget, smodify. rewrite Hr. simpl.
  rewrite Hns, Hq.
  unfold set_field at 1, sbind, sget, smodify. simpl.
  rewrite dict_get_set_eq. simpl. rewrite Hx.
  assert (Hcopy : forall s0, list_copy x s0 = (Raise AttributeError, s0)).
  { intros s0. destruct x; try reflexivity. exfalso. exact (Hnot l eq_refl). }
  rewrite Hcopy. simpl.
  eexists. eexists. split; [reflexivity|]. simpl.
  split; [apply dict_get_set_eq|].
  rewrite !dict_get_set'. simpl. repeat split.
Qed.

(** *** Closed instances *)

Lemma batch_unknown_name_witness :
  dict_get (vars batch_store) "Z" = None /\
  apply_loop ["A"] batch_settings batch_store =
    (Ok tt, snd (apply_loop ["A"] batch_settings batch_store)) /\
  apply_settings_to_variables (["A"] ++ "Z" :: ["B"])%list batch_settings batch_store =
    (Raise KeyError, snd (apply_loop ["A"] batch_settings batch_store)).
Proof.
  assert (h1 : dict_get (vars batch_store) "Z" = None) by reflexivity.
  assert (h2 : apply_loop ["A"] batch_settings batch_store =
               (Ok tt, snd (apply_loop ["A"] batch_settings batch_store)))
    by (vm_compute; reflexivity).
  do 2 (split; [assumption|]).
  exact (batch_unknown_name ["A"] "Z" ["B"] batch_settings batch_store _ h1 h2).
Defined.

Lemma batch_single_value_witness :
  getitem batch_single_settings "method" = Ok (VStr "single_value_fill") /\
  is_single_value_fill (VStr "single_value_fill") = true /\
  getitem batch_single_settings "input" = Ok (VFloat float_zero) /\
  (forall v, v ∈ ["A"; "B"] -> v ∈ dict_keys (vars batch_store)) /\
  exists s',
    apply_settings_to_variables ["A"; "B"] batch_single_settings batch_store =
      (Ok (vars s'), s') /\
    objs s' = objs batch_store /\
    (forall a, a ∈ ["A"; "B"] ->
       exists r r', dict_get (vars batch_store) a = Some r /\
                    dict_get (vars s') a = Some r' /\
                    overwritten (VStr "single_value_fill") VNone
                      (Some (VFloat float_zero)) r r') /\
    (forall b, b ∉ ["A"; "B"] -> dict_get (vars s') b = dict_get (vars batch_store) b).
Proof.
  assert (h1 : getitem batch_single_settings "method" = Ok (VStr "single_value_fill"))
    by reflexivity.
  assert (h2 : is_single_value_fill (VStr "single_value_fill") = true) by reflexivity.
  assert (h3 : getitem batch_single_settings "input" = Ok (VFloat float_zero))
    by reflexivity.
  pose proof batch_selected_keys as h4.
  do 4 (split; [assumption|]).
  exact (batch_single_value ["A"; "B"] batch_single_settings batch_store _ _ h1 h2 h3 h4).
Defined.

Lemma batch_quarterly_frame_witness :
  getitem batch_settings "method" = Ok (VStr "quarterly_values_fill") /\
  is_single_value_fill (VStr "quarterly_values_fill") = false /\
  getitem batch_settings "quarters" = Ok (VStr "2024Q1:2024Q4") /\
  getitem batch_settings "input" = Ok (VRef 2%positive) /\
  (forall v, v ∈ ["A"; "B"] -> v ∈ dict_keys (vars batch_store)) /\
  exists s',
    apply_settings_to_variables ["A"; "B"] batch_settings batch_store =
      (Ok (vars s'), s') /\
    (forall a, a ∈ ["A"; "B"] ->
       exists r r', dict_get (vars batch_store) a = Some r /\
                    dict_get (vars s') a = Some r' /\
                    overwritten (VStr "quarterly_values_fill") (VStr "2024Q1:2024Q4")
                      None r r') /\
    (forall b, b ∉ ["A"; "B"] -> dict_get (vars s') b = dict_get (vars batch_store) b) /\
    (forall l0 xs, objs batch_store !! l0 = Some xs -> objs s' !! l0 = Some xs).
Proof.
  assert (h1 : getitem batch_settings "method" = Ok (VStr "quarterly_values_fill"))
    by reflexivity.
  assert (h2 : is_single_value_fill (VStr "quarterly_values_fill") = false) by reflexivity.
  assert (h3 : getitem batch_settings "quarters" = Ok (VStr "2024Q1:2024Q4")) by reflexivity.
  assert (h4 : getitem batch_settings "input" = Ok (VRef 2%positive)) by reflexivity.
  pose proof batch_selected_keys as h5.
  do 5 (split; [assumption|]).
  exact (batch_quarterly_frame ["A"; "B"] batch_settings batch_store _ _ _ h1 h2 h3 h4 h5).
Defined.

Lemma batch_scalar_input_half_written_witness :
  getitem batch_scalar_settings "method" = Ok (VStr "quarterly_values_fill") /\
  is_single_value_fill (VStr "quarterly_values_fill") = false /\
  getitem batch_scalar_settings "quarters" = Ok (VStr "2024Q1:2024Q4") /\
  getitem batch_scalar_settings "input" = Ok (VInt 0) /\
  (forall l, VInt 0 <> VRef l) /\
  dict_get (vars batch_store) "A" =
    Some [("category", VStr "macro"); ("method", VStr "single_value_fill");
          ("input", VInt 0); ("quarters", VNone)] /\
  exists s' r',
    apply_settings_to_variables ("A" :: ["B"]) batch_scalar_settings batch_store =
      (Raise AttributeError, s') /\
    dict_get (vars s') "A" = Some r' /\
    dict_get r' "method" = Some (VStr "quarterly_values_fill") /\
    dict_get r' "quarters" = Some (VStr "2024Q1:2024Q4") /\
    dict_get r' "input" =
      dict_get [("category", VStr "macro"); ("method", VStr "single_value_fill");
                ("input", VInt 0); ("quarters", VNone)] "input" /\
    objs s' = objs batch_store.
Proof.
  assert (h1 : getitem batch_scalar_settings "method" = Ok (VStr "quarterly_values_fill"))
    by reflexivity.
  assert (h2 : is_single_value_fill (VStr "quarterly_values_fill") = false) by reflexivity.
  assert (h3 : getitem batch_scalar_settings "quarters" = Ok (VStr "2024Q1:2024Q4"))
    by reflexivity.
  assert (h4 : getitem batch_scalar_settings "input" = Ok (VInt 0)) by reflexivity.
  assert (h5 : forall l, VInt 0 <> VRef l) by discriminate.
  assert (h6 : dict_get (vars batch_store) "A" =
               Some [("category", VStr "macro"); ("method", VStr "single_value_fill");
                     ("input", VInt 0); ("quarters", VNone)]) by reflexivity.
  do 6 (split; [assumption|]).
  exact (batch_scalar_input_half_written "A" ["B"] batch_scalar_settings batch_store
           _ _ _ _ h1 h2 h3 h4 h5 h6).
Defined.

End BatchMore.

(** ** [main]: the first render *)

Section FirstRender.

Variable float_of_str : string -> option spec_float.

Lemma main_after_init load_prev start_fresh s s1 current original :
  initialize_session load_prev start_fresh s = (Ok tt, s1) ->
  data (sess s1) = Some current ->
  original_data (sess s1) = Some original ->
  main_until_tabs float_of_str load_prev start_fresh s =
    match get_changed_variables float_of_str current original with
    | Ok changed =>
        match get_categories current with
        | Ok cats => (Ok (changed, cats), s1)
        | Raise e => (Raise e, s1)
        end
    | Raise e => (Raise e, s1)
    end.
Proof.
  intros Hinit Hdata Horig. unfold main_until_tabs, sbind at 1. rewrite Hinit.
  unfold session_get, of_result, sbind, sget, sret. rewrite Hdata, Horig.
  destruct (get_changed_variables float_of_str current original); [|reflexivity].
  rewrite Hdata. destruct (get_categories current); reflexivity.
Qed.

(** X27.  A fresh start marks nothing as changed: without a snapshot, with
    a specification file whose records can be compared and have text
    categories, the first render has the empty changed set and the groups of
    the specification. *)
Theorem fresh_start_nothing_changed load_prev start_fresh s base :
  files s !! TEMP_FILE = None ->
  files s !! BASELINE_SPEC = Some (JsonText base) ->
  initialized (sess s) = false ->
  comparable_config float_of_str base = true ->
  text_categories base = true ->
  exists cats,
    get_categories base = Ok cats /\
    main_until_tabs float_of_str load_prev start_fresh s = (Ok (∅, cats), seeded base s).
Proof.
  intros Hnone Hbase Hnew Hcmp Htext.
  destruct (categories_loop_text base Htext []) as (cats & Hcats & _).
  { intros k names Hin. inversion Hin. }
  exists cats. split; [exact Hcats|].
  rewrite (main_after_init _ _ s (seeded base s) base base).
  - unfold get_changed_variables.
    rewrite (changed_loop_refl float_of_str _ base ∅ Hcmp) by done.
    unfold get_categories. rewrite Hcats. reflexivity.
  - apply initialize_fresh; [exact Hnew | apply check_no_snapshot, Hnone | exact Hbase].
  - destruct s as [fs dk ss u]. reflexivity.
  - destruct s as [fs dk ss u]. reflexivity.
Qed.

(** X28.  The render after a resume shows the difference between the
    snapshot and the specification file: its changed set is the diff of the
    two, its groups are those of the snapshot. *)
Theorem resumed_render_diffs_snapshot load_prev start_fresh s doc base changed cats :
  files s !! TEMP_FILE = Some (JsonText doc) ->
  files s !! BASELINE_SPEC = Some (JsonText base) ->
  show_prompt (sess s) = Some false ->
  temp_data (sess s) = Some (Some doc) ->
  initialized (sess s) = false ->
  get_changed_variables float_of_str doc base = Ok changed ->
  get_categories doc = Ok cats ->
  main_until_tabs float_of_str load_prev start_fresh s =
    (Ok (changed, cats), resumed doc base s).
Proof.
  intros Hdoc Hbase Hsp Htemp Hnew Hchanged Hcats.
  assert (Hcheck : check_for_temp_file load_prev start_fresh s = (Ok (Some doc), s)).
  { rewrite (check_snapshot_chosen _ _ s doc Hdoc Hsp), Htemp. reflexivity. }
  rewrite (main_after_init _ _ s (resumed doc base s) doc base).
  - rewrite Hchanged, Hcats. reflexivity.
  - unfold initialize_session, sbind at 1, sget, swhen. rewrite Hnew. simpl.
    unfold sbind at 1. rewrite Hcheck.
    destruct s as [fs dk ss u]. simpl in *.
    unfold_script. simpl. rewrite Hbase. simpl. reflexivity.
  - destruct s as [fs dk ss u]. reflexivity.
  - destruct s as [fs dk ss u]. reflexivity.
Qed.

(** X29.  Without a snapshot and without a specification file the first
    render has the empty configuration: the error is on the page, the
    changed set is empty and there is no group. *)
Theorem missing_baseline_empty_render load_prev start_fresh s :
  files s !! TEMP_FILE = None ->
  files s !! BASELINE_SPEC = None ->
  initialized (sess s) = false ->
  main_until_tabs float_of_str load_prev start_fresh s =
    (Ok (∅, []),
     seeded [] (add_ui (UiError "Baseline specification (dummy_spec.json) not found!" None) s)).
Proof.
  intros Hnone Hbase Hnew.
  unfold main_until_tabs, sbind at 1.
  assert (Hinit : initialize_session load_prev start_fresh s =
            (Ok tt, seeded [] (add_ui (UiError
               "Baseline specification (dummy_spec.json) not found!" None) s))).
  { unfold initialize_session, sbind at 1, sget, swhen. rewrite Hnew. simpl.
    unfold sbind at 1. rewrite (check_no_snapshot _ _ s Hnone).
    destruct s as [fs dk ss u]. simpl in *.
    unfold_script. simpl. rewrite Hbase. simpl. reflexivity. }
  rewrite Hinit. destruct s as [fs dk ss u]. reflexivity.
Qed.

(** X30.  A specification file with a record that has no [category] is
    loaded as it is and stops the first render: after the changed set,
    [get_categories] raises [KeyError]. *)
Theorem uncategorized_record_stops_render load_prev start_fresh s pre v r post :
  files s !! TEMP_FILE = None ->
  files s !! BASELINE_SPEC = Some (JsonText (pre ++ (v, r) :: post)%list) ->
  initialized (sess s) = false ->
  comparable_config float_of_str (pre ++ (v, r) :: post)%list = true ->
  text_categories pre = true ->
  dict_get r "category" = None ->
  main_until_tabs float_of_str load_prev start_fresh s =
    (Raise KeyError, seeded (pre ++ (v, r) :: post)%list s).
Proof.
  intros Hnone Hbase Hnew Hcmp Htext Hr.
  set (base := (pre ++ (v, r) :: post)%list) in *.
  rewrite (main_after_init _ _ s (seeded base s) base base).
  - unfold get_changed_variables.
    rewrite (changed_loop_refl float_of_str _ base ∅ Hcmp) by done.
    assert (Hcats : get_categories base = Raise KeyError).
    { unfold get_categories.
      assert (Hgen : forall cats : groups, text_keys cats ->
                categories_loop (pre ++ (v, r) :: post)%list cats = Raise KeyError).
      { clear -Htext Hr. induction pre as [|[v0 r0] pre IH]; intros cats Hk.
        - simpl. unfold categorize, getitem. rewrite Hr. reflexivity.
        - simpl in Htext. apply andb_true_iff in Htext as [Hr0 Htext].
          apply bool_decide_eq_true_1 in Hr0 as [c0 Hc0]. simpl in Hc0.
          assert (Hcat : dict_get r0 "category" = Some (PStr c0)).
          { unfold text_category in Hc0.
            destruct (dict_get r0 "category") as [[]|]; try discriminate. congruence. }
          simpl. unfold categorize, getitem. rewrite Hcat. simpl.
          fold (group_add cats c0 v0). apply (IH Htext).
          apply group_add_spec, Hk. }
      apply Hgen. intros k names Hin. inversion Hin. }
    rewrite Hcats. reflexivity.
  - apply initialize_fresh; [exact Hnew | apply check_no_snapshot, Hnone | exact Hbase].
  - destruct s as [fs dk ss u]. reflexivity.
  - destruct s as [fs dk ss u]. reflexivity.
Qed.

End FirstRender.

(** ** Closed instances of the further properties *)

Lemma generate_quarters_labels_witness :
  label_matches "2024Q3" = true /\ label_matches "2025Q2" = true /\
  1 <= label_year "2024Q3" /\
  quarter_index "2024Q3" <= quarter_index "2025Q2" /\
  quarter_index "2025Q2" < 4 * MAXYEAR + 4 /\
  forall fuel,
    (Z.to_nat (quarter_index "2025Q2" - quarter_index "2024Q3" + 1) < fuel)%nat ->
    generate_quarters fuel "2024Q3" "2025Q2" =
      Some (Ok (map label_at (seqZ (quarter_index "2024Q3")
                                   (quarter_index "2025Q2" - quarter_index "2024Q3" + 1)))).
Proof.
  assert (h1 : label_matches "2024Q3" = true) by reflexivity.
  assert (h2 : label_matches "2025Q2" = true) by reflexivity.
  assert (h3 : 1 <= label_year "2024Q3") by (vm_compute; discriminate).
  assert (h4 : quarter_index "2024Q3" <= quarter_index "2025Q2") by (vm_compute; discriminate).
  assert (h5 : quarter_index "2025Q2" < 4 * MAXYEAR + 4) by reflexivity.
  do 5 (split; [assumption|]).
  exact (generate_quarters_labels "2024Q3" "2025Q2" h1 h2 h3 h4 h5).
Defined.

Lemma generate_quarters_year_zero_witness :
  label_matches "0000Q1" = true /\ label_year "0000Q1" = 0 /\
  (forall fuel other, generate_quarters fuel "0000Q1" other = Some (Raise ValueError)) /\
  (forall fuel other,
     label_matches other = true -> 1 <= label_year other ->
     generate_quarters fuel other "0000Q1" = Some (Raise ValueError)).
Proof.
  assert (h1 : label_matches "0000Q1" = true) by reflexivity.
  assert (h2 : label_year "0000Q1" = 0) by reflexivity.
  do 2 (split; [assumption|]).
  exact (generate_quarters_year_zero "0000Q1" h1 h2).
Defined.

Lemma generate_quarters_last_quarter_witness :
  label_matches "9998Q4" = true /\ label_matches "9999Q4" = true /\
  1 <= label_year "9998Q4" /\
  quarter_index "9999Q4" = 4 * MAXYEAR + 4 /\
  forall fuel,
    (Z.to_nat (quarter_index "9999Q4" - quarter_index "9998Q4") < fuel)%nat ->
    generate_quarters fuel "9998Q4" "9999Q4" = Some (Raise ValueError).
Proof.
  assert (h1 : label_matches "9998Q4" = true) by reflexivity.
  assert (h2 : label_matches "9999Q4" = true) by reflexivity.
  assert (h3 : 1 <= label_year "9998Q4") by (vm_compute; discriminate).
  assert (h4 : quarter_index "9999Q4" = 4 * MAXYEAR + 4) by reflexivity.
  do 4 (split; [assumption|]).
  exact (generate_quarters_last_quarter "9998Q4" "9999Q4" h1 h2 h3 h4).
Defined.

Lemma quarter_label_reads_back_witness :
  1000 <= 2024 <= 9999 /\ 1 <= 3 <= 4 /\
  label_matches (quarter_label 2024 3) = true /\
  quarter_to_date (quarter_label 2024 3) = Ok (quarter_start 2024 3).
Proof.
  assert (h1 : 1000 <= 2024 <= 9999) by lia.
  assert (h2 : 1 <= 3 <= 4) by lia.
  do 2 (split; [assumption|]).
  exact (quarter_label_reads_back 2024 3 h1 h2).
Defined.

Lemma quarter_label_unpadded_witness :
  1 <= 202 <= 999 /\ 1 <= 3 <= 4 /\
  label_matches (quarter_label 202 3) = false /\
  quarter_to_date (quarter_label 202 3) = Raise ValueError.
Proof.
  assert (h1 : 1 <= 202 <= 999) by lia.
  assert (h2 : 1 <= 3 <= 4) by lia.
  do 2 (split; [assumption|]).
  exact (quarter_label_unpadded 202 3 h1 h2).
Defined.

Lemma changed_iff_field_differs_witness :
  get_changed_variables no_text_floats rounded_committed rounded_baseline = Ok {["CPI"]} /\
  dict_get rounded_committed "CPI" =
    Some (quarterly_values "macro" [PInt (2 ^ 53 + 1)] "2024Q1:2024Q1") /\
  dict_get rounded_baseline "CPI" =
    Some (quarterly_values "macro" [PInt (2 ^ 53)] "2024Q1:2024Q1") /\
  has_fields (quarterly_values "macro" [PInt (2 ^ 53 + 1)] "2024Q1:2024Q1")
    (PStr "quarterly_values_fill") (PList [PInt (2 ^ 53 + 1)]) (PStr "2024Q1:2024Q1") /\
  has_fields (quarterly_values "macro" [PInt (2 ^ 53)] "2024Q1:2024Q1")
    (PStr "quarterly_values_fill") (PList [PInt (2 ^ 53)]) (PStr "2024Q1:2024Q1") /\
  nan_free (PStr "quarterly_values_fill") = true /\
  nan_free (PStr "2024Q1:2024Q1") = true /\
  nan_free (PList [PInt (2 ^ 53 + 1)]) = true /\
  ("CPI" ∈ ({["CPI"]} : gset string) <->
   py_ne (PStr "quarterly_values_fill") (PStr "quarterly_values_fill") = true \/
   py_ne (PStr "2024Q1:2024Q1") (PStr "2024Q1:2024Q1") = true \/
   py_ne (PList [PInt (2 ^ 53 + 1)]) (PList [PInt (2 ^ 53)]) = true).
Proof.
  assert (h1 : get_changed_variables no_text_floats rounded_committed rounded_baseline
               = Ok {["CPI"]}) by (vm_compute; reflexivity).
  assert (h2 : dict_get rounded_committed "CPI" =
               Some (quarterly_values "macro" [PInt (2 ^ 53 + 1)] "2024Q1:2024Q1"))
    by reflexivity.
  assert (h3 : dict_get rounded_baseline "CPI" =
               Some (quarterly_values "macro" [PInt (2 ^ 53)] "2024Q1:2024Q1"))
    by reflexivity.
  assert (h4 : has_fields (quarterly_values "macro" [PInt (2 ^ 53 + 1)] "2024Q1:2024Q1")
                 (PStr "quarterly_values_fill") (PList [PInt (2 ^ 53 + 1)])
                 (PStr "2024Q1:2024Q1")) by (repeat split).
  assert (h5 : has_fields (quarterly_values "macro" [PInt (2 ^ 53)] "2024Q1:2024Q1")
                 (PStr "quarterly_values_fill") (PList [PInt (2 ^ 53)])
                 (PStr "2024Q1:2024Q1")) by (repeat split).
  assert (h6 : nan_free (PStr "quarterly_values_fill") = true) by reflexivity.
  assert (h7 : nan_free (PStr "2024Q1:2024Q1") = true) by reflexivity.
  assert (h8 : nan_free (PList [PInt (2 ^ 53 + 1)]) = true) by reflexivity.
  do 8 (split; [assumption|]).
  exact (changed_iff_field_differs no_text_floats rounded_committed rounded_baseline
           {["CPI"]} "CPI" _ _ _ _ _ _ _ _ h1 h2 h3 h4 h5 h6 h7 (fun _ => h8)).
Defined.

Lemma scalar_against_sequence_raises_witness :
  dict_keys retyped_committed = (["GDP"] ++ "CPI" :: [])%list /\
  is_ok (changed_loop no_text_floats ["GDP"] retyped_committed retyped_baseline ∅) = true /\
  dict_get retyped_committed "CPI" = Some (single_value "macro" (PFloat float_zero)) /\
  dict_get retyped_baseline "CPI" =
    Some (quarterly_values "macro" [PInt 1; PInt 2] "2024Q1:2024Q2") /\
  has_fields (single_value "macro" (PFloat float_zero))
    (PStr "single_value_fill") (PFloat float_zero) PNone /\
  has_fields (quarterly_values "macro" [PInt 1; PInt 2] "2024Q1:2024Q2")
    (PStr "quarterly_values_fill") (PList [PInt 1; PInt 2]) (PStr "2024Q1:2024Q2") /\
  is_list_or_tuple (PFloat float_zero) = false /\
  is_ok (py_float no_text_floats (PFloat float_zero)) = true /\
  get_changed_variables no_text_floats retyped_committed retyped_baseline = Raise TypeError.
Proof.
  assert (h1 : dict_keys retyped_committed = (["GDP"] ++ "CPI" :: [])%list) by reflexivity.
  assert (h2 : is_ok (changed_loop no_text_floats ["GDP"] retyped_committed
                        retyped_baseline ∅) = true) by reflexivity.
  assert (h3 : dict_get retyped_committed "CPI" =
               Some (single_value "macro" (PFloat float_zero))) by reflexivity.
  assert (h4 : dict_get retyped_baseline "CPI" =
               Some (quarterly_values "macro" [PInt 1; PInt 2] "2024Q1:2024Q2"))
    by reflexivity.
  assert (h5 : has_fields (single_value "macro" (PFloat float_zero))
                 (PStr "single_value_fill") (PFloat float_zero) PNone) by (repeat split).
  assert (h6 : has_fields (quarterly_values "macro" [PInt 1; PInt 2] "2024Q1:2024Q2")
                 (PStr "quarterly_values_fill") (PList [PInt 1; PInt 2])
                 (PStr "2024Q1:2024Q2")) by (repeat split).
  assert (h7 : is_list_or_tuple (PFloat float_zero) = false) by reflexivity.
  assert (h8 : is_ok (py_float no_text_floats (PFloat float_zero)) = true) by reflexivity.
  do 8 (split; [assumption|]).
  exact (scalar_against_sequence_raises no_text_floats retyped_committed retyped_baseline
           ["GDP"] "CPI" [] _ _ _ _ _ _ _ _ h1 h2 h3 h4 h5 h6 h7 h8).
Defined.

Lemma get_categories_groups_witness :
  text_categories sector_config = true /\
  exists result,
    get_categories sector_config = Ok result /\
    forall c,
      group_find result (PStr c) =
        match names_in_category c sector_config with
        | [] => None
        | names => Some names
        end.
Proof.
  assert (h1 : text_categories sector_config = true) by reflexivity.
  split; [assumption|].
  exact (get_categories_groups sector_config h1).
Defined.

Lemma get_categories_order_witness :
  text_categories sector_config = true /\
  exists result,
    get_categories sector_config = Ok result /\
    map fst result = map PStr (first_seen [] (category_sequence sector_config)).
Proof.
  assert (h1 : text_categories sector_config = true) by reflexivity.
  split; [assumption|].
  exact (get_categories_order sector_config h1).
Defined.

Lemma get_categories_missing_category_witness :
  text_categories [("GDP", single_value "macro" (PInt 0))] = true /\
  dict_get uncategorized_record "category" = None /\
  get_categories ([("GDP", single_value "macro" (PInt 0))] ++
                  ("CPI", uncategorized_record) :: [])%list = Raise KeyError.
Proof.
  assert (h1 : text_categories [("GDP", single_value "macro" (PInt 0))] = true)
    by reflexivity.
  assert (h2 : dict_get uncategorized_record "category" = None) by reflexivity.
  do 2 (split; [assumption|]).
  exact (get_categories_missing_category _ "CPI" uncategorized_record [] h1 h2).
Defined.

Lemma no_snapshot_starts_fresh_witness :
  files baseline_only_state !! TEMP_FILE = None /\
  initialized (sess baseline_only_state) = false /\
  check_for_temp_file true true baseline_only_state = (Ok None, baseline_only_state) /\
  initialize_session true true baseline_only_state =
    match load_spec_file baseline_only_state with
    | (Ok doc, s1) => (Ok tt, seeded doc s1)
    | (Raise e, s1) => (Raise e, s1)
    end.
Proof.
  assert (h1 : files baseline_only_state !! TEMP_FILE = None) by reflexivity.
  assert (h2 : initialized (sess baseline_only_state) = false) by reflexivity.
  do 2 (split; [assumption|]).
  exact (no_snapshot_starts_fresh true true baseline_only_state h1 h2).
Defined.

Lemma snapshot_prompt_blocks_witness :
  files (snapshot_state always_written) !! TEMP_FILE = Some (JsonText drift_committed) /\
  show_prompt (sess (snapshot_state always_written)) <> Some false /\
  initialized (sess (snapshot_state always_written)) = false /\
  initialize_session false false (snapshot_state always_written) =
    (Raise StopScript, prompt_shown (snapshot_state always_written)) /\
  files (prompt_shown (snapshot_state always_written)) =
    files (snapshot_state always_written) /\
  data (sess (prompt_shown (snapshot_state always_written))) =
    data (sess (snapshot_state always_written)) /\
  original_data (sess (prompt_shown (snapshot_state always_written))) =
    original_data (sess (snapshot_state always_written)) /\
  initialized (sess (prompt_shown (snapshot_state always_written))) = false /\
  ui (prompt_shown (snapshot_state always_written)) =
    (ui (snapshot_state always_written) ++ [UiPrompt])%list.
Proof.
  assert (h1 : files (snapshot_state always_written) !! TEMP_FILE =
               Some (JsonText drift_committed)) by reflexivity.
  assert (h2 : show_prompt (sess (snapshot_state always_written)) <> Some false)
    by discriminate.
  assert (h3 : initialized (sess (snapshot_state always_written)) = false) by reflexivity.
  do 3 (split; [assumption|]).
  exact (snapshot_prompt_blocks (snapshot_state always_written) drift_committed h1 h2 h3).
Defined.

Lemma resume_restores_snapshot_witness :
  files (snapshot_state always_written) !! TEMP_FILE = Some (JsonText drift_committed) /\
  files (snapshot_state always_written) !! BASELINE_SPEC = Some (JsonText drift_baseline) /\
  show_prompt (sess (snapshot_state always_written)) <> Some false /\
  initialized (sess (snapshot_state always_written)) = false /\
  exists s1 s2,
    initialize_session true false (snapshot_state always_written) = (Raise RerunScript, s1) /\
    initialize_session false false s1 = (Ok tt, s2) /\
    data (sess s2) = Some drift_committed /\
    original_data (sess s2) = Some drift_baseline /\
    initialized (sess s2) = true /\
    files s2 = files (snapshot_state always_written).
Proof.
  assert (h1 : files (snapshot_state always_written) !! TEMP_FILE =
               Some (JsonText drift_committed)) by reflexivity.
  assert (h2 : files (snapshot_state always_written) !! BASELINE_SPEC =
               Some (JsonText drift_baseline)) by reflexivity.
  assert (h3 : show_prompt (sess (snapshot_state always_written)) <> Some false)
    by discriminate.
  assert (h4 : initialized (sess (snapshot_state always_written)) = false) by reflexivity.
  do 4 (split; [assumption|]).
  exact (resume_restores_snapshot false false false (snapshot_state always_written)
           drift_committed drift_baseline h1 h2 h3 h4).
Defined.

Lemma discard_starts_fresh_witness :
  files (snapshot_state always_written) !! TEMP_FILE = Some (JsonText drift_committed) /\
  files (snapshot_state always_written) !! BASELINE_SPEC = Some (JsonText drift_baseline) /\
  show_prompt (sess (snapshot_state always_written)) <> Some false /\
  initialized (sess (snapshot_state always_written)) = false /\
  exists s1 s2,
    initialize_session false true (snapshot_state always_written) = (Raise RerunScript, s1) /\
    files s1 = delete TEMP_FILE (files (snapshot_state always_written)) /\
    initialize_session false false s1 = (Ok tt, s2) /\
    data (sess s2) = Some drift_baseline /\
    original_data (sess s2) = Some drift_baseline /\
    initialized (sess s2) = true /\
    files s2 = delete TEMP_FILE (files (snapshot_state always_written)).
Proof.
  assert (h1 : files (snapshot_state always_written) !! TEMP_FILE =
               Some (JsonText drift_committed)) by reflexivity.
  assert (h2 : files (snapshot_state always_written) !! BASELINE_SPEC =
               Some (JsonText drift_baseline)) by reflexivity.
  assert (h3 : show_prompt (sess (snapshot_state always_written)) <> Some false)
    by discriminate.
  assert (h4 : initialized (sess (snapshot_state always_written)) = false) by reflexivity.
  do 4 (split; [assumption|]).
  exact (discard_starts_fresh false false (snapshot_state always_written)
           drift_committed drift_baseline h1 h2 h3 h4).
Defined.

Lemma saved_state_resumes_witness :
  disk baseline_only_state TEMP_FILE = Written /\
  files baseline_only_state !! BASELINE_SPEC = Some (JsonText drift_baseline) /\
  exists s1 s2,
    initialize_session true false
      (restart (snd (save_temp_state drift_committed baseline_only_state))) =
      (Raise RerunScript, s1) /\
    initialize_session false false s1 = (Ok tt, s2) /\
    data (sess s2) = Some drift_committed /\
    original_data (sess s2) = Some drift_baseline.
Proof.
  assert (h1 : disk baseline_only_state TEMP_FILE = Written) by reflexivity.
  assert (h2 : files baseline_only_state !! BASELINE_SPEC = Some (JsonText drift_baseline))
    by reflexivity.
  do 2 (split; [assumption|]).
  exact (saved_state_resumes drift_committed baseline_only_state drift_baseline
           false false false h1 h2).
Defined.

Lemma save_final_config_frame_witness :
  BASELINE_SPEC <> "config_" +:+ "20240101_120000" +:+ ".json" /\
  BASELINE_SPEC <> TEMP_FILE /\
  files (snd (save_final_config "20240101_120000" drift_committed
                (snapshot_state always_written))) !! BASELINE_SPEC =
    files (snapshot_state always_written) !! BASELINE_SPEC.
Proof.
  assert (h1 : BASELINE_SPEC <> "config_" +:+ "20240101_120000" +:+ ".json")
    by discriminate.
  assert (h2 : BASELINE_SPEC <> TEMP_FILE) by discriminate.
  do 2 (split; [assumption|]).
  exact (save_final_config_frame "20240101_120000" drift_committed
           (snapshot_state always_written) BASELINE_SPEC h1 h2).
Defined.

Lemma final_save_ends_recovery_witness :
  disk (snapshot_state always_written) ("config_" +:+ "20240101_120000" +:+ ".json") = Written /\
  check_for_temp_file true false
    (restart (snd (save_final_config "20240101_120000" drift_committed
                     (snapshot_state always_written)))) =
    (Ok None,
     restart (snd (save_final_config "20240101_120000" drift_committed
                     (snapshot_state always_written)))).
Proof.
  assert (h1 : disk (snapshot_state always_written)
                 ("config_" +:+ "20240101_120000" +:+ ".json") = Written) by reflexivity.
  split; [assumption|].
  exact (final_save_ends_recovery "20240101_120000" drift_committed
           (snapshot_state always_written) true false h1).
Defined.

Lemma failed_snapshot_write_loses_work_witness :
  disk (snapshot_state (fun _ => DumpFails)) TEMP_FILE = DumpFails /\
  check_for_temp_file true false
    (restart (snd (save_temp_state drift_baseline (snapshot_state (fun _ => DumpFails))))) =
    (Ok None,
     set_files (delete TEMP_FILE)
       (restart (snd (save_temp_state drift_baseline
                        (snapshot_state (fun _ => DumpFails)))))) /\
  files (set_files (delete TEMP_FILE)
           (restart (snd (save_temp_state drift_baseline
                            (snapshot_state (fun _ => DumpFails)))))) !! TEMP_FILE = None.
Proof.
  assert (h1 : disk (snapshot_state (fun _ => DumpFails)) TEMP_FILE = DumpFails)
    by reflexivity.
  split; [assumption|].
  exact (failed_snapshot_write_loses_work drift_baseline
           (snapshot_state (fun _ => DumpFails)) true false h1).
Defined.

Lemma fresh_start_nothing_changed_witness :
  files baseline_only_state !! TEMP_FILE = None /\
  files baseline_only_state !! BASELINE_SPEC = Some (JsonText drift_baseline) /\
  initialized (sess baseline_only_state) = false /\
  comparable_config no_text_floats drift_baseline = true /\
  text_categories drift_baseline = true /\
  exists cats,
    get_categories drift_baseline = Ok cats /\
    main_until_tabs no_text_floats false false baseline_only_state =
      (Ok (∅, cats), seeded drift_baseline baseline_only_state).
Proof.
  assert (h1 : files baseline_only_state !! TEMP_FILE = None) by reflexivity.
  assert (h2 : files baseline_only_state !! BASELINE_SPEC = Some (JsonText drift_baseline))
    by reflexivity.
  assert (h3 : initialized (sess baseline_only_state) = false) by reflexivity.
  assert (h4 : comparable_config no_text_floats drift_baseline = true) by reflexivity.
  assert (h5 : text_categories drift_baseline = true) by reflexivity.
  do 5 (split; [assumption|]).
  exact (fresh_start_nothing_changed no_text_floats false false baseline_only_state
           drift_baseline h1 h2 h3 h4 h5).
Defined.

Lemma resumed_render_diffs_snapshot_witness :
  files (chose_resume dropped_committed edited_snapshot_state) !! TEMP_FILE =
    Some (JsonText dropped_committed) /\
  files (chose_resume dropped_committed edited_snapshot_state) !! BASELINE_SPEC =
    Some (JsonText dropped_baseline) /\
  show_prompt (sess (chose_resume dropped_committed edited_snapshot_state)) = Some false /\
  temp_data (sess (chose_resume dropped_committed edited_snapshot_state)) =
    Some (Some dropped_committed) /\
  initialized (sess (chose_resume dropped_committed edited_snapshot_state)) = false /\
  get_changed_variables no_text_floats dropped_committed dropped_baseline = Ok {["GDP"]} /\
  get_categories dropped_committed = Ok [(PStr "macro", ["GDP"])] /\
  main_until_tabs no_text_floats false false
    (chose_resume dropped_committed edited_snapshot_state) =
    (Ok ({["GDP"]}, [(PStr "macro", ["GDP"])]),
     resumed dropped_committed dropped_baseline
       (chose_resume dropped_committed edited_snapshot_state)).
Proof.
  assert (h1 : files (chose_resume dropped_committed edited_snapshot_state) !! TEMP_FILE =
               Some (JsonText dropped_committed)) by reflexivity.
  assert (h2 : files (chose_resume dropped_committed edited_snapshot_state) !! BASELINE_SPEC =
               Some (JsonText dropped_baseline)) by reflexivity.
  assert (h3 : show_prompt (sess (chose_resume dropped_committed edited_snapshot_state)) =
               Some false) by reflexivity.
  assert (h4 : temp_data (sess (chose_resume dropped_committed edited_snapshot_state)) =
               Some (Some dropped_committed)) by reflexivity.
  assert (h5 : initialized (sess (chose_resume dropped_committed edited_snapshot_state)) =
               false) by reflexivity.
  assert (h6 : get_changed_variables no_text_floats dropped_committed dropped_baseline =
               Ok {["GDP"]}) by (vm_compute; reflexivity).
  assert (h7 : get_categories dropped_committed = Ok [(PStr "macro", ["GDP"])])
    by reflexivity.
  do 7 (split; [assumption|]).
  exact (resumed_render_diffs_snapshot no_text_floats false false _ _ _ _ _
           h1 h2 h3 h4 h5 h6 h7).
Defined.

Lemma missing_baseline_empty_render_witness :
  files empty_disk_state !! TEMP_FILE = None /\
  files empty_disk_state !! BASELINE_SPEC = None /\
  initialized (sess empty_disk_state) = false /\
  main_until_tabs no_text_floats false false empty_disk_state =
    (Ok (∅, []),
     seeded [] (add_ui (UiError "Baseline specification (dummy_spec.json) not found!" None)
                       empty_disk_state)).
Proof.
  assert (h1 : files empty_disk_state !! TEMP_FILE = None) by reflexivity.
  assert (h2 : files empty_disk_state !! BASELINE_SPEC = None) by reflexivity.
  assert (h3 : initialized (sess empty_disk_state) = false) by reflexivity.
  do 3 (split; [assumption|]).
  exact (missing_baseline_empty_render no_text_floats false false empty_disk_state h1 h2 h3).
Defined.

Lemma uncategorized_record_stops_render_witness :
  files uncategorized_state !! TEMP_FILE = None /\
  files uncategorized_state !! BASELINE_SPEC = Some (JsonText uncategorized_spec) /\
  initialized (sess uncategorized_state) = false /\
  comparable_config no_text_floats uncategorized_spec = true /\
  text_categories [("GDP", single_value "macro" (PInt 0))] = true /\
  dict_get uncategorized_record "category" = None /\
  main_until_tabs no_text_floats false false uncategorized_state =
    (Raise KeyError, seeded uncategorized_spec uncategorized_state).
Proof.
  assert (h1 : files uncategorized_state !! TEMP_FILE = None) by reflexivity.
  assert (h2 : files uncategorized_state !! BASELINE_SPEC = Some (JsonText uncategorized_spec))
    by reflexivity.
  assert (h3 : initialized (sess uncategorized_state) = false) by reflexivity.
  assert (h4 : comparable_config no_text_floats uncategorized_spec = true) by reflexivity.
  assert (h5 : text_categories [("GDP", single_value "macro" (PInt 0))] = true)
    by reflexivity.
  assert (h6 : dict_get uncategorized_record "category" = None) by reflexivity.
  do 6 (split; [assumption|]).
  exact (uncategorized_record_stops_render no_text_floats false false uncategorized_state
           [("GDP", single_value "macro" (PInt 0))] "CPI" uncategorized_record []
           h1 h2 h3 h4 h5 h6).
Defined.
